(** * upload-lambda: the upload handler, its request parser and its pipeline

    A shallow embedding of [src/main/upload-function.py].  Python [str]
    values are modelled by [string] (a text is represented by its UTF-8
    bytes, so that [encode('utf-8')] is the identity), [bytes] values by
    [list byte], parsed JSON by the inductive [json], and the calls into the
    outside world (record store, object store, file system, decoder
    subprocess) by a state monad over [world] reading the answers of the
    collaborators from an [env]. *)

From Stdlib Require Import ZArith NArith Lia Bool List Ascii String.
From Stdlib Require Import Strings.Byte.
From Stdlib Require Import Sorting.Sorted Sorting.Permutation Sorting.Mergesort Orders.
From Stdlib Require Import Decimal DecimalString.
From stdpp Require Import base decidable strings gmap sorting.
Import ListNotations.

Local Open Scope string_scope.
Local Open Scope list_scope.

Set Warnings "-clear-no-such-hyp,-abstract-large-number".

(** ** Text as [str] has it

    A [str] is a sequence of code points; this development keeps a text as
    the bytes of its UTF-8 encoding.  [decode] and [encode] go from one to
    the other, and [lower] is [str.lower()] on the code points: the
    lowercase mapping of each one, with the rule for the capital sigma.  The
    three tables are those of Unicode 14.0.0, the version of CPython 3.11. *)

Module Unicode.

Local Open Scope N_scope.

(** A byte that starts no well-formed sequence is kept apart, above the
    last code point, so that [encode] gives it back. *)
Definition stray (n : N) : N := 1114112 + n.

Definition between (n lo hi : N) : bool := (lo <=? n) && (n <=? hi).

(** The code points of a UTF-8 encoded text. *)
Fixpoint decode (s : string) : list N :=
  match s with
  | EmptyString => []
  | String c1 r1 =>
      let n1 := N_of_ascii c1 in
      if n1 <? 128 then n1 :: decode r1
      else
        match r1 with
        | String c2 r2 =>
            let n2 := N_of_ascii c2 in
            if between n1 194 223 && between n2 128 191 then
              ((n1 - 192) * 64 + (n2 - 128)) :: decode r2
            else
              match r2 with
              | String c3 r3 =>
                  let n3 := N_of_ascii c3 in
                  if between n1 224 239
                     && between n2 (if n1 =? 224 then 160 else 128)
                                   (if n1 =? 237 then 159 else 191)
                     && between n3 128 191 then
                    ((n1 - 224) * 4096 + (n2 - 128) * 64 + (n3 - 128)) :: decode r3
                  else
                    match r3 with
                    | String c4 r4 =>
                        let n4 := N_of_ascii c4 in
                        if between n1 240 244
                           && between n2 (if n1 =? 240 then 144 else 128)
                                         (if n1 =? 244 then 143 else 191)
                           && between n3 128 191 && between n4 128 191 then
                          ((n1 - 240) * 262144 + (n2 - 128) * 4096
                           + (n3 - 128) * 64 + (n4 - 128)) :: decode r4
                        else stray n1 :: decode r1
                    | EmptyString => stray n1 :: decode r1
                    end
              | EmptyString => stray n1 :: decode r1
              end
        | EmptyString => stray n1 :: decode r1
        end
  end.

(** The UTF-8 encoding of one code point. *)
Definition encode1 (c : N) : string :=
  if c <? 128 then String (ascii_of_N c) ""
  else if c <? 2048 then
    String (ascii_of_N (192 + c / 64))
   (String (ascii_of_N (128 + c mod 64)) "")
  else if c <? 65536 then
    String (ascii_of_N (224 + c / 4096))
   (String (ascii_of_N (128 + (c / 64) mod 64))
   (String (ascii_of_N (128 + c mod 64)) ""))
  else if c <? 1114112 then
    String (ascii_of_N (240 + c / 262144))
   (String (ascii_of_N (128 + (c / 4096) mod 64))
   (String (ascii_of_N (128 + (c / 64) mod 64))
   (String (ascii_of_N (128 + c mod 64)) "")))
  else String (ascii_of_N (c - 1114112)) "".

Fixpoint encode (l : list N) : string :=
  match l with
  | [] => ""
  | c :: r => encode1 c +:+ encode r
  end.

(** The simple lowercase mappings, in runs: [(lo, hi, step, to)] maps
    [lo + k * step], up to [hi], to [to + k * step]. *)
Definition lower_runs : list (N * N * N * N) :=
  [(65, 90, 1, 97); (192, 214, 1, 224); (216, 222, 1, 248);
   (256, 302, 2, 257); (306, 310, 2, 307); (313, 327, 2, 314);
   (330, 374, 2, 331); (376, 376, 1, 255); (377, 381, 2, 378);
   (385, 385, 1, 595); (386, 388, 2, 387); (390, 390, 1, 596);
   (391, 391, 1, 392); (393, 394, 1, 598); (395, 395, 1, 396);
   (398, 398, 1, 477); (399, 399, 1, 601); (400, 400, 1, 603);
   (401, 401, 1, 402); (403, 403, 1, 608); (404, 404, 1, 611);
   (406, 406, 1, 617); (407, 407, 1, 616); (408, 408, 1, 409);
   (412, 412, 1, 623); (413, 413, 1, 626); (415, 415, 1, 629);
   (416, 420, 2, 417); (422, 422, 1, 640); (423, 423, 1, 424);
   (425, 425, 1, 643); (428, 428, 1, 429); (430, 430, 1, 648);
   (431, 431, 1, 432); (433, 434, 1, 650); (435, 437, 2, 436);
   (439, 439, 1, 658); (440, 440, 1, 441); (444, 444, 1, 445);
   (452, 452, 1, 454); (453, 453, 1, 454); (455, 455, 1, 457);
   (456, 456, 1, 457); (458, 458, 1, 460); (459, 475, 2, 460);
   (478, 494, 2, 479); (497, 497, 1, 499); (498, 500, 2, 499);
   (502, 502, 1, 405); (503, 503, 1, 447); (504, 542, 2, 505);
   (544, 544, 1, 414); (546, 562, 2, 547); (570, 570, 1, 11365);
   (571, 571, 1, 572); (573, 573, 1, 410); (574, 574, 1, 11366);
   (577, 577, 1, 578); (579, 579, 1, 384); (580, 580, 1, 649);
   (581, 581, 1, 652); (582, 590, 2, 583); (880, 882, 2, 881);
   (886, 886, 1, 887); (895, 895, 1, 1011); (902, 902, 1, 940);
   (904, 906, 1, 941); (908, 908, 1, 972); (910, 911, 1, 973);
   (913, 929, 1, 945); (931, 939, 1, 963); (975, 975, 1, 983);
   (984, 1006, 2, 985); (1012, 1012, 1, 952); (1015, 1015, 1, 1016);
   (1017, 1017, 1, 1010); (1018, 1018, 1, 1019); (1021, 1023, 1, 891);
   (1024, 1039, 1, 1104); (1040, 1071, 1, 1072); (1120, 1152, 2, 1121);
   (1162, 1214, 2, 1163); (1216, 1216, 1, 1231); (1217, 1229, 2, 1218);
   (1232, 1326, 2, 1233); (1329, 1366, 1, 1377); (4256, 4293, 1, 11520);
   (4295, 4295, 1, 11559); (4301, 4301, 1, 11565); (5024, 5103, 1, 43888);
   (5104, 5109, 1, 5112); (7312, 7354, 1, 4304); (7357, 7359, 1, 4349);
   (7680, 7828, 2, 7681); (7838, 7838, 1, 223); (7840, 7934, 2, 7841);
   (7944, 7951, 1, 7936); (7960, 7965, 1, 7952); (7976, 7983, 1, 7968);
   (7992, 7999, 1, 7984); (8008, 8013, 1, 8000); (8025, 8031, 2, 8017);
   (8040, 8047, 1, 8032); (8072, 8079, 1, 8064); (8088, 8095, 1, 8080);
   (8104, 8111, 1, 8096); (8120, 8121, 1, 8112); (8122, 8123, 1, 8048);
   (8124, 8124, 1, 8115); (8136, 8139, 1, 8050); (8140, 8140, 1, 8131);
   (8152, 8153, 1, 8144); (8154, 8155, 1, 8054); (8168, 8169, 1, 8160);
   (8170, 8171, 1, 8058); (8172, 8172, 1, 8165); (8184, 8185, 1, 8056);
   (8186, 8187, 1, 8060); (8188, 8188, 1, 8179); (8486, 8486, 1, 969);
   (8490, 8490, 1, 107); (8491, 8491, 1, 229); (8498, 8498, 1, 8526);
   (8544, 8559, 1, 8560); (8579, 8579, 1, 8580); (9398, 9423, 1, 9424);
   (11264, 11311, 1, 11312); (11360, 11360, 1, 11361);
   (11362, 11362, 1, 619); (11363, 11363, 1, 7549); (11364, 11364, 1, 637);
   (11367, 11371, 2, 11368); (11373, 11373, 1, 593); (11374, 11374, 1, 625);
   (11375, 11375, 1, 592); (11376, 11376, 1, 594); (11378, 11378, 1, 11379);
   (11381, 11381, 1, 11382); (11390, 11391, 1, 575);
   (11392, 11490, 2, 11393); (11499, 11501, 2, 11500);
   (11506, 11506, 1, 11507); (42560, 42604, 2, 42561);
   (42624, 42650, 2, 42625); (42786, 42798, 2, 42787);
   (42802, 42862, 2, 42803); (42873, 42875, 2, 42874);
   (42877, 42877, 1, 7545); (42878, 42886, 2, 42879);
   (42891, 42891, 1, 42892); (42893, 42893, 1, 613);
   (42896, 42898, 2, 42897); (42902, 42920, 2, 42903);
   (42922, 42922, 1, 614); (42923, 42923, 1, 604); (42924, 42924, 1, 609);
   (42925, 42925, 1, 620); (42926, 42926, 1, 618); (42928, 42928, 1, 670);
   (42929, 42929, 1, 647); (42930, 42930, 1, 669); (42931, 42931, 1, 43859);
   (42932, 42946, 2, 42933); (42948, 42948, 1, 42900);
   (42949, 42949, 1, 642); (42950, 42950, 1, 7566); (42951, 42953, 2, 42952);
   (42960, 42960, 1, 42961); (42966, 42968, 2, 42967);
   (42997, 42997, 1, 42998); (65313, 65338, 1, 65345);
   (66560, 66599, 1, 66600); (66736, 66771, 1, 66776);
   (66928, 66938, 1, 66967); (66940, 66954, 1, 66979);
   (66956, 66962, 1, 66995); (66964, 66965, 1, 67003);
   (68736, 68786, 1, 68800); (71840, 71871, 1, 71872);
   (93760, 93791, 1, 93792); (125184, 125217, 1, 125218)].

(** The code points with the property Cased, in ranges. *)
Definition cased_ranges : list (N * N) :=
  [(65, 90); (97, 122); (170, 170); (181, 181); (186, 186); (192, 214);
   (216, 246); (248, 442); (444, 447); (452, 659); (661, 696); (704, 705);
   (736, 740); (837, 837); (880, 883); (886, 887); (890, 893); (895, 895);
   (902, 902); (904, 906); (908, 908); (910, 929); (931, 1013); (1015, 1153);
   (1162, 1327); (1329, 1366); (1376, 1416); (4256, 4293); (4295, 4295);
   (4301, 4301); (4304, 4346); (4349, 4351); (5024, 5109); (5112, 5117);
   (7296, 7304); (7312, 7354); (7357, 7359); (7424, 7615); (7680, 7957);
   (7960, 7965); (7968, 8005); (8008, 8013); (8016, 8023); (8025, 8025);
   (8027, 8027); (8029, 8029); (8031, 8061); (8064, 8116); (8118, 8124);
   (8126, 8126); (8130, 8132); (8134, 8140); (8144, 8147); (8150, 8155);
   (8160, 8172); (8178, 8180); (8182, 8188); (8305, 8305); (8319, 8319);
   (8336, 8348); (8450, 8450); (8455, 8455); (8458, 8467); (8469, 8469);
   (8473, 8477); (8484, 8484); (8486, 8486); (8488, 8488); (8490, 8493);
   (8495, 8500); (8505, 8505); (8508, 8511); (8517, 8521); (8526, 8526);
   (8544, 8575); (8579, 8580); (9398, 9449); (11264, 11492); (11499, 11502);
   (11506, 11507); (11520, 11557); (11559, 11559); (11565, 11565);
   (42560, 42605); (42624, 42653); (42786, 42887); (42891, 42894);
   (42896, 42954); (42960, 42961); (42963, 42963); (42965, 42969);
   (42997, 42998); (43000, 43002); (43824, 43866); (43868, 43880);
   (43888, 43967); (64256, 64262); (64275, 64279); (65313, 65338);
   (65345, 65370); (66560, 66639); (66736, 66771); (66776, 66811);
   (66928, 66938); (66940, 66954); (66956, 66962); (66964, 66965);
   (66967, 66977); (66979, 66993); (66995, 67001); (67003, 67004);
   (67456, 67456); (67459, 67461); (67463, 67504); (67506, 67514);
   (68736, 68786); (68800, 68850); (71840, 71903); (93760, 93823);
   (119808, 119892); (119894, 119964); (119966, 119967); (119970, 119970);
   (119973, 119974); (119977, 119980); (119982, 119993); (119995, 119995);
   (119997, 120003); (120005, 120069); (120071, 120074); (120077, 120084);
   (120086, 120092); (120094, 120121); (120123, 120126); (120128, 120132);
   (120134, 120134); (120138, 120144); (120146, 120485); (120488, 120512);
   (120514, 120538); (120540, 120570); (120572, 120596); (120598, 120628);
   (120630, 120654); (120656, 120686); (120688, 120712); (120714, 120744);
   (120746, 120770); (120772, 120779); (122624, 122633); (122635, 122654);
   (125184, 125251); (127280, 127305); (127312, 127337); (127344, 127369)].

(** The code points with the property Case_Ignorable, in ranges. *)
Definition case_ignorable_ranges : list (N * N) :=
  [(39, 39); (46, 46); (58, 58); (94, 94); (96, 96); (168, 168); (173, 173);
   (175, 175); (180, 180); (183, 184); (688, 879); (884, 885); (890, 890);
   (900, 901); (903, 903); (1155, 1161); (1369, 1369); (1375, 1375);
   (1425, 1469); (1471, 1471); (1473, 1474); (1476, 1477); (1479, 1479);
   (1524, 1524); (1536, 1541); (1552, 1562); (1564, 1564); (1600, 1600);
   (1611, 1631); (1648, 1648); (1750, 1757); (1759, 1768); (1770, 1773);
   (1807, 1807); (1809, 1809); (1840, 1866); (1958, 1968); (2027, 2037);
   (2042, 2042); (2045, 2045); (2070, 2093); (2137, 2139); (2184, 2184);
   (2192, 2193); (2200, 2207); (2249, 2306); (2362, 2362); (2364, 2364);
   (2369, 2376); (2381, 2381); (2385, 2391); (2402, 2403); (2417, 2417);
   (2433, 2433); (2492, 2492); (2497, 2500); (2509, 2509); (2530, 2531);
   (2558, 2558); (2561, 2562); (2620, 2620); (2625, 2626); (2631, 2632);
   (2635, 2637); (2641, 2641); (2672, 2673); (2677, 2677); (2689, 2690);
   (2748, 2748); (2753, 2757); (2759, 2760); (2765, 2765); (2786, 2787);
   (2810, 2815); (2817, 2817); (2876, 2876); (2879, 2879); (2881, 2884);
   (2893, 2893); (2901, 2902); (2914, 2915); (2946, 2946); (3008, 3008);
   (3021, 3021); (3072, 3072); (3076, 3076); (3132, 3132); (3134, 3136);
   (3142, 3144); (3146, 3149); (3157, 3158); (3170, 3171); (3201, 3201);
   (3260, 3260); (3263, 3263); (3270, 3270); (3276, 3277); (3298, 3299);
   (3328, 3329); (3387, 3388); (3393, 3396); (3405, 3405); (3426, 3427);
   (3457, 3457); (3530, 3530); (3538, 3540); (3542, 3542); (3633, 3633);
   (3636, 3642); (3654, 3662); (3761, 3761); (3764, 3772); (3782, 3782);
   (3784, 3789); (3864, 3865); (3893, 3893); (3895, 3895); (3897, 3897);
   (3953, 3966); (3968, 3972); (3974, 3975); (3981, 3991); (3993, 4028);
   (4038, 4038); (4141, 4144); (4146, 4151); (4153, 4154); (4157, 4158);
   (4184, 4185); (4190, 4192); (4209, 4212); (4226, 4226); (4229, 4230);
   (4237, 4237); (4253, 4253); (4348, 4348); (4957, 4959); (5906, 5908);
   (5938, 5939); (5970, 5971); (6002, 6003); (6068, 6069); (6071, 6077);
   (6086, 6086); (6089, 6099); (6103, 6103); (6109, 6109); (6155, 6159);
   (6211, 6211); (6277, 6278); (6313, 6313); (6432, 6434); (6439, 6440);
   (6450, 6450); (6457, 6459); (6679, 6680); (6683, 6683); (6742, 6742);
   (6744, 6750); (6752, 6752); (6754, 6754); (6757, 6764); (6771, 6780);
   (6783, 6783); (6823, 6823); (6832, 6862); (6912, 6915); (6964, 6964);
   (6966, 6970); (6972, 6972); (6978, 6978); (7019, 7027); (7040, 7041);
   (7074, 7077); (7080, 7081); (7083, 7085); (7142, 7142); (7144, 7145);
   (7149, 7149); (7151, 7153); (7212, 7219); (7222, 7223); (7288, 7293);
   (7376, 7378); (7380, 7392); (7394, 7400); (7405, 7405); (7412, 7412);
   (7416, 7417); (7468, 7530); (7544, 7544); (7579, 7679); (8125, 8125);
   (8127, 8129); (8141, 8143); (8157, 8159); (8173, 8175); (8189, 8190);
   (8203, 8207); (8216, 8217); (8228, 8228); (8231, 8231); (8234, 8238);
   (8288, 8292); (8294, 8303); (8305, 8305); (8319, 8319); (8336, 8348);
   (8400, 8432); (11388, 11389); (11503, 11505); (11631, 11631);
   (11647, 11647); (11744, 11775); (11823, 11823); (12293, 12293);
   (12330, 12333); (12337, 12341); (12347, 12347); (12441, 12446);
   (12540, 12542); (40981, 40981); (42232, 42237); (42508, 42508);
   (42607, 42610); (42612, 42621); (42623, 42623); (42652, 42655);
   (42736, 42737); (42752, 42785); (42864, 42864); (42888, 42890);
   (42994, 42996); (43000, 43001); (43010, 43010); (43014, 43014);
   (43019, 43019); (43045, 43046); (43052, 43052); (43204, 43205);
   (43232, 43249); (43263, 43263); (43302, 43309); (43335, 43345);
   (43392, 43394); (43443, 43443); (43446, 43449); (43452, 43453);
   (43471, 43471); (43493, 43494); (43561, 43566); (43569, 43570);
   (43573, 43574); (43587, 43587); (43596, 43596); (43632, 43632);
   (43644, 43644); (43696, 43696); (43698, 43700); (43703, 43704);
   (43710, 43711); (43713, 43713); (43741, 43741); (43756, 43757);
   (43763, 43764); (43766, 43766); (43867, 43871); (43881, 43883);
   (44005, 44005); (44008, 44008); (44013, 44013); (64286, 64286);
   (64434, 64450); (65024, 65039); (65043, 65043); (65056, 65071);
   (65106, 65106); (65109, 65109); (65279, 65279); (65287, 65287);
   (65294, 65294); (65306, 65306); (65342, 65342); (65344, 65344);
   (65392, 65392); (65438, 65439); (65507, 65507); (65529, 65531);
   (66045, 66045); (66272, 66272); (66422, 66426); (67456, 67461);
   (67463, 67504); (67506, 67514); (68097, 68099); (68101, 68102);
   (68108, 68111); (68152, 68154); (68159, 68159); (68325, 68326);
   (68900, 68903); (69291, 69292); (69446, 69456); (69506, 69509);
   (69633, 69633); (69688, 69702); (69744, 69744); (69747, 69748);
   (69759, 69761); (69811, 69814); (69817, 69818); (69821, 69821);
   (69826, 69826); (69837, 69837); (69888, 69890); (69927, 69931);
   (69933, 69940); (70003, 70003); (70016, 70017); (70070, 70078);
   (70089, 70092); (70095, 70095); (70191, 70193); (70196, 70196);
   (70198, 70199); (70206, 70206); (70367, 70367); (70371, 70378);
   (70400, 70401); (70459, 70460); (70464, 70464); (70502, 70508);
   (70512, 70516); (70712, 70719); (70722, 70724); (70726, 70726);
   (70750, 70750); (70835, 70840); (70842, 70842); (70847, 70848);
   (70850, 70851); (71090, 71093); (71100, 71101); (71103, 71104);
   (71132, 71133); (71219, 71226); (71229, 71229); (71231, 71232);
   (71339, 71339); (71341, 71341); (71344, 71349); (71351, 71351);
   (71453, 71455); (71458, 71461); (71463, 71467); (71727, 71735);
   (71737, 71738); (71995, 71996); (71998, 71998); (72003, 72003);
   (72148, 72151); (72154, 72155); (72160, 72160); (72193, 72202);
   (72243, 72248); (72251, 72254); (72263, 72263); (72273, 72278);
   (72281, 72283); (72330, 72342); (72344, 72345); (72752, 72758);
   (72760, 72765); (72767, 72767); (72850, 72871); (72874, 72880);
   (72882, 72883); (72885, 72886); (73009, 73014); (73018, 73018);
   (73020, 73021); (73023, 73029); (73031, 73031); (73104, 73105);
   (73109, 73109); (73111, 73111); (73459, 73460); (78896, 78904);
   (92912, 92916); (92976, 92982); (92992, 92995); (94031, 94031);
   (94095, 94111); (94176, 94177); (94179, 94180); (110576, 110579);
   (110581, 110587); (110589, 110590); (113821, 113822); (113824, 113827);
   (118528, 118573); (118576, 118598); (119143, 119145); (119155, 119170);
   (119173, 119179); (119210, 119213); (119362, 119364); (121344, 121398);
   (121403, 121452); (121461, 121461); (121476, 121476); (121499, 121503);
   (121505, 121519); (122880, 122886); (122888, 122904); (122907, 122913);
   (122915, 122916); (122918, 122922); (123184, 123197); (123566, 123566);
   (123628, 123631); (125136, 125142); (125252, 125259); (127995, 127999);
   (917505, 917505); (917536, 917631); (917760, 917999)].

Fixpoint lookup_run (c : N) (t : list (N * N * N * N)) : option N :=
  match t with
  | [] => None
  | (lo, hi, step, to) :: r =>
      if c <? lo then None
      else if (c <=? hi) && ((c - lo) mod step =? 0) then Some (to + (c - lo))
      else lookup_run c r
  end.

Fixpoint in_ranges (c : N) (t : list (N * N)) : bool :=
  match t with
  | [] => false
  | (lo, hi) :: r => if c <? lo then false else (c <=? hi) || in_ranges c r
  end.

(** [_PyUnicode_ToLowerFull]: one code point in general, two for the
    capital I with a dot above. *)
Definition to_lower_full (c : N) : list N :=
  if c =? 304 then [105; 775]
  else
    match lookup_run c lower_runs with
    | Some c' => [c']
    | None => [c]
    end.

Definition is_cased (c : N) : bool := in_ranges c cased_ranges.

Definition is_case_ignorable (c : N) : bool :=
  in_ranges c case_ignorable_ranges.

(** The first code point that is not case-ignorable. *)
Fixpoint first_not_ignorable (l : list N) : option N :=
  match l with
  | [] => None
  | c :: r => if is_case_ignorable c then first_not_ignorable r else Some c
  end.

(** [handle_capital_sigma]: the sigma is final when a cased letter comes
    before it and none comes after it, case-ignorable code points apart. *)
Definition final_sigma (before_rev after : list N) : bool :=
  match first_not_ignorable before_rev with
  | Some c =>
      is_cased c
      && match first_not_ignorable after with
         | Some c' => negb (is_cased c')
         | None => true
         end
  | None => false
  end.

(** [do_lower]: [before_rev] holds the code points already passed, the
    nearest first. *)
Fixpoint lower_from (before_rev l : list N) : list N :=
  match l with
  | [] => []
  | c :: r =>
      (if c =? 931 then [if final_sigma before_rev r then 962 else 963]
       else to_lower_full c)
      ++ lower_from (c :: before_rev) r
  end.

Definition lower (l : list N) : list N := lower_from [] l.

End Unicode.

(** ** Strings as the code uses them *)

Module Str.

(** [s.isascii()] *)
Fixpoint isascii (s : string) : bool :=
  match s with
  | EmptyString => true
  | String c s' => (N_of_ascii c <? 128)%N && isascii s'
  end.

(** [s.lower()] *)
Definition lower (s : string) : string :=
  Unicode.encode (Unicode.lower (Unicode.decode s)).


(** [s[n:]] *)
Fixpoint drop (n : nat) (s : string) : string :=
  match n, s with
  | O, _ => s
  | S n', String _ s' => drop n' s'
  | S _, EmptyString => EmptyString
  end.

Fixpoint contains_char (c : ascii) (s : string) : bool :=
  match s with
  | EmptyString => false
  | String a s' => Ascii.eqb a c || contains_char c s'
  end.

(** [s.rfind(c)] for a one-character needle: the scan keeps the last
    position seen so far; [None] stands for Python's [-1]. *)
Fixpoint rfind_from (c : ascii) (s : string) (i : nat) (last : option nat)
  : option nat :=
  match s with
  | EmptyString => last
  | String a s' =>
      rfind_from c s' (S i) (if Ascii.eqb a c then Some i else last)
  end.

Definition rfind (c : ascii) (s : string) : option nat :=
  rfind_from c s 0 None.

(** [s.split(c)] for a one-character separator. *)
Fixpoint split_from (c : ascii) (s : string) (cur : string) : list string :=
  match s with
  | EmptyString => [cur]
  | String a s' =>
      if Ascii.eqb a c then cur :: split_from c s' EmptyString
      else split_from c s' (cur +:+ String a EmptyString)
  end.

Definition split (c : ascii) (s : string) : list string :=
  split_from c s EmptyString.

(** [needle in s] *)
Fixpoint contains (needle s : string) : bool :=
  String.prefix needle s ||
  match s with
  | EmptyString => false
  | String _ s' => contains needle s'
  end.

Definition nonempty (s : string) : bool :=
  match s with EmptyString => false | _ => true end.

Definition endswith (suffix s : string) : bool :=
  (String.length suffix <=? String.length s)%nat &&
  String.eqb (drop (String.length s - String.length suffix) s) suffix.

Definition startswith (p s : string) : bool := String.prefix p s.

End Str.

(** ** Exceptions and outcomes *)

(** The exception classes that occur on the paths of this program.
    [BinasciiError] and [UnicodeDecodeError] are subclasses of
    [ValueError]; every class here is a subclass of [Exception]. *)
Inductive exn_class :=
| ValueError | BinasciiError | UnicodeDecodeError
| AttributeError | TypeError | OSError | ClientError | PlainException.

Record exn := Exn { exn_cls : exn_class; exn_msg : string }.

Definition is_ValueError (e : exn) : bool :=
  match exn_cls e with
  | ValueError | BinasciiError | UnicodeDecodeError => true
  | _ => false
  end.

(** [str(e)] *)
Definition str_of_exn (e : exn) : string := exn_msg e.

Inductive outcome (A : Type) :=
| Ret (a : A)
| Raise (e : exn).
Arguments Ret {A} a.
Arguments Raise {A} e.

Definition obind {A B} (m : outcome A) (k : A -> outcome B) : outcome B :=
  match m with
  | Ret a => k a
  | Raise e => Raise e
  end.

(** [try: m  except Exception: raise e'] *)
Definition reraise_as {A} (e' : exn) (m : outcome A) : outcome A :=
  match m with
  | Ret a => Ret a
  | Raise _ => Raise e'
  end.

#[global] Instance outcome_ret : MRet outcome := fun A a => Ret a.
#[global] Instance outcome_bind : MBind outcome := fun A B k m => obind m k.

(** ** Parsed JSON values *)

(** What [json.loads] yields.  A float is kept as its IEEE-754 binary64
    pattern; an object is kept as the list of its bindings in insertion
    order, keys unique, as a Python [dict] holds them. *)
#[warnings="-register-all"]
Inductive json :=
| JNull
| JBool (b : bool)
| JInt (z : Z)
| JFloat (bits : Z)
| JString (s : string)
| JArray (l : list json)
| JObject (d : list (string * json)).

(** Python truthiness: [bool(v)]. *)
Definition truthy (v : json) : bool :=
  match v with
  | JNull => false
  | JBool b => b
  | JInt z => negb (z =? 0)%Z
  | JFloat bits => negb (Z.land bits (Z.ones 63) =? 0)%Z
  | JString s => Str.nonempty s
  | JArray l => match l with [] => false | _ => true end
  | JObject d => match d with [] => false | _ => true end
  end.

(** [type(v).__name__] *)
Definition type_name (v : json) : string :=
  match v with
  | JNull => "NoneType"
  | JBool _ => "bool"
  | JInt _ => "int"
  | JFloat _ => "float"
  | JString _ => "str"
  | JArray _ => "list"
  | JObject _ => "dict"
  end.

(** [d.get(k)] on a dict kept as a binding list: [None] when absent. *)
Fixpoint dict_get {V} (d : list (string * V)) (k : string) : option V :=
  match d with
  | [] => None
  | (k', v) :: d' => if String.eqb k' k then Some v else dict_get d' k
  end.

(** [d[k] = v]: replaces the binding in place, or appends a new one. *)
Fixpoint dict_set {V} (d : list (string * V)) (k : string) (v : V)
  : list (string * V) :=
  match d with
  | [] => [(k, v)]
  | (k', v') :: d' =>
      if String.eqb k' k then (k, v) :: d' else (k', v') :: dict_set d' k v
  end.

(** ** pathlib: the suffix of a path *)

Module Pathlib.

(** The components of a POSIX path: empty ones and ['.'] are dropped. *)
Definition parts (s : string) : list string :=
  List.filter (fun x => Str.nonempty x && negb (String.eqb x "."))
         (Str.split "/" s).

(** [PurePath.name]: the final component, [''] when there is none. *)
Definition name (s : string) : string := List.last (parts s) "".

(** [PurePath.suffix]:
    [i = name.rfind('.')]; [name[i:]] if [0 < i < len(name) - 1] else ['']. *)
Definition suffix (s : string) : string :=
  let nm := name s in
  match Str.rfind "." nm with
  | Some i =>
      if (0 <? i)%nat && (S i <? String.length nm)%nat
      then Str.drop i nm else ""
  | None => ""
  end.

End Pathlib.

(** [str(n)] for a natural number. *)
Definition string_of_nat (n : nat) : string :=
  NilZero.string_of_uint (Nat.to_uint n).

(** ** base64 *)

(** [base64.b64decode(s)] with its default [validate=False], as
    [binascii.a2b_base64] decodes: characters outside the alphabet are
    discarded, a pad sequence that completes a quad ends the decoding. *)
Module Base64.

Local Open Scope N_scope.

Definition alphabet : string :=
  "ABCDEFGHIJKLMNOPQRSTUVWXYZabcdefghijklmnopqrstuvwxyz0123456789+/".

Definition pad : ascii := "="%char.

(** [table_b2a_base64] *)
Definition b2a (i : N) : ascii :=
  match String.get (N.to_nat i) alphabet with
  | Some c => c
  | None => pad
  end.

(** [table_a2b_base64]: [None] for the entries outside the alphabet. *)
Definition a2b (c : ascii) : option N :=
  let n := N_of_ascii c in
  if (65 <=? n) && (n <=? 90) then Some (n - 65)
  else if (97 <=? n) && (n <=? 122) then Some (n - 97 + 26)
  else if (48 <=? n) && (n <=? 57) then Some (n - 48 + 52)
  else if n =? 43 then Some 62
  else if n =? 47 then Some 63
  else None.

(** Storing into an [unsigned char]. *)
Definition to_byte (n : N) : byte :=
  match Byte.of_N (n mod 256) with
  | Some b => b
  | None => x00
  end.

Definition err (msg : string) : exn := Exn BinasciiError msg.

(** The decoding loop: [quad_pos], [leftchar] and [pads] are the loop
    variables of the C function, [out] the bytes written so far. *)
Fixpoint a2b_loop (s : string) (quad_pos : nat) (leftchar : N) (pads : nat)
         (out : list byte) : outcome (list byte) :=
  match s with
  | EmptyString =>
      match quad_pos with
      | 0%nat => Ret out
      | 1%nat =>
          Raise (err ("Invalid base64-encoded string: number of data characters ("
                      +:+ string_of_nat (List.length out / 3 * 4 + 1)%nat
                      +:+ ") cannot be 1 more than a multiple of 4"))
      | _ => Raise (err "Incorrect padding")
      end
  | String c s' =>
      if Ascii.eqb c pad then
        if (2 <=? quad_pos)%nat then
          if (4 <=? quad_pos + S pads)%nat then Ret out
          else a2b_loop s' quad_pos leftchar (S pads) out
        else a2b_loop s' quad_pos leftchar pads out
      else
        match a2b c with
        | None => a2b_loop s' quad_pos leftchar pads out
        | Some this_ch =>
            match quad_pos with
            | 0%nat => a2b_loop s' 1 this_ch 0 out
            | 1%nat =>
                a2b_loop s' 2 (N.land this_ch 15) 0
                  (out ++ [to_byte (N.lor (N.shiftl leftchar 2) (N.shiftr this_ch 4))])
            | 2%nat =>
                a2b_loop s' 3 (N.land this_ch 3) 0
                  (out ++ [to_byte (N.lor (N.shiftl leftchar 4) (N.shiftr this_ch 2))])
            | _ =>
                a2b_loop s' 0 0 0
                  (out ++ [to_byte (N.lor (N.shiftl leftchar 6) this_ch)])
            end
        end
  end.

Definition a2b_base64 (s : string) : outcome (list byte) :=
  a2b_loop s 0 0 0 [].

Fixpoint is_ascii (s : string) : bool :=
  match s with
  | EmptyString => true
  | String c s' => (N_of_ascii c <? 128) && is_ascii s'
  end.

(** [b64decode] of a [str]: it must be ASCII before it is decoded. *)
Definition b64decode_str (s : string) : outcome (list byte) :=
  if is_ascii s then a2b_base64 s
  else Raise (Exn ValueError "string argument should contain only ASCII characters").

(** [b64decode] of any value that [json.loads] can yield. *)
Definition b64decode (v : json) : outcome (list byte) :=
  match v with
  | JString s => b64decode_str s
  | _ =>
      Raise (Exn TypeError
               ("argument should be a bytes-like object or ASCII string, not '"
                +:+ type_name v +:+ "'"))
  end.

(** The encoder of RFC 4648, as [base64.b64encode] produces it. *)
Definition enc3 (b1 b2 b3 : byte) : string :=
  let n1 := Byte.to_N b1 in
  let n2 := Byte.to_N b2 in
  let n3 := Byte.to_N b3 in
  String (b2a (N.shiftr n1 2))
 (String (b2a (N.lor (N.shiftl (N.land n1 3) 4) (N.shiftr n2 4)))
 (String (b2a (N.lor (N.shiftl (N.land n2 15) 2) (N.shiftr n3 6)))
 (String (b2a (N.land n3 63)) EmptyString))).

Fixpoint b64encode (bs : list byte) : string :=
  match bs with
  | [] => ""
  | [b1] =>
      let n1 := Byte.to_N b1 in
      String (b2a (N.shiftr n1 2))
     (String (b2a (N.shiftl (N.land n1 3) 4)) "==")
  | [b1; b2] =>
      let n1 := Byte.to_N b1 in
      let n2 := Byte.to_N b2 in
      String (b2a (N.shiftr n1 2))
     (String (b2a (N.lor (N.shiftl (N.land n1 3) 4) (N.shiftr n2 4)))
     (String (b2a (N.shiftl (N.land n2 15) 2)) "="))
  | b1 :: b2 :: b3 :: rest => enc3 b1 b2 b3 +:+ b64encode rest
  end.

End Base64.

Definition bytes_of (s : string) : list byte := list_byte_of_string s.


(** [bytes.decode('utf-8')]: which byte sequences are well-formed UTF-8. *)
Module Utf8.

Local Open Scope N_scope.

Definition in_range (b : byte) (lo hi : N) : bool :=
  (lo <=? Byte.to_N b) && (Byte.to_N b <=? hi).

Fixpoint valid (bs : list byte) : bool :=
  match bs with
  | [] => true
  | b1 :: r1 =>
      let n1 := Byte.to_N b1 in
      if n1 <? 128 then valid r1
      else if (194 <=? n1) && (n1 <=? 223) then
        match r1 with
        | b2 :: r2 => in_range b2 128 191 && valid r2
        | _ => false
        end
      else if (224 <=? n1) && (n1 <=? 239) then
        match r1 with
        | b2 :: b3 :: r3 =>
            in_range b2 (if n1 =? 224 then 160 else 128)
                        (if n1 =? 237 then 159 else 191)
            && in_range b3 128 191 && valid r3
        | _ => false
        end
      else if (240 <=? n1) && (n1 <=? 244) then
        match r1 with
        | b2 :: b3 :: b4 :: r4 =>
            in_range b2 (if n1 =? 240 then 144 else 128)
                        (if n1 =? 244 then 143 else 191)
            && in_range b3 128 191 && in_range b4 128 191 && valid r4
        | _ => false
        end
      else false
  end.

End Utf8.

(** ** The libraries the handler calls *)

(** One part of a parsed multipart message, as the loop of the parser
    observes it. *)
Record part := Part {
  part_name : option string;        (* get_param('name', header='content-disposition') *)
  part_filename : option string;    (* get_filename() *)
  part_payload : option (list byte) (* get_payload(decode=True); None for a container *)
}.

(** The library functions whose code is not part of this repository: the
    statements below hold for every implementation of them. *)
Class Libs := {
  (** [json.loads] *)
  json_loads : string -> outcome json;
  (** [json.dumps] *)
  json_dumps : json -> string;
  (** [BytesParser(policy=policy.default).parsebytes(b)] followed by
      [iter_parts()] *)
  parsebytes : list byte -> outcome (list part);
  (** the text of the [UnicodeDecodeError] that [decode('utf-8')] raises *)
  utf8_error : list byte -> string;
  (** how an f-string renders a value that is not a [str] *)
  format_value : json -> string
}.

(** ** The request *)

Record event := Event {
  ev_headers : option (list (string * string)); (* event.get('headers') *)
  ev_body : option string;                      (* event.get('body') *)
  ev_isBase64Encoded : bool                     (* truth of event.get('isBase64Encoded') *)
}.

Definition crlf : string := String "013" (String "010" "").

Definition msg_multipart : string := "Erro ao parsear multipart/form-data".
Definition msg_json : string :=
  "Corpo inválido: esperado JSON ou multipart/form-data".
Definition msg_base64 : string := "Arquivo base64 inválido".
Definition msg_ausentes : string :=
  "Parâmetros ausentes: email, filename e arquivo são obrigatórios".

(** [x or default] on an optional string. *)
Definition or_str (x : option string) (default : string) : string :=
  match x with
  | Some s => if Str.nonempty s then s else default
  | None => default
  end.

(** [{k.lower(): v for k, v in (event.get('headers') or {}).items()}] *)
Definition lower_headers (hs : option (list (string * string)))
  : list (string * string) :=
  fold_left (fun d kv => dict_set d (Str.lower (fst kv)) (snd kv))
            (default [] hs) [].

Definition is_multipart (content_type : option string) : bool :=
  match content_type with
  | Some ct => Str.nonempty ct && Str.contains "multipart/form-data" ct
  | None => false
  end.

(** The three local variables of the parser; [JNull] is Python's [None]. *)
Record campos := Campos {
  c_email : json;
  c_nome_arquivo : json;
  c_arquivo_bytes : option (list byte)
}.

Definition campos_vazios : campos := Campos JNull JNull None.

Definition truthy_str (s : option string) : bool :=
  match s with Some x => Str.nonempty x | None => false end.

Definition truthy_bytes (b : option (list byte)) : bool :=
  match b with Some (_ :: _) => true | _ => false end.

Section Parser.

Context `{L : Libs}.

Definition decode_utf8 (bs : list byte) : outcome string :=
  if Utf8.valid bs then Ret (string_of_list_byte bs)
  else Raise (Exn UnicodeDecodeError (utf8_error bs)).

(** One iteration of [for part in msg.iter_parts()]. *)
Definition passo_part (c : campos) (p : part) : outcome campos :=
  if truthy_str (part_filename p) then
    Ret (Campos (c_email c)
                (JString (default "" (part_filename p)))
                (part_payload p))
  else if bool_decide (part_name p = Some "email") then
    match part_payload p with
    | Some bs =>
        e ← decode_utf8 bs;
        Ret (Campos (JString e) (c_nome_arquivo c) (c_arquivo_bytes c))
    | None =>
        Raise (Exn AttributeError "'NoneType' object has no attribute 'decode'")
    end
  else Ret c.

Fixpoint laco_parts (c : campos) (ps : list part) : outcome campos :=
  match ps with
  | [] => Ret c
  | p :: ps' => c' ← passo_part c p; laco_parts c' ps'
  end.

(** Lines 105-113: the parts of the body, as [msg.iter_parts()] yields
    them. *)
Definition partes_multipart (ev : event) (content_type : string)
  : outcome (list part) :=
  let raw_body := or_str (ev_body ev) "" in
  body_bytes ←
    (if ev_isBase64Encoded ev then Base64.b64decode_str raw_body
     else Ret (list_byte_of_string raw_body));
  reraise_as (Exn ValueError msg_multipart)
    (let headers_bytes :=
       list_byte_of_string
         ("Content-Type: " +:+ content_type +:+ crlf +:+ crlf) in
     parsebytes (headers_bytes ++ body_bytes)).

(** The multipart branch, lines 105-123. *)
Definition campos_multipart (ev : event) (content_type : string)
  : outcome campos :=
  parts ← partes_multipart ev content_type;
  laco_parts campos_vazios parts.

(** [body.get(k)]: only a dict has [get]. *)
Definition body_get (body : json) (k : string) : outcome json :=
  match body with
  | JObject d => Ret (default JNull (dict_get d k))
  | _ =>
      Raise (Exn AttributeError
               ("'" +:+ type_name body +:+ "' object has no attribute 'get'"))
  end.

(** The JSON branch, lines 125-137. *)
Definition campos_json (ev : event) : outcome campos :=
  body ← reraise_as (Exn ValueError msg_json)
           (json_loads (or_str (ev_body ev) "{}"));
  email ← body_get body "email";
  nome_arquivo ← body_get body "filename";
  arquivo_b64 ← body_get body "arquivo";
  if truthy arquivo_b64 then
    arquivo_bytes ← reraise_as (Exn ValueError msg_base64)
                      (Base64.b64decode arquivo_b64);
    Ret (Campos email nome_arquivo (Some arquivo_bytes))
  else Ret (Campos email nome_arquivo None).

(** The check of lines 139-142. *)
Definition verificar_campos (c : campos)
  : outcome (json * json * list byte) :=
  if negb (truthy (c_email c)) || negb (truthy (c_nome_arquivo c))
     || negb (truthy_bytes (c_arquivo_bytes c))
  then Raise (Exn ValueError msg_ausentes)
  else Ret (c_email c, c_nome_arquivo c, default [] (c_arquivo_bytes c)).

Definition content_type_of (ev : event) : option string :=
  dict_get (lower_headers (ev_headers ev)) "content-type".

Definition extrair_campos (ev : event) : outcome campos :=
  let content_type := content_type_of ev in
  if is_multipart content_type
  then campos_multipart ev (default "" content_type)
  else campos_json ev.

Definition extrair_dados_requisicao (ev : event)
  : outcome (json * json * list byte) :=
  c ← extrair_campos ev; verificar_campos c.

End Parser.

(** ** Equality of JSON values *)

#[global] Instance json_eq_dec : EqDecision json.
Proof.
  refine (fix go (a b : json) {struct a} : Decision (a = b) :=
    let _ : EqDecision json := go in
    match a, b with
    | JNull, JNull => left _
    | JBool x, JBool y => cast_if (decide (x = y))
    | JInt x, JInt y => cast_if (decide (x = y))
    | JFloat x, JFloat y => cast_if (decide (x = y))
    | JString x, JString y => cast_if (decide (x = y))
    | JArray x, JArray y => cast_if (decide (x = y))
    | JObject x, JObject y => cast_if (decide (x = y))
    | _, _ => right _
    end); abstract congruence.
Defined.

(** ** Paths *)

Module Posixpath.

(** [os.path.join(a, b)] *)
Definition join (a b : string) : string :=
  if Str.startswith "/" b then b
  else if negb (Str.nonempty a) || Str.endswith "/" a then a +:+ b
  else a +:+ "/" +:+ b.

(** [os.path.basename(p)]: [p[p.rfind('/') + 1:]] *)
Definition basename (p : string) : string :=
  match Str.rfind "/" p with
  | Some i => Str.drop (S i) p
  | None => p
  end.

End Posixpath.

(** ** The extension validator *)

Definition extensoes : list string :=
  [".mp4"; ".avi"; ".mov"; ".mkv"; ".wmv"; ".flv"; ".webm"].

Definition mem_str (x : string) (l : list string) : bool :=
  existsb (String.eqb x) l.

(** [Path(v)]: only a [str] is accepted among the values a request can
    carry. *)
Definition py_Path (v : json) : outcome string :=
  match v with
  | JString s => Ret s
  | _ =>
      Raise (Exn TypeError
               ("expected str, bytes or os.PathLike object, not " +:+ type_name v))
  end.

Definition validar_extensao (nome_arquivo : json) : outcome bool :=
  p ← py_Path nome_arquivo;
  let ext := Str.lower (Pathlib.suffix p) in
  Ret (mem_str ext extensoes).

(** ** The world outside the handler *)

(** A record of the table, under its key [(idEmail, idUpload)]. *)
Record item := Item {
  it_status : string;
  it_created_at : option string;
  it_s3_key : option string;
  it_frame_count : option nat
}.

Definition key : Type := json * string.

Fixpoint tbl_get (t : list (key * item)) (k : key) : option item :=
  match t with
  | [] => None
  | (k', v) :: t' => if bool_decide (k' = k) then Some v else tbl_get t' k
  end.

Fixpoint tbl_set (t : list (key * item)) (k : key) (v : item)
  : list (key * item) :=
  match t with
  | [] => [(k, v)]
  | (k', v') :: t' =>
      if bool_decide (k' = k) then (k, v) :: t' else (k', v') :: tbl_set t' k v
  end.

(** The calls that leave the process, in the order they are made. *)
Inductive action :=
| AMkdtemp (path : string)
| APutItem (email : json) (upload_id status created_at : string) (ok : bool)
| AWrite (path : string) (data : list byte) (ok : bool)
| AMakedirs (path : string) (ok : bool)
| ARun (cmd : list string) (ok : bool)
| AGlob (pattern : string)
| AZip (zip_path : string) (members : list (string * string)) (ok : bool)
| AUpload (file_path bucket object_key : string) (ok : bool)
| AUpdateItem (email : json) (upload_id s3_key status : string)
              (frame_count : nat) (ok : bool)
| ARmtree (path : string) (ok : bool)
| ALog (msg : string).

Record world := World {
  w_dirs : gset string;              (* the scratch directories that exist *)
  w_table : list (key * item);       (* the record store *)
  w_bucket : list (string * string); (* the object store: key, uploaded file *)
  w_trace : list action
}.

(** What the collaborators answer during one invocation.  [None] in an
    [option exn] means that the call succeeds.  A call that raises has no
    effect on the store it addresses, and what it raises is an instance of
    [Exception].  [time.strftime], [tempfile.mkdtemp], [uuid4] and the
    construction of the boto3 table object are taken to succeed: they only
    supply values, and the runs described here are those in which this
    set-up of lines 50-56 goes through.  These calls stand outside every
    [try]: were one of them to raise, the handler would raise with it and
    give no response. *)
Record env := Env {
  env_timestamp : string;            (* time.strftime('%Y%m%d_%H%M%S') *)
  env_tmp_dir : string;              (* tempfile.mkdtemp(prefix='proc_') *)
  env_upload_id : string;            (* uuid4().hex *)
  env_created_at : string;           (* datetime.now(timezone.utc).isoformat() *)
  env_put_item : option exn;
  env_write : option exn;
  env_makedirs : option exn;
  env_which : bool;                  (* shutil.which('ffmpeg') is not None *)
  env_executable : string -> bool;   (* os.path.exists(p) and os.access(p, os.X_OK) *)
  env_run : outcome (Z * string);    (* returncode, stderr.decode(errors='ignore') *)
  env_listing : list string;         (* the names in the frames directory, scandir order *)
  env_zip : option exn;
  env_upload : option exn;
  env_update_item : option exn;
  env_rmtree : option exn
}.

Definition M (A : Type) : Type := world -> outcome A * world.

#[global] Instance M_ret : MRet M := fun A a w => (Ret a, w).
#[global] Instance M_bind : MBind M := fun A B k m w =>
  match m w with
  | (Ret a, w') => k a w'
  | (Raise e, w') => (Raise e, w')
  end.

Definition lift {A} (o : outcome A) : M A := fun w => (o, w).

Definition emit (a : action) : M unit := fun w =>
  (Ret tt, World (w_dirs w) (w_table w) (w_bucket w) (w_trace w ++ [a])).

Definition set_dirs (f : gset string -> gset string) : M unit := fun w =>
  (Ret tt, World (f (w_dirs w)) (w_table w) (w_bucket w) (w_trace w)).

Definition set_table (f : list (key * item) -> list (key * item)) : M unit :=
  fun w => (Ret tt, World (w_dirs w) (f (w_table w)) (w_bucket w) (w_trace w)).

Definition set_bucket (f : list (string * string) -> list (string * string))
  : M unit :=
  fun w => (Ret tt, World (w_dirs w) (w_table w) (f (w_bucket w)) (w_trace w)).

(** The result of a call that either succeeds or raises. *)
Definition answer (r : option exn) : M unit :=
  match r with
  | None => mret tt
  | Some e => lift (Raise e)
  end.

Definition succeeded (r : option exn) : bool :=
  match r with None => true | Some _ => false end.

(** [try: m  except Exception as e: h e] *)
Definition try_except {A} (m : M A) (h : exn -> M A) : M A := fun w =>
  match m w with
  | (Ret a, w') => (Ret a, w')
  | (Raise e, w') => h e w'
  end.

(** [try: m  finally: f] *)
Definition try_finally {A} (m : M A) (f : M unit) : M A := fun w =>
  match m w with
  | (r, w') =>
      match f w' with
      | (Ret _, w'') => (r, w'')
      | (Raise e, w'') => (Raise e, w'')
      end
  end.

(** ** Python's [sorted] on a list of [str] *)

Module StringOrder <: TotalLeBool.
Definition t := string.
Definition leb := String.leb.
Theorem leb_total : forall a1 a2, leb a1 a2 = true \/ leb a2 a1 = true.
Proof. exact String.leb_total. Qed.
End StringOrder.

Module StrSort := Sort StringOrder.

Definition sorted (l : list string) : list string := StrSort.sort l.

(** ** The handler *)

Record config := Config {
  S3_BUCKET : option string;   (* os.environ.get('BUCKET') *)
  TABLE_NAME : option string   (* os.environ.get('TABLE') *)
}.

Record response := Response {
  statusCode : Z;
  headers : list (string * string);
  body : string
}.

Definition status_processando : string := "processando".
Definition status_concluido : string := "Concluido".

(** [glob.glob(os.path.join(d, '*.png'))] keeps the visible names that end
    in [.png]. *)
Definition glob_png (name : string) : bool :=
  Str.endswith ".png" name && negb (Str.startswith "." name).

Section Handler.

Context `{L : Libs}.
Variable E : env.

(** How an f-string renders a value. *)
Definition fstr (v : json) : string :=
  match v with
  | JString s => s
  | _ => format_value v
  end.

Definition responder (status_code : Z) (body_dict : json) : response :=
  Response status_code [("Content-Type", "application/json")]
           (json_dumps body_dict).

Definition falha (message : string) : json :=
  JObject [("success", JBool false); ("message", JString message)].

Definition criar_registro_inicial (email : json) (upload_id : string)
  : M unit :=
  emit (APutItem email upload_id status_processando (env_created_at E)
                 (succeeded (env_put_item E)));;
  answer (env_put_item E);;
  set_table (fun t =>
    tbl_set t (email, upload_id)
      (Item status_processando (Some (env_created_at E)) None None)).

Definition salvar_video_local (tmp_dir : string) (nome_arquivo : json)
           (arquivo_bytes : list byte) (timestamp : string) : M string :=
  let video_path :=
    Posixpath.join tmp_dir (timestamp +:+ "_" +:+ fstr nome_arquivo) in
  emit (AWrite video_path arquivo_bytes (succeeded (env_write E)));;
  answer (env_write E);;
  mret video_path.

Definition obter_caminho_ffmpeg : string :=
  if env_which E then "ffmpeg"
  else
    match List.find (env_executable E)
               ["/opt/bin/ffmpeg"; "/var/task/ffmpeg"; "./ffmpeg"] with
    | Some path => path
    | None => "ffmpeg"
    end.

Definition extrair_frames (video_path tmp_dir : string) : M (list string) :=
  let frames_dir := Posixpath.join tmp_dir "frames" in
  emit (AMakedirs frames_dir (succeeded (env_makedirs E)));;
  answer (env_makedirs E);;
  let frame_pattern := Posixpath.join frames_dir "frame_%04d.png" in
  let ffmpeg_cmd := obter_caminho_ffmpeg in
  let cmd := [ffmpeg_cmd; "-i"; video_path; "-vf"; "fps=1"; "-y"; frame_pattern] in
  emit (ARun cmd (match env_run E with Ret _ => true | Raise _ => false end));;
  proc ← lift (env_run E);
  if negb (fst proc =? 0)%Z then
    lift (Raise (Exn PlainException ("Erro no ffmpeg: " +:+ snd proc)))
  else
    emit (AGlob (Posixpath.join frames_dir "*.png"));;
    mret (sorted (map (Posixpath.join frames_dir)
                      (List.filter glob_png (env_listing E)))).

Definition criar_arquivo_zip (frames : list string)
           (tmp_dir timestamp : string) : M (string * string) :=
  let zip_nome := "frames_" +:+ timestamp +:+ ".zip" in
  let zip_path := Posixpath.join tmp_dir zip_nome in
  emit (AZip zip_path (map (fun fpath => (fpath, Posixpath.basename fpath)) frames)
             (succeeded (env_zip E)));;
  answer (env_zip E);;
  mret (zip_path, zip_nome).

Definition upload_para_s3 (file_path bucket object_key : string) : M unit :=
  emit (AUpload file_path bucket object_key (succeeded (env_upload E)));;
  answer (env_upload E);;
  set_bucket (fun b => dict_set b object_key file_path).

Definition marcar_concluido (s3_key : string) (frame_count : nat)
           (old : option item) : item :=
  Item status_concluido
       (match old with Some it => it_created_at it | None => None end)
       (Some s3_key) (Some frame_count).

Definition atualizar_registro_concluido (email : json)
           (upload_id s3_key : string) (frame_count : nat) : M unit :=
  emit (AUpdateItem email upload_id s3_key status_concluido frame_count
                    (succeeded (env_update_item E)));;
  answer (env_update_item E);;
  set_table (fun t =>
    tbl_set t (email, upload_id)
      (marcar_concluido s3_key frame_count (tbl_get t (email, upload_id)))).

Definition limpar_diretorio_temporario (tmp_dir : string) : M unit :=
  try_except
    (emit (ARmtree tmp_dir (succeeded (env_rmtree E)));;
     answer (env_rmtree E);;
     set_dirs (fun d => d ∖ {[tmp_dir]}))
    (fun _ => mret tt).

Definition mkdtemp : M string :=
  emit (AMkdtemp (env_tmp_dir E));;
  set_dirs (fun d => d ∪ {[env_tmp_dir E]});;
  mret (env_tmp_dir E).

Definition sucesso (record_id s3_key : string) (frames : list string) : json :=
  let imagens := map Posixpath.basename frames in
  JObject
    [("success", JBool true);
     ("message",
      JString ("Processamento concluído! "
               +:+ string_of_nat (List.length frames)
               +:+ " frames extraídos."));
     ("record_id", JString record_id);
     ("s3_key", JString s3_key);
     ("frame_count", JInt (Z.of_nat (List.length frames)));
     ("images", JArray (map JString imagens))].

(** The block of lines 64-87, before its [except] and [finally]. *)
Definition processar (cfg : config) (email nome_arquivo : json)
           (arquivo_bytes : list byte) (timestamp tmp_dir upload_id : string)
           (record_id : string) : M response :=
  video_path ← salvar_video_local tmp_dir nome_arquivo arquivo_bytes timestamp;
  frames ← extrair_frames video_path tmp_dir;
  match frames with
  | [] => mret (responder 500 (falha "Nenhum frame extraído do vídeo"))
  | _ =>
      '(zip_path, zip_nome) ← criar_arquivo_zip frames tmp_dir timestamp;
      let s3_key := "outputs/" +:+ zip_nome in
      upload_para_s3 zip_path (default "" (S3_BUCKET cfg)) s3_key;;
      atualizar_registro_concluido email upload_id s3_key (List.length frames);;
      mret (responder 200 (sucesso record_id s3_key frames))
  end.

(** Lines 50-93: what the handler does once the request is validated. *)
Definition atender (cfg : config) (email nome_arquivo : json)
           (arquivo_bytes : list byte) : M response :=
  let timestamp := env_timestamp E in
  tmp_dir ← mkdtemp;
  let upload_id := env_upload_id E in
  let record_id := fstr email +:+ "_" +:+ upload_id in
  early ← try_except
            (criar_registro_inicial email upload_id;; mret None)
            (fun e =>
               emit (ALog "Erro ao gravar DynamoDB inicial");;
               mret (Some (responder 500
                 (falha ("Erro ao gravar registro inicial no banco: "
                         +:+ str_of_exn e)))));
  match early with
  | Some resp => mret resp
  | None =>
      try_finally
        (try_except
           (processar cfg email nome_arquivo arquivo_bytes
                      timestamp tmp_dir upload_id record_id)
           (fun e =>
              emit (ALog "Erro no processamento");;
              mret (responder 500
                      (falha ("Erro interno: " +:+ str_of_exn e)))))
        (limpar_diretorio_temporario tmp_dir)
  end.

Definition lambda_handler (cfg : config) (ev : event) : M response :=
  if negb (truthy_str (S3_BUCKET cfg)) then
    mret (responder 500 (falha "Variável de ambiente BUCKET não configurada"))
  else if negb (truthy_str (TABLE_NAME cfg)) then
    mret (responder 500 (falha "Variável de ambiente TABLE não configurada"))
  else
    match extrair_dados_requisicao ev with
    | Raise e =>
        if is_ValueError e then mret (responder 400 (falha (str_of_exn e)))
        else lift (Raise e)
    | Ret (email, nome_arquivo, arquivo_bytes) =>
        ok ← lift (validar_extensao nome_arquivo);
        if negb ok then mret (responder 400 (falha "Formato não suportado"))
        else atender cfg email nome_arquivo arquivo_bytes
    end.

End Handler.

(** ** The names of the frames *)

(** [frame_%04d.png] as the decoder expands it for frame number [n]: the
    decimal digits of [n], padded with zeros on the left up to four. *)
Fixpoint zeros (n : nat) : string :=
  match n with
  | O => ""
  | S n' => String "0" (zeros n')
  end.

Definition string_of_N (n : N) : string :=
  NilZero.string_of_uint (N.to_uint n).

Definition pad4 (n : N) : string :=
  let d := string_of_N n in zeros (4 - String.length d) +:+ d.

Definition frame_name_N (n : N) : string := "frame_" +:+ pad4 n +:+ ".png".

Definition frame_name (n : nat) : string := frame_name_N (N.of_nat n).

(** ** Reference decoders

    Small implementations of the library functions, used to run the parser
    and the handler on concrete wire bodies.  They cover the fragment of JSON
    and of multipart/form-data that the examples use: no floats and no
    [\u] escapes in JSON, CRLF line ends and unencoded payloads in
    multipart bodies. *)

Module Ref.

Definition dquote : ascii := "034"%char.
Definition backslash : ascii := "092"%char.

Definition is_ws (c : ascii) : bool :=
  let n := nat_of_ascii c in
  (n =? 32)%nat || (n =? 9)%nat || (n =? 10)%nat || (n =? 13)%nat.

Fixpoint skip_ws (s : string) : string :=
  match s with
  | String c r => if is_ws c then skip_ws r else s
  | EmptyString => s
  end.

Definition is_digit (c : ascii) : bool :=
  let n := nat_of_ascii c in (48 <=? n)%nat && (n <=? 57)%nat.

Definition escape (c : ascii) : option ascii :=
  if Ascii.eqb c dquote then Some dquote
  else if Ascii.eqb c backslash then Some backslash
  else if Ascii.eqb c "/" then Some "/"%char
  else if Ascii.eqb c "b" then Some "008"%char
  else if Ascii.eqb c "f" then Some "012"%char
  else if Ascii.eqb c "n" then Some "010"%char
  else if Ascii.eqb c "r" then Some "013"%char
  else if Ascii.eqb c "t" then Some "009"%char
  else None.

(** The text of a string literal, after its opening quote. *)
Fixpoint parse_string (s : string) (acc : string) : option (string * string) :=
  match s with
  | EmptyString => None
  | String c r =>
      if Ascii.eqb c dquote then Some (acc, r)
      else if Ascii.eqb c backslash then
        match r with
        | String e r' =>
            match escape e with
            | Some x => parse_string r' (acc +:+ String x "")
            | None => None
            end
        | EmptyString => None
        end
      else if (nat_of_ascii c <? 32)%nat then None
      else parse_string r (acc +:+ String c "")
  end.

Fixpoint parse_digits (s : string) (acc : Z) : Z * string :=
  match s with
  | String c r =>
      if is_digit c
      then parse_digits r (10 * acc + Z.of_nat (nat_of_ascii c - 48))%Z
      else (acc, s)
  | EmptyString => (acc, s)
  end.

Definition starts_fraction (s : string) : bool :=
  match s with
  | String c _ => Ascii.eqb c "." || Ascii.eqb c "e" || Ascii.eqb c "E"
  | EmptyString => false
  end.

(** An integer literal: no leading zero, no fraction, no exponent. *)
Definition parse_int (s : string) : option (json * string) :=
  let '(neg, s1) :=
    match s with
    | String "-" r => (true, r)
    | _ => (false, s)
    end in
  match s1 with
  | String c r =>
      if is_digit c then
        let '(n, rest) := parse_digits s1 0 in
        if (Ascii.eqb c "0" && match r with
                               | String c2 _ => is_digit c2
                               | EmptyString => false
                               end) || starts_fraction rest
        then None
        else Some (JInt (if neg then - n else n)%Z, rest)
      else None
  | EmptyString => None
  end.

Fixpoint parse_value (fuel : nat) (s : string) : option (json * string) :=
  match fuel with
  | O => None
  | S fuel' =>
      match skip_ws s with
      | String c r =>
          if Ascii.eqb c "{" then
            match skip_ws r with
            | String "}" r' => Some (JObject [], r')
            | r1 => parse_members fuel' r1 []
            end
          else if Ascii.eqb c "[" then
            match skip_ws r with
            | String "]" r' => Some (JArray [], r')
            | r1 => parse_items fuel' r1 []
            end
          else if Ascii.eqb c dquote then
            match parse_string r "" with
            | Some (x, r') => Some (JString x, r')
            | None => None
            end
          else if String.prefix "true" (String c r) then Some (JBool true, Str.drop 4 (String c r))
          else if String.prefix "false" (String c r) then Some (JBool false, Str.drop 5 (String c r))
          else if String.prefix "null" (String c r) then Some (JNull, Str.drop 4 (String c r))
          else parse_int (String c r)
      | EmptyString => None
      end
  end
with parse_members (fuel : nat) (s : string) (acc : list (string * json))
  : option (json * string) :=
  match fuel with
  | O => None
  | S fuel' =>
      match s with
      | String c r =>
          if Ascii.eqb c dquote then
            match parse_string r "" with
            | Some (k, r1) =>
                match skip_ws r1 with
                | String ":" r2 =>
                    match parse_value fuel' r2 with
                    | Some (v, r3) =>
                        match skip_ws r3 with
                        | String "," r4 =>
                            parse_members fuel' (skip_ws r4) (dict_set acc k v)
                        | String "}" r4 => Some (JObject (dict_set acc k v), r4)
                        | _ => None
                        end
                    | None => None
                    end
                | _ => None
                end
            | None => None
            end
          else None
      | EmptyString => None
      end
  end
with parse_items (fuel : nat) (s : string) (acc : list json)
  : option (json * string) :=
  match fuel with
  | O => None
  | S fuel' =>
      match parse_value fuel' s with
      | Some (v, r1) =>
          match skip_ws r1 with
          | String "," r2 => parse_items fuel' r2 (acc ++ [v])
          | String "]" r2 => Some (JArray (acc ++ [v]), r2)
          | _ => None
          end
      | None => None
      end
  end.

Definition decode_error : exn := Exn ValueError "Expecting value".

Definition loads (s : string) : outcome json :=
  match parse_value (S (String.length s)) s with
  | Some (v, rest) =>
      match skip_ws rest with
      | EmptyString => Ret v
      | _ => Raise decode_error
      end
  | None => Raise decode_error
  end.

Definition string_of_Z (z : Z) : string := NilZero.string_of_int (Z.to_int z).

Fixpoint quote_string (s : string) : string :=
  match s with
  | EmptyString => EmptyString
  | String c r =>
      if Ascii.eqb c dquote || Ascii.eqb c backslash
      then String backslash (String c (quote_string r))
      else String c (quote_string r)
  end.

Definition quoted (s : string) : string :=
  String dquote (quote_string s +:+ String dquote "").

Fixpoint dumps (v : json) : string :=
  match v with
  | JNull => "null"
  | JBool true => "true"
  | JBool false => "false"
  | JInt z => string_of_Z z
  | JFloat _ => "NaN"
  | JString s => quoted s
  | JArray l =>
      "[" +:+ String.concat ", " (List.map dumps l) +:+ "]"
  | JObject d =>
      "{" +:+ String.concat ", "
               (List.map (fun kv => quoted (fst kv) +:+ ": " +:+ dumps (snd kv)) d)
          +:+ "}"
  end.

Definition format (v : json) : string :=
  match v with
  | JNull => "None"
  | JBool true => "True"
  | JBool false => "False"
  | _ => dumps v
  end.

(** multipart/form-data *)

(** [s.partition(needle)]: the text before the first occurrence and the text
    after it. *)
Fixpoint cut (needle s : string) (acc : string) : option (string * string) :=
  if String.prefix needle s
  then Some (acc, Str.drop (String.length needle) s)
  else
    match s with
    | EmptyString => None
    | String c r => cut needle r (acc +:+ String c "")
    end.

Definition before (needle s : string) : string :=
  match cut needle s "" with
  | Some (a, _) => a
  | None => s
  end.

Definition unquote (s : string) : string :=
  match s with
  | String c r => if Ascii.eqb c dquote then before (String dquote "") r else s
  | EmptyString => s
  end.

Fixpoint ltrim (s : string) : string :=
  match s with
  | String " " r => ltrim r
  | _ => s
  end.

(** The value of the parameter [k] in a header value [v]. *)
Definition param (k v : string) : option string :=
  let wanted := List.filter (fun p => String.prefix (k +:+ "=") (ltrim p))
                            (Str.split ";" v) in
  match wanted with
  | p :: _ => Some (unquote (Str.drop (String.length k + 1) (ltrim p)))
  | [] => None
  end.

Definition header (k : string) (lines : list string) : option string :=
  match List.filter (fun l => String.prefix (k +:+ ":") (Str.lower l)) lines with
  | l :: _ => Some (Str.drop (String.length k + 1) l)
  | [] => None
  end.

Fixpoint split_on (fuel : nat) (sep s : string) : list string :=
  match fuel with
  | O => [s]
  | S fuel' =>
      match cut sep s "" with
      | Some (a, b) => a :: split_on fuel' sep b
      | None => [s]
      end
  end.

Definition rstrip_crlf (s : string) : string :=
  if Str.endswith crlf s
  then String.substring 0 (String.length s - 2) s else s.

Definition one_part (segment : string) : option part :=
  match cut (crlf +:+ crlf) (Str.drop 2 segment) "" with
  | Some (head, content) =>
      let lines := split_on (String.length head) crlf head in
      let disposition := header "content-disposition" lines in
      Some (Part (disposition ≫= param "name")
                 (disposition ≫= param "filename")
                 (Some (list_byte_of_string (rstrip_crlf content))))
  | None => None
  end.

Fixpoint parts_of (segments : list string) : list part :=
  match segments with
  | [] => []
  | seg :: rest =>
      if String.prefix "--" seg then []
      else
        match one_part seg with
        | Some p => p :: parts_of rest
        | None => parts_of rest
        end
  end.

Definition parse_multipart (b : list byte) : outcome (list part) :=
  let text := string_of_list_byte b in
  match cut (crlf +:+ crlf) text "" with
  | Some (head, payload) =>
      match param "boundary" head with
      | Some boundary =>
          Ret (parts_of (List.tail (split_on (String.length payload)
                                          ("--" +:+ boundary) payload)))
      | None => Ret []
      end
  | None => Ret []
  end.

#[local] Instance libs : Libs := {
  json_loads := loads;
  json_dumps := dumps;
  parsebytes := parse_multipart;
  utf8_error := fun _ => "'utf-8' codec can't decode bytes";
  format_value := format
}.

End Ref.

(** * Properties *)

(** ** Facts about the string functions *)

#[local] Arguments String.append !_ _ / : simpl nomatch.

Section StrFacts.

Lemma append_assoc (a b c : string) : (a +:+ b) +:+ c = a +:+ (b +:+ c).
Proof. induction a as [|x a IH]; simpl; [done | by rewrite IH]. Qed.

Lemma append_nil_r (a : string) : a +:+ "" = a.
Proof. induction a as [|x a IH]; simpl; [done | by rewrite IH]. Qed.

Lemma length_append (a b : string) :
  String.length (a +:+ b) = (String.length a + String.length b)%nat.
Proof. induction a as [|x a IH]; simpl; [done | by rewrite IH]. Qed.



Lemma rfind_from_append c (a b : string) i last :
  Str.rfind_from c (a +:+ b) i last
  = Str.rfind_from c b (i + String.length a) (Str.rfind_from c a i last).
Proof.
  revert i last; induction a as [|x a IH]; intros i last; simpl.
  - by rewrite Nat.add_0_r.
  - rewrite IH. f_equal. lia.
Qed.

Lemma rfind_from_absent c (s : string) i last :
  Str.contains_char c s = false -> Str.rfind_from c s i last = last.
Proof.
  revert i last; induction s as [|x s IH]; intros i last H; simpl in *; [done |].
  apply orb_false_elim in H as [Hx Hs]. rewrite Hx. by apply IH.
Qed.

(** The last occurrence of [c] in [a ++ c ++ b] when [b] has none. *)
Lemma rfind_last c (a b : string) :
  Str.contains_char c b = false ->
  Str.rfind c (a +:+ String c b) = Some (String.length a).
Proof.
  intros Hb. unfold Str.rfind. rewrite rfind_from_append. simpl.
  rewrite Ascii.eqb_refl. by rewrite rfind_from_absent.
Qed.

Lemma split_from_no_sep c (s cur : string) :
  Str.contains_char c s = false -> Str.split_from c s cur = [cur +:+ s].
Proof.
  revert cur; induction s as [|x s IH]; intros cur H; simpl in *.
  - by rewrite append_nil_r.
  - apply orb_false_elim in H as [Hx Hs]. rewrite Hx, IH by done.
    by rewrite append_assoc.
Qed.

Lemma split_from_sep c (a s cur : string) :
  exists l, Str.split_from c (a +:+ String c s) cur = l ++ Str.split_from c s "".
Proof.
  revert cur; induction a as [|x a IH]; intros cur; simpl.
  - rewrite Ascii.eqb_refl. by exists [cur].
  - destruct (Ascii.eqb x c).
    + destruct (IH "") as [l Hl]. exists (cur :: l). by rewrite Hl.
    + apply IH.
Qed.




End StrFacts.

(** ** What [lower] turns into ASCII *)


Section LowerFacts.

Local Open Scope N_scope.

Lemma isascii_append (a b : string) :
  Str.isascii (a +:+ b) = Str.isascii a && Str.isascii b.
Proof.
  induction a as [|x a IH]; cbn [String.append Str.isascii]; [done |].
  by rewrite IH, andb_assoc.
Qed.

















End LowerFacts.

(** A directory prefix: nothing, or something that ends in a slash. *)
Definition dir_prefix (dir : string) : Prop :=
  dir = "" \/ exists d, dir = d +:+ "/".

Definition simple_name (nm : string) : Prop :=
  nm <> "" /\ nm <> "." /\ Str.contains_char "/" nm = false.

Lemma name_of_simple (dir nm : string) :
  dir_prefix dir -> simple_name nm -> Pathlib.name (dir +:+ nm) = nm.
Proof.
  intros Hdir (Hne & Hdot & Hsl).
  assert (Hkeep : (Str.nonempty nm && negb (String.eqb nm ".")) = true).
  { apply andb_true_intro; split.
    - by destruct nm.
    - apply negb_true_iff. by apply String.eqb_neq. }
  unfold Pathlib.name, Pathlib.parts, Str.split.
  destruct Hdir as [-> | [d ->]].
  - change ("" +:+ nm) with nm. rewrite split_from_no_sep by done.
    change ("" +:+ nm) with nm. cbn [List.filter]. by rewrite Hkeep.
  - rewrite append_assoc. change ("/" +:+ nm) with (String "/" nm).
    destruct (split_from_sep "/" d nm "") as [l ->].
    rewrite split_from_no_sep by done. change ("" +:+ nm) with nm.
    rewrite List.filter_app. cbn [List.filter]. rewrite Hkeep.
    by rewrite last_last.
Qed.





Lemma validar_extensao_str (f : string) :
  validar_extensao (JString f)
  = Ret (mem_str (Str.lower (Pathlib.suffix f)) extensoes).
Proof. reflexivity. Qed.




(** A last component that is only a dot and an extension, as [.mp4], has no
    suffix: such a filename is refused, whatever the extension. *)
Theorem validar_extensao_oculto (dir ext : string) :
  dir_prefix dir -> ext <> "" ->
  Str.contains_char "/" ext = false ->
  Str.contains_char "." ext = false ->
  validar_extensao (JString (dir +:+ "." +:+ ext)) = Ret false.
Proof.
  intros Hdir Hext Hs Hd. rewrite validar_extensao_str.
  unfold Pathlib.suffix. rewrite name_of_simple; [| done |].
  - change ("." +:+ ext) with ("" +:+ String "." ext).
    by rewrite rfind_last.
  - repeat split.
    + done.
    + intros [= H]. by destruct ext.
    + cbn. by rewrite Hs.
Qed.

Lemma validar_extensao_oculto_witness :
  validar_extensao (JString ("uploads/" +:+ "." +:+ "mp4")) = Ret false.
Proof.
  apply (validar_extensao_oculto "uploads/" "mp4");
    first [right; by exists "uploads" | discriminate | reflexivity].
Defined.

(** ** base64: encoding then decoding *)

Module Base64Facts.

Import Base64.
Local Open Scope N_scope.

Definition range (n : nat) : list N := List.map N.of_nat (seq 0 n).

Lemma in_range (k : nat) (n : N) : n < N.of_nat k -> In n (range k).
Proof.
  intros H. unfold range. apply in_map_iff. exists (N.to_nat n). split.
  - apply N2Nat.id.
  - apply in_seq. lia.
Qed.

(** A property of every pair of small numbers, decided by enumeration. *)
Definition grid (n m : nat) (P : N -> N -> bool) : bool :=
  forallb (fun a => forallb (P a) (range m)) (range n).

Lemma forall_grid (n m : nat) (P : N -> N -> bool) :
  grid n m P = true ->
  forall a b, a < N.of_nat n -> b < N.of_nat m -> P a b = true.
Proof.
  intros H a b Ha Hb. unfold grid in H.
  rewrite forallb_forall in H. specialize (H a (in_range n a Ha)).
  rewrite forallb_forall in H. exact (H b (in_range m b Hb)).
Qed.

Lemma forall_sextets (P : N -> bool) :
  forallb P (range 64) = true -> forall i, i < 64 -> P i = true.
Proof.
  intros H i Hi. rewrite forallb_forall in H. exact (H i (in_range 64 i Hi)).
Qed.

Lemma a2b_b2a (i : N) : i < 64 -> a2b (b2a i) = Some i.
Proof.
  intros Hi.
  pose proof (forall_sextets
                (fun i => bool_decide (a2b (b2a i) = Some i)) eq_refl i Hi) as H.
  by apply bool_decide_eq_true in H.
Qed.

Lemma b2a_not_pad (i : N) : i < 64 -> Ascii.eqb (b2a i) pad = false.
Proof.
  intros Hi.
  apply negb_true_iff.
  exact (forall_sextets (fun i => negb (Ascii.eqb (b2a i) pad)) eq_refl i Hi).
Qed.

Lemma b2a_ascii (i : N) : i < 64 -> (N_of_ascii (b2a i) <? 128) = true.
Proof.
  intros Hi.
  exact (forall_sextets (fun i => N_of_ascii (b2a i) <? 128) eq_refl i Hi).
Qed.

(** The four sextets of three bytes. *)
Definition s1 (n1 : N) : N := N.shiftr n1 2.
Definition s2 (n1 n2 : N) : N := N.lor (N.shiftl (N.land n1 3) 4) (N.shiftr n2 4).
Definition s3 (n2 n3 : N) : N := N.lor (N.shiftl (N.land n2 15) 2) (N.shiftr n3 6).
Definition s4 (n3 : N) : N := N.land n3 63.

Definition sextets_ok (a b : N) : bool :=
  (s1 a <? 64) && (s2 a b <? 64) && (s3 a b <? 64) && (s4 a <? 64)
  && (N.shiftl (N.land a 3) 4 <? 64) && (N.shiftl (N.land a 15) 2 <? 64).

(** What each byte contributes, checked on the 256 bytes. *)
Definition byte_check (a _ : N) : bool :=
  (s1 a <? 64) && (s4 a <? 64)
  && (N.shiftr a 4 <? 16) && (N.shiftr a 6 <? 4)
  && (N.shiftl (N.land a 3) 4 <? 64) && (N.shiftl (N.land a 15) 2 <? 64)
  && ((N.lor (N.shiftl (N.shiftr a 6) 6) (s4 a)) mod 256 =? a)
  && ((N.lor (N.shiftl (s1 a) 2) (N.shiftr (N.shiftl (N.land a 3) 4) 4)) mod 256 =? a)
  && ((N.lor (N.shiftl (N.shiftr a 4) 4)
             (N.shiftr (N.shiftl (N.land a 15) 2) 2)) mod 256 =? a).

(** The second sextet, from a byte [a] and the high half [h] of the next. *)
Definition c2_check (a h : N) : bool :=
  let c := N.lor (N.shiftl (N.land a 3) 4) h in
  (c <? 64) && (N.land c 15 =? h)
  && ((N.lor (N.shiftl (s1 a) 2) (N.shiftr c 4)) mod 256 =? a).

(** The third sextet, from a byte [a] and the top two bits [t] of the next. *)
Definition c3_check (a t : N) : bool :=
  let c := N.lor (N.shiftl (N.land a 15) 2) t in
  (c <? 64) && (N.land c 3 =? t)
  && ((N.lor (N.shiftl (N.shiftr a 4) 4) (N.shiftr c 2)) mod 256 =? a).

Lemma byte_check_all a : a < 256 -> byte_check a 0 = true.
Proof.
  intros Ha. revert a Ha.
  assert (forall a b, a < 256 -> b < 1 -> byte_check a b = true) as H
    by (apply (forall_grid 256 1); vm_compute; reflexivity).
  intros a Ha. by apply H.
Qed.

Lemma c2_check_all a h : a < 256 -> h < 16 -> c2_check a h = true.
Proof. apply (forall_grid 256 16). vm_compute. reflexivity. Qed.

Lemma c3_check_all a t : a < 256 -> t < 4 -> c3_check a t = true.
Proof. apply (forall_grid 256 4). vm_compute. reflexivity. Qed.

Ltac split_check H :=
  repeat (apply andb_prop in H as [H ?]);
  repeat match goal with
         | H' : (_ <? _) = true |- _ => apply N.ltb_lt in H'
         | H' : (_ =? _) = true |- _ => apply N.eqb_eq in H'
         end.

(** The facts about one byte, two bytes in a row, as the proofs use them. *)
Ltac byte_facts a b :=
  let Ha := fresh "Ka" in let Hb := fresh "Kb" in
  let H2 := fresh "K2" in let H3 := fresh "K3" in
  match goal with
  | Ha' : a < 256, Hb' : b < 256 |- _ =>
      pose proof (byte_check_all a Ha') as Ha;
      pose proof (byte_check_all b Hb') as Hb;
      unfold byte_check in Ha, Hb; split_check Ha; split_check Hb;
      pose proof (c2_check_all a (N.shiftr b 4) Ha' ltac:(assumption)) as H2;
      pose proof (c3_check_all a (N.shiftr b 6) Ha' ltac:(assumption)) as H3;
      unfold c2_check in H2; unfold c3_check in H3; cbv zeta in H2, H3;
      split_check H2; split_check H3
  end.

Lemma sextets_ok_all a b : a < 256 -> b < 256 -> sextets_ok a b = true.
Proof.
  intros Ha Hb. byte_facts a b. unfold sextets_ok, s2, s3.
  repeat (apply andb_true_intro; split); by apply N.ltb_lt.
Qed.

(** What the decoder rebuilds from the sextets of the encoder. *)
Lemma byte1_ok a b : a < 256 -> b < 256 ->
  (N.lor (N.shiftl (s1 a) 2) (N.shiftr (s2 a b) 4)) mod 256 = a.
Proof. intros Ha Hb. byte_facts a b. by unfold s2. Qed.

Lemma left2_ok a b : a < 256 -> b < 256 -> N.land (s2 a b) 15 = N.shiftr b 4.
Proof. intros Ha Hb. byte_facts a b. by unfold s2. Qed.

Lemma byte2_ok a b : a < 256 -> b < 256 ->
  (N.lor (N.shiftl (N.shiftr a 4) 4) (N.shiftr (s3 a b) 2)) mod 256 = a.
Proof. intros Ha Hb. byte_facts a b. by unfold s3. Qed.

Lemma left3_ok a b : a < 256 -> b < 256 -> N.land (s3 a b) 3 = N.shiftr b 6.
Proof. intros Ha Hb. byte_facts a b. by unfold s3. Qed.

Lemma byte3_ok a b : a < 256 -> b < 256 ->
  (N.lor (N.shiftl (N.shiftr b 6) 6) (s4 b)) mod 256 = b.
Proof. intros Ha Hb. byte_facts a b. done. Qed.

(** The same for the shorter last quad of a one-byte and a two-byte tail. *)
Lemma tail1_ok a b : a < 256 -> b < 256 ->
  (N.lor (N.shiftl (s1 a) 2) (N.shiftr (N.shiftl (N.land a 3) 4) 4)) mod 256 = a.
Proof. intros Ha Hb. byte_facts a b. done. Qed.

Lemma tail2_ok a b : a < 256 -> b < 256 ->
  (N.lor (N.shiftl (N.shiftr a 4) 4)
         (N.shiftr (N.shiftl (N.land a 15) 2) 2)) mod 256 = a.
Proof. intros Ha Hb. byte_facts a b. done. Qed.

Lemma to_N_lt (b : byte) : Byte.to_N b < 256.
Proof. pose proof (Byte.to_N_bounded b). lia. Qed.

Lemma to_byte_to_N (b : byte) (n : N) :
  n mod 256 = Byte.to_N b -> to_byte n = b.
Proof. intros H. unfold to_byte. by rewrite H, Byte.of_to_N. Qed.


(** One step of the loop on a character of the alphabet. *)
Lemma step_sextet (i : N) (s : string) q l p out :
  i < 64 ->
  a2b_loop (String (b2a i) s) q l p out
  = match q with
    | 0%nat => a2b_loop s 1 i 0 out
    | 1%nat =>
        a2b_loop s 2 (N.land i 15) 0
          (out ++ [to_byte (N.lor (N.shiftl l 2) (N.shiftr i 4))])
    | 2%nat =>
        a2b_loop s 3 (N.land i 3) 0
          (out ++ [to_byte (N.lor (N.shiftl l 4) (N.shiftr i 2))])
    | _ =>
        a2b_loop s 0 0 0 (out ++ [to_byte (N.lor (N.shiftl l 6) i)])
    end.
Proof.
  intros Hi. cbn [a2b_loop]. by rewrite b2a_not_pad, a2b_b2a.
Qed.

Lemma snoc3 {A} (out : list A) a b c :
  ((out ++ [a]) ++ [b]) ++ [c] = out ++ [a; b; c].
Proof. by rewrite <- !app_assoc. Qed.

(** A full quad gives back its three bytes and leaves the loop in its
    initial state. *)
Lemma loop_enc3 (b1 b2 b3 : byte) (s : string) l p out :
  a2b_loop (enc3 b1 b2 b3 +:+ s) 0 l p out
  = a2b_loop s 0 0 0 (out ++ [b1; b2; b3]).
Proof.
  pose proof (to_N_lt b1) as H1. pose proof (to_N_lt b2) as H2.
  pose proof (to_N_lt b3) as H3.
  pose proof (sextets_ok_all _ _ H1 H2) as Ha.
  pose proof (sextets_ok_all _ _ H2 H3) as Hb.
  pose proof (sextets_ok_all _ _ H3 H3) as Hc.
  unfold sextets_ok in Ha, Hb, Hc.
  repeat (apply andb_prop in Ha as [Ha ?]).
  repeat (apply andb_prop in Hb as [Hb ?]).
  repeat (apply andb_prop in Hc as [Hc ?]).
  repeat match goal with H : (_ <? _) = true |- _ => apply N.ltb_lt in H end.
  change (enc3 b1 b2 b3 +:+ s)
    with (String (b2a (s1 (Byte.to_N b1)))
         (String (b2a (s2 (Byte.to_N b1) (Byte.to_N b2)))
         (String (b2a (s3 (Byte.to_N b2) (Byte.to_N b3)))
         (String (b2a (s4 (Byte.to_N b3))) s)))).
  rewrite !step_sextet by done.
  rewrite left2_ok, left3_ok by done.
  rewrite (to_byte_to_N b1) by (by apply byte1_ok).
  rewrite (to_byte_to_N b2) by (by apply byte2_ok).
  rewrite (to_byte_to_N b3) by (by apply (byte3_ok (Byte.to_N b3))).
  by rewrite snoc3.
Qed.

(** Induction on a byte string, three bytes at a time. *)
Lemma list_ind3 {A} (P : list A -> Prop) :
  P [] -> (forall a, P [a]) -> (forall a b, P [a; b]) ->
  (forall a b c l, P l -> P (a :: b :: c :: l)) ->
  forall l, P l.
Proof.
  intros H0 H1 H2 H3.
  refine (fix go l := match l with
                      | [] => H0
                      | [a] => H1 a
                      | [a; b] => H2 a b
                      | a :: b :: c :: l' => H3 a b c l' (go l')
                      end).
Qed.

Lemma loop_b64encode (bs : list byte) : forall l p out,
  a2b_loop (b64encode bs) 0 l p out = Ret (out ++ bs).
Proof.
  induction bs as [| b1 | b1 b2 | b1 b2 b3 bs IH] using list_ind3;
    intros l p out.
  - cbn. by rewrite app_nil_r.
  - pose proof (to_N_lt b1) as H1.
    pose proof (sextets_ok_all _ _ H1 H1) as Ha. unfold sextets_ok in Ha.
    repeat (apply andb_prop in Ha as [Ha ?]).
    repeat match goal with H : (_ <? _) = true |- _ => apply N.ltb_lt in H end.
    change (b64encode [b1])
      with (String (b2a (s1 (Byte.to_N b1)))
           (String (b2a (N.shiftl (N.land (Byte.to_N b1) 3) 4)) "==")).
    rewrite !step_sextet by done.
    rewrite (to_byte_to_N b1) by (by apply (tail1_ok _ (Byte.to_N b1))).
    reflexivity.
  - pose proof (to_N_lt b1) as H1. pose proof (to_N_lt b2) as H2.
    pose proof (sextets_ok_all _ _ H1 H2) as Ha.
    pose proof (sextets_ok_all _ _ H2 H2) as Hb.
    unfold sextets_ok in Ha, Hb.
    repeat (apply andb_prop in Ha as [Ha ?]).
    repeat (apply andb_prop in Hb as [Hb ?]).
    repeat match goal with H : (_ <? _) = true |- _ => apply N.ltb_lt in H end.
    change (b64encode [b1; b2])
      with (String (b2a (s1 (Byte.to_N b1)))
           (String (b2a (s2 (Byte.to_N b1) (Byte.to_N b2)))
           (String (b2a (N.shiftl (N.land (Byte.to_N b2) 15) 2)) "="))).
    rewrite !step_sextet by done.
    rewrite left2_ok by done.
    rewrite (to_byte_to_N b1) by (by apply byte1_ok).
    rewrite (to_byte_to_N b2) by (by apply (tail2_ok _ (Byte.to_N b2))).
    cbn. by rewrite <- app_assoc.
  - change (b64encode (b1 :: b2 :: b3 :: bs))
      with (enc3 b1 b2 b3 +:+ b64encode bs).
    rewrite loop_enc3, IH. by rewrite <- app_assoc.
Qed.

Lemma is_ascii_append (a b : string) :
  is_ascii (a +:+ b) = is_ascii a && is_ascii b.
Proof.
  induction a as [|x a IH]; cbn [String.append is_ascii]; [done |].
  by rewrite IH, andb_assoc.
Qed.

Lemma is_ascii_b64encode (bs : list byte) : is_ascii (b64encode bs) = true.
Proof.
  induction bs as [| b1 | b1 b2 | b1 b2 b3 bs IH] using list_ind3.
  - reflexivity.
  - pose proof (to_N_lt b1) as H1.
    pose proof (sextets_ok_all _ _ H1 H1) as Ha. unfold sextets_ok in Ha.
    repeat (apply andb_prop in Ha as [Ha ?]).
    repeat match goal with H : (_ <? _) = true |- _ => apply N.ltb_lt in H end.
    cbn [b64encode is_ascii]. unfold s1 in *.
    by rewrite !b2a_ascii.
  - pose proof (to_N_lt b1) as H1. pose proof (to_N_lt b2) as H2.
    pose proof (sextets_ok_all _ _ H1 H2) as Ha.
    pose proof (sextets_ok_all _ _ H2 H2) as Hb.
    unfold sextets_ok in Ha, Hb.
    repeat (apply andb_prop in Ha as [Ha ?]).
    repeat (apply andb_prop in Hb as [Hb ?]).
    repeat match goal with H : (_ <? _) = true |- _ => apply N.ltb_lt in H end.
    cbn [b64encode is_ascii]. unfold s1, s2 in *.
    by rewrite !b2a_ascii.
  - change (b64encode (b1 :: b2 :: b3 :: bs))
      with (enc3 b1 b2 b3 +:+ b64encode bs).
    rewrite is_ascii_append, IH, andb_true_r.
    pose proof (to_N_lt b1) as H1. pose proof (to_N_lt b2) as H2.
    pose proof (to_N_lt b3) as H3.
    pose proof (sextets_ok_all _ _ H1 H2) as Ha.
    pose proof (sextets_ok_all _ _ H2 H3) as Hb.
    pose proof (sextets_ok_all _ _ H3 H3) as Hc.
    unfold sextets_ok in Ha, Hb, Hc.
    repeat (apply andb_prop in Ha as [Ha ?]).
    repeat (apply andb_prop in Hb as [Hb ?]).
    repeat (apply andb_prop in Hc as [Hc ?]).
    repeat match goal with H : (_ <? _) = true |- _ => apply N.ltb_lt in H end.
    unfold enc3. cbn [is_ascii]. unfold s1, s2, s3, s4 in *.
    by rewrite !b2a_ascii.
Qed.

(** Decoding what the encoder produced gives the bytes back. *)
Lemma b64decode_b64encode (bs : list byte) :
  b64decode (JString (b64encode bs)) = Ret bs.
Proof.
  cbn [b64decode]. unfold b64decode_str, a2b_base64.
  by rewrite is_ascii_b64encode, loop_b64encode.
Qed.

Lemma b64encode_nonempty (bs : list byte) :
  bs <> [] -> Str.nonempty (b64encode bs) = true.
Proof. destruct bs as [|b1 [|b2 [|b3 bs]]]; done. Qed.

End Base64Facts.

(** ** The request parser *)

Section ParserFacts.

Context `{L : Libs}.

Lemma bind_ret {A B} (a : A) (k : A -> outcome B) : mbind k (Ret a) = k a.
Proof. reflexivity. Qed.

Lemma bind_raise {A B} (e : exn) (k : A -> outcome B) :
  mbind k (Raise e) = Raise e.
Proof. reflexivity. Qed.

(** What the parser returns has passed the check of lines 139-140. *)
Lemma extrair_ret_nonempty (ev : event) email nome_arquivo arquivo_bytes :
  extrair_dados_requisicao ev = Ret (email, nome_arquivo, arquivo_bytes) ->
  truthy email = true /\ truthy nome_arquivo = true /\ arquivo_bytes <> [].
Proof.
  unfold extrair_dados_requisicao.
  destruct (extrair_campos ev) as [c|e]; [| discriminate].
  rewrite bind_ret. unfold verificar_campos.
  destruct (truthy (c_email c)) eqn:He; [| discriminate].
  destruct (truthy (c_nome_arquivo c)) eqn:Hf; [| discriminate].
  destruct (c_arquivo_bytes c) as [[|b bs]|] eqn:Hb; try discriminate.
  cbn. intros [= <- <- <-]. done.
Qed.

(** Once the fields are extracted, a missing or empty one is refused. *)
Lemma extrair_campo_ausente (ev : event) (c : campos) :
  extrair_campos ev = Ret c ->
  truthy (c_email c) = false \/ truthy (c_nome_arquivo c) = false
  \/ truthy_bytes (c_arquivo_bytes c) = false ->
  extrair_dados_requisicao ev = Raise (Exn ValueError msg_ausentes).
Proof.
  intros Hc H. unfold extrair_dados_requisicao. rewrite Hc, bind_ret.
  unfold verificar_campos.
  destruct H as [-> | [-> | ->]]; cbn; by rewrite ?orb_true_r.
Qed.

Lemma campos_json_object (ev : event) (d : list (string * json)) :
  json_loads (or_str (ev_body ev) "{}") = Ret (JObject d) ->
  campos_json ev
  = let email := default JNull (dict_get d "email") in
    let nome_arquivo := default JNull (dict_get d "filename") in
    let arquivo_b64 := default JNull (dict_get d "arquivo") in
    if truthy arquivo_b64 then
      arquivo_bytes ← reraise_as (Exn ValueError msg_base64)
                        (Base64.b64decode arquivo_b64);
      Ret (Campos email nome_arquivo (Some arquivo_bytes))
    else Ret (Campos email nome_arquivo None).
Proof. intros H. unfold campos_json. by rewrite H. Qed.

(** C5. In the JSON branch, a body whose object carries a non-empty email,
    a non-empty filename and, under [arquivo], the base64 encoding of a
    non-empty byte string [b], is parsed to exactly [(email, filename, b)]. *)
Theorem extrair_json_roundtrip (ev : event) (d : list (string * json))
        (email nome_arquivo : json) (b : list byte) :
  is_multipart (content_type_of ev) = false ->
  json_loads (or_str (ev_body ev) "{}") = Ret (JObject d) ->
  dict_get d "email" = Some email ->
  dict_get d "filename" = Some nome_arquivo ->
  dict_get d "arquivo" = Some (JString (Base64.b64encode b)) ->
  truthy email = true -> truthy nome_arquivo = true -> b <> [] ->
  extrair_dados_requisicao ev = Ret (email, nome_arquivo, b).
Proof.
  intros Hct Hbody He Hf Ha Hte Htf Hb.
  unfold extrair_dados_requisicao, extrair_campos. rewrite Hct.
  rewrite (campos_json_object ev d Hbody), He, Hf, Ha.
  cbn [from_option id truthy]. rewrite Base64Facts.b64encode_nonempty by done.
  rewrite Base64Facts.b64decode_b64encode. cbn [reraise_as].
  rewrite !bind_ret. unfold verificar_campos. cbn.
  rewrite Hte, Htf. destruct b; [done | reflexivity].
Qed.

End ParserFacts.

Section ParserBranches.

Context `{L : Libs}.

(** A part that carries a file: its [filename] attribute is a non-empty
    string. *)
Definition file_part (p : part) : Prop := truthy_str (part_filename p) = true.

(** A part named [email] that carries no file. *)
Definition email_part (p : part) : Prop :=
  truthy_str (part_filename p) = false /\ part_name p = Some "email".

Lemma passo_file (c : campos) (p : part) :
  file_part p ->
  passo_part c p
  = Ret (Campos (c_email c) (JString (default "" (part_filename p)))
                (part_payload p)).
Proof. intros H. unfold passo_part. by rewrite H. Qed.

Lemma passo_email (c : campos) (p : part) :
  email_part p ->
  passo_part c p
  = match part_payload p with
    | Some bs =>
        e ← decode_utf8 bs;
        Ret (Campos (JString e) (c_nome_arquivo c) (c_arquivo_bytes c))
    | None =>
        Raise (Exn AttributeError "'NoneType' object has no attribute 'decode'")
    end.
Proof.
  intros [Hf Hn]. unfold passo_part. rewrite Hf, Hn.
  by rewrite bool_decide_eq_true_2.
Qed.

(** The loop over a file part and an email part ends in the same state in
    both orders. *)
Lemma laco_parts_swap (pf pe : part) :
  file_part pf -> email_part pe ->
  laco_parts campos_vazios [pf; pe] = laco_parts campos_vazios [pe; pf].
Proof.
  intros Hf He. cbn [laco_parts].
  rewrite (passo_file _ pf Hf), (passo_email _ pe He), !bind_ret.
  rewrite (passo_email _ pe He).
  destruct (part_payload pe) as [bs|]; [| reflexivity].
  destruct (decode_utf8 bs) as [e|e]; [| reflexivity].
  rewrite !bind_ret. by rewrite (passo_file _ pf Hf).
Qed.

Lemma extrair_multipart (ev : event) (ct : string) :
  content_type_of ev = Some ct -> is_multipart (Some ct) = true ->
  extrair_dados_requisicao ev
  = (parts ← partes_multipart ev ct;
     c ← laco_parts campos_vazios parts;
     verificar_campos c).
Proof.
  intros Hct Hm. unfold extrair_dados_requisicao, extrair_campos.
  rewrite Hct, Hm. unfold campos_multipart. cbn [from_option id].
  by destruct (partes_multipart ev ct).
Qed.

(** C7. Two multipart requests whose bodies hold the same file part and the
    same email part, in opposite orders, are parsed to the same result; when
    the email is well-formed text and neither payload is empty, that result
    is the triple (email, filename, file bytes). *)
Theorem multipart_ordem_das_partes (ev1 ev2 : event) (ct1 ct2 : string)
        (pf pe : part) :
  content_type_of ev1 = Some ct1 -> is_multipart (Some ct1) = true ->
  content_type_of ev2 = Some ct2 -> is_multipart (Some ct2) = true ->
  partes_multipart ev1 ct1 = Ret [pf; pe] ->
  partes_multipart ev2 ct2 = Ret [pe; pf] ->
  file_part pf -> email_part pe ->
  extrair_dados_requisicao ev1 = extrair_dados_requisicao ev2
  /\ forall email_bytes file_bytes,
       part_payload pe = Some email_bytes -> Utf8.valid email_bytes = true ->
       email_bytes <> [] ->
       part_payload pf = Some file_bytes -> file_bytes <> [] ->
       extrair_dados_requisicao ev1
       = Ret (JString (string_of_list_byte email_bytes),
              JString (default "" (part_filename pf)), file_bytes).
Proof.
  intros Hc1 Hm1 Hc2 Hm2 Hp1 Hp2 Hf He.
  rewrite (extrair_multipart ev1 ct1 Hc1 Hm1), (extrair_multipart ev2 ct2 Hc2 Hm2).
  rewrite Hp1, Hp2, !bind_ret. split.
  - by rewrite (laco_parts_swap pf pe Hf He).
  - intros eb fb Hpe Hv Hne Hpf Hnf.
    cbn [laco_parts].
    rewrite (passo_file _ pf Hf), bind_ret, (passo_email _ pe He), Hpe.
    unfold decode_utf8. rewrite Hv, !bind_ret. cbn [c_email c_nome_arquivo c_arquivo_bytes campos_vazios].
    unfold verificar_campos. cbn [c_email c_nome_arquivo c_arquivo_bytes truthy].
    rewrite Hpf.
    assert (Str.nonempty (string_of_list_byte eb) = true) as ->.
    { destruct eb; [done | reflexivity]. }
    assert (Str.nonempty (default "" (part_filename pf)) = true) as ->.
    { unfold file_part, truthy_str in Hf. by destruct (part_filename pf). }
    destruct fb; [done | reflexivity].
Qed.

(** A body that is JSON but not an object has no [get]: the parser leaves
    with an [AttributeError], which is not a [ValueError]. *)
Definition is_object (v : json) : bool :=
  match v with JObject _ => true | _ => false end.

(** C4. In the JSON branch, a body that decodes to a value other than an
    object makes the parser raise [AttributeError], not the [ValueError] of a
    malformed request. *)
Theorem extrair_corpo_nao_objeto (ev : event) (v : json) :
  is_multipart (content_type_of ev) = false ->
  json_loads (or_str (ev_body ev) "{}") = Ret v ->
  is_object v = false ->
  extrair_dados_requisicao ev
  = Raise (Exn AttributeError
             ("'" +:+ type_name v +:+ "' object has no attribute 'get'"))
  /\ forall e, extrair_dados_requisicao ev = Raise e -> is_ValueError e = false.
Proof.
  intros Hct Hbody Hv.
  assert (extrair_dados_requisicao ev
          = Raise (Exn AttributeError
                     ("'" +:+ type_name v +:+ "' object has no attribute 'get'")))
    as Hr.
  { unfold extrair_dados_requisicao, extrair_campos. rewrite Hct.
    unfold campos_json. rewrite Hbody. cbn [reraise_as]. rewrite bind_ret.
    by destruct v. }
  split; [exact Hr |].
  intros e He. rewrite Hr in He. by injection He as <-.
Qed.

(** The strings the lenient decoder refuses, among others: no pad character
    and a number of alphabet characters that is not a multiple of 4. *)
Fixpoint data_chars (s : string) : nat :=
  match s with
  | EmptyString => 0
  | String c r =>
      match Base64.a2b c with
      | Some _ => S (data_chars r)
      | None => data_chars r
      end
  end.

Lemma a2b_loop_bad_length (s : string) : forall q l p out,
  Str.contains_char Base64.pad s = false ->
  (q < 4)%nat -> ((q + data_chars s) mod 4 <> 0)%nat ->
  exists e, Base64.a2b_loop s q l p out = Raise e.
Proof.
  induction s as [|c s IH]; intros q l p out Hpad Hq Hlen.
  - cbn [data_chars] in Hlen.
    rewrite Nat.add_0_r, Nat.mod_small in Hlen by done.
    cbn [Base64.a2b_loop]. destruct q as [|[|q]]; [done | eauto | eauto].
  - cbn [Str.contains_char] in Hpad. apply orb_false_elim in Hpad as [Hc Hs].
    cbn [Base64.a2b_loop data_chars] in *. rewrite Hc.
    destruct (Base64.a2b c) as [v|].
    + destruct q as [|[|[|q]]].
      * apply IH; [done | lia | exact Hlen].
      * apply IH; [done | lia | exact Hlen].
      * apply IH; [done | lia | exact Hlen].
      * assert (q = 0%nat) as -> by lia.
        apply IH; [done | lia |].
        replace (3 + S (data_chars s))%nat with (data_chars s + 1 * 4)%nat in Hlen by lia.
        by rewrite Nat.Div0.mod_add in Hlen.
    + by apply IH.
Qed.

(** "A valid base64 encoding", in the words of the specification: the
    encoding of some byte string. *)
Definition valid_base64 (s : string) : Prop := exists b, s = Base64.b64encode b.

(** The property as the specification states it: in the JSON branch an
    [arquivo] field that is not a valid base64 encoding makes the parser fail
    with a [ValueError]. *)
Definition arquivo_invalido_rejeitado : Prop :=
  forall (ev : event) (d : list (string * json)) (s : string),
    is_multipart (content_type_of ev) = false ->
    json_loads (or_str (ev_body ev) "{}") = Ret (JObject d) ->
    dict_get d "arquivo" = Some (JString s) ->
    ~ valid_base64 s ->
    exists e, extrair_dados_requisicao ev = Raise e /\ is_ValueError e = true.

(** C6, as the code has it. In the JSON branch, an [arquivo] field that is
    empty, or that [base64.b64decode] refuses (a value that is not a string, a
    string that is not ASCII, or one whose alphabet characters do not fill
    quads), makes the parser fail with a [ValueError]; characters outside the
    alphabet are discarded before the check, so their presence alone is not
    refused. *)
Theorem extrair_arquivo_recusado (ev : event) (d : list (string * json))
        (v : json) :
  is_multipart (content_type_of ev) = false ->
  json_loads (or_str (ev_body ev) "{}") = Ret (JObject d) ->
  dict_get d "arquivo" = Some v ->
  (truthy v = false \/ exists e, Base64.b64decode v = Raise e) ->
  extrair_dados_requisicao ev
  = Raise (Exn ValueError (if truthy v then msg_base64 else msg_ausentes)).
Proof.
  intros Hct Hbody Ha Hv.
  unfold extrair_dados_requisicao, extrair_campos. rewrite Hct.
  rewrite (campos_json_object ev d Hbody), Ha. cbn [from_option id].
  destruct (truthy v) eqn:Ht.
  - destruct Hv as [? | [e He]]; [done |]. by rewrite He.
  - rewrite bind_ret. unfold verificar_campos. cbn. by rewrite !orb_true_r.
Qed.

(** Decoding what [base64.b64encode] produced gives the bytes back. *)
Theorem b64_ida_e_volta (b : list byte) :
  Base64.b64decode (JString (Base64.b64encode b)) = Ret b.
Proof. apply Base64Facts.b64decode_b64encode. Qed.

(** A string without pad characters whose alphabet characters do not come
    in fours is refused by the decoder. *)
Theorem b64decode_recusa_comprimento (s : string) :
  Str.contains_char Base64.pad s = false ->
  (data_chars s mod 4 <> 0)%nat ->
  exists e, Base64.b64decode (JString s) = Raise e.
Proof.
  intros Hpad Hlen. cbn [Base64.b64decode]. unfold Base64.b64decode_str.
  destruct (Base64.is_ascii s); [| by eexists].
  apply a2b_loop_bad_length; [done | lia | done].
Qed.

End ParserBranches.

(** ** The decoder: what it lets through *)

(** The characters the decoding loop looks at: the pad and the alphabet. *)
Definition significativo (c : ascii) : bool :=
  Ascii.eqb c Base64.pad
  || match Base64.a2b c with Some _ => true | None => false end.

(** [s] without the characters the loop skips. *)
Fixpoint so_significativos (s : string) : string :=
  match s with
  | EmptyString => EmptyString
  | String c r =>
      if significativo c then String c (so_significativos r)
      else so_significativos r
  end.

Section Base64Lenient.

Import Base64.

Lemma a2b_loop_so_significativos (s : string) : forall q l p out,
  a2b_loop s q l p out = a2b_loop (so_significativos s) q l p out.
Proof.
  induction s as [|c s IH]; intros q l p out; [done |].
  cbn [so_significativos]. unfold significativo.
  destruct (Ascii.eqb c pad) eqn:Hc; cbn [orb].
  - cbn [a2b_loop]. rewrite Hc.
    destruct (2 <=? q)%nat; [destruct (4 <=? q + S p)%nat |]; auto.
  - destruct (a2b c) as [v|] eqn:Ha; cbn [a2b_loop]; rewrite Hc, Ha.
    + destruct q as [|[|[|q]]]; apply IH.
    + apply IH.
Qed.

Lemma is_ascii_so_significativos (s : string) :
  is_ascii s = true -> is_ascii (so_significativos s) = true.
Proof.
  induction s as [|c s IH]; [done |].
  cbn [is_ascii so_significativos]. intros H.
  apply andb_prop in H as [Hc Hs].
  destruct (significativo c); cbn [is_ascii]; [rewrite Hc |]; by apply IH.
Qed.

(** Every error of the decoding loop is a [binascii.Error]. *)
Lemma a2b_loop_raise (s : string) : forall q l p out e,
  a2b_loop s q l p out = Raise e -> exn_cls e = BinasciiError.
Proof.
  induction s as [|c s IH]; intros q l p out e.
  - cbn [a2b_loop]. destruct q as [|[|q]]; [done | |]; by intros [= <-].
  - cbn [a2b_loop].
    destruct (Ascii.eqb c pad).
    + destruct (2 <=? q)%nat; [destruct (4 <=? q + S p)%nat |]; [done | |]; apply IH.
    + destruct (a2b c) as [v|]; [| apply IH].
      destruct q as [|[|[|q]]]; apply IH.
Qed.

Lemma b64decode_str_raise (s : string) (e : exn) :
  b64decode_str s = Raise e -> is_ValueError e = true.
Proof.
  unfold b64decode_str, a2b_base64. destruct (is_ascii s).
  - intros H. apply a2b_loop_raise in H. unfold is_ValueError. by rewrite H.
  - by intros [= <-].
Qed.

(** Once a quad is complete the loop starts afresh: what is left of the
    previous quad plays no role. *)
Lemma loop_encode_then (bs : list byte) (t : string) : forall l p out,
  (List.length bs mod 3 <> 0)%nat ->
  a2b_loop (b64encode bs +:+ t) 0 l p out = Ret (out ++ bs).
Proof.
  induction bs as [| b1 | b1 b2 | b1 b2 b3 bs IH] using Base64Facts.list_ind3;
    intros l p out Hlen.
  - done.
  - pose proof (Base64Facts.to_N_lt b1) as H1.
    pose proof (Base64Facts.sextets_ok_all _ _ H1 H1) as Ha.
    unfold Base64Facts.sextets_ok in Ha.
    repeat (apply andb_prop in Ha as [Ha ?]).
    repeat match goal with H : (_ <? _)%N = true |- _ => apply N.ltb_lt in H end.
    change (b64encode [b1] +:+ t)
      with (String (b2a (Base64Facts.s1 (Byte.to_N b1)))
           (String (b2a (N.shiftl (N.land (Byte.to_N b1) 3) 4))
           (String pad (String pad t)))).
    rewrite !Base64Facts.step_sextet by done.
    rewrite (Base64Facts.to_byte_to_N b1)
      by (by apply (Base64Facts.tail1_ok _ (Byte.to_N b1))).
    reflexivity.
  - pose proof (Base64Facts.to_N_lt b1) as H1.
    pose proof (Base64Facts.to_N_lt b2) as H2.
    pose proof (Base64Facts.sextets_ok_all _ _ H1 H2) as Ha.
    pose proof (Base64Facts.sextets_ok_all _ _ H2 H2) as Hb.
    unfold Base64Facts.sextets_ok in Ha, Hb.
    repeat (apply andb_prop in Ha as [Ha ?]).
    repeat (apply andb_prop in Hb as [Hb ?]).
    repeat match goal with H : (_ <? _)%N = true |- _ => apply N.ltb_lt in H end.
    change (b64encode [b1; b2] +:+ t)
      with (String (b2a (Base64Facts.s1 (Byte.to_N b1)))
           (String (b2a (Base64Facts.s2 (Byte.to_N b1) (Byte.to_N b2)))
           (String (b2a (N.shiftl (N.land (Byte.to_N b2) 15) 2))
           (String pad t)))).
    rewrite !Base64Facts.step_sextet by done.
    rewrite Base64Facts.left2_ok by done.
    rewrite (Base64Facts.to_byte_to_N b1) by (by apply Base64Facts.byte1_ok).
    rewrite (Base64Facts.to_byte_to_N b2)
      by (by apply (Base64Facts.tail2_ok _ (Byte.to_N b2))).
    cbn. by rewrite <- app_assoc.
  - change (b64encode (b1 :: b2 :: b3 :: bs))
      with (enc3 b1 b2 b3 +:+ b64encode bs).
    rewrite append_assoc, Base64Facts.loop_enc3, IH.
    + by rewrite <- app_assoc.
    + cbn [List.length] in Hlen.
      replace (S (S (S (List.length bs)))) with (List.length bs + 1 * 3)%nat in Hlen by lia.
      by rewrite Nat.Div0.mod_add in Hlen.
Qed.

(** The decoder skips what is not in the alphabet: a string and the same
    string without those characters decode alike. *)
Lemma b64decode_so_significativos (s : string) :
  is_ascii s = true ->
  b64decode (JString s) = b64decode (JString (so_significativos s)).
Proof.
  intros Hs. cbn [b64decode]. unfold b64decode_str, a2b_base64.
  rewrite Hs, (is_ascii_so_significativos s Hs).
  apply a2b_loop_so_significativos.
Qed.

(** The decoder stops at the padding that completes a quad: what follows a
    padded encoding is never looked at. *)
Lemma b64decode_encode_then (bs : list byte) (t : string) :
  (List.length bs mod 3 <> 0)%nat -> is_ascii t = true ->
  b64decode (JString (b64encode bs +:+ t)) = Ret bs.
Proof.
  intros Hlen Ht. cbn [b64decode]. unfold b64decode_str, a2b_base64.
  rewrite Base64Facts.is_ascii_append, Base64Facts.is_ascii_b64encode, Ht.
  cbn [andb]. by rewrite loop_encode_then.
Qed.

End Base64Lenient.

(** ** The request parser: headers, bodies and parts *)

Lemma dict_get_set {V} (d : list (string * V)) (k k' : string) (v : V) :
  dict_get (dict_set d k v) k'
  = if String.eqb k k' then Some v else dict_get d k'.
Proof.
  induction d as [|[k0 v0] d IH]; cbn [dict_set dict_get]; [done |].
  destruct (String.eqb k0 k) eqn:Hk; cbn [dict_get].
  - apply String.eqb_eq in Hk as ->. by destruct (String.eqb k k').
  - rewrite IH. destruct (String.eqb k k') eqn:Hkk; [| done].
    apply String.eqb_eq in Hkk as <-. by rewrite Hk.
Qed.

Lemma dict_get_lower_headers (hs d : list (string * string)) (k : string) :
  (forall k' v', In (k', v') hs -> Str.lower k' <> k) ->
  dict_get (fold_left (fun d kv => dict_set d (Str.lower (fst kv)) (snd kv)) hs d) k
  = dict_get d k.
Proof.
  revert d; induction hs as [|[k0 v0] hs IH]; intros d H; cbn [fold_left]; [done |].
  rewrite IH.
  - cbn [fst snd]. rewrite dict_get_set.
    destruct (String.eqb (Str.lower k0) k) eqn:Hk; [| done].
    apply String.eqb_eq in Hk. exfalso. by apply (H k0 v0); [left |].
  - intros k' v' Hin. apply (H k' v'). by right.
Qed.

(** The name of the content-type header is matched whatever its
    capitalisation, and of several such headers the last one counts. *)
Theorem content_type_sem_caixa (hs1 hs2 : list (string * string))
        (k v : string) (corpo : option string) (b64 : bool) :
  Str.lower k = "content-type" ->
  (forall k' v', In (k', v') hs2 -> Str.lower k' <> "content-type") ->
  content_type_of (Event (Some (hs1 ++ (k, v) :: hs2)) corpo b64) = Some v.
Proof.
  intros Hk Hrest. unfold content_type_of, lower_headers.
  cbn [ev_headers from_option id]. rewrite fold_left_app. cbn [fold_left fst snd].
  rewrite dict_get_lower_headers by done.
  by rewrite dict_get_set, Hk.
Qed.

(** A part that carries a file or is named [email]: the other parts are
    passed over by the loop. *)
Definition relevante (p : part) : bool :=
  truthy_str (part_filename p) || bool_decide (part_name p = Some "email").

Definition sem_arquivo (p : part) : bool := negb (truthy_str (part_filename p)).

Section ParserEdges.

Context `{L : Libs}.

Lemma laco_parts_app (c : campos) (ps1 ps2 : list part) :
  laco_parts c (ps1 ++ ps2) = (c' ← laco_parts c ps1; laco_parts c' ps2).
Proof.
  revert c; induction ps1 as [|p ps1 IH]; intros c; cbn [app laco_parts]; [done |].
  destruct (passo_part c p) as [c1|e]; [| done].
  rewrite !bind_ret. apply IH.
Qed.

Lemma passo_irrelevante (c : campos) (p : part) :
  relevante p = false -> passo_part c p = Ret c.
Proof.
  unfold relevante, passo_part. intros H.
  apply orb_false_elim in H as [-> ->]. done.
Qed.

Lemma laco_parts_relevantes (ps : list part) : forall c,
  laco_parts c ps = laco_parts c (List.filter relevante ps).
Proof.
  induction ps as [|p ps IH]; intros c; [done |].
  cbn [List.filter]. destruct (relevante p) eqn:Hp; cbn [laco_parts].
  - destruct (passo_part c p) as [c1|e]; [| done]. rewrite !bind_ret. apply IH.
  - rewrite passo_irrelevante, bind_ret by done. apply IH.
Qed.

Lemma laco_sem_arquivo (ps : list part) : forall c c',
  forallb sem_arquivo ps = true ->
  laco_parts c ps = Ret c' ->
  c_nome_arquivo c' = c_nome_arquivo c /\ c_arquivo_bytes c' = c_arquivo_bytes c.
Proof.
  induction ps as [|p ps IH]; intros c c' Hall; cbn [laco_parts].
  - by intros [= <-].
  - cbn [forallb] in Hall. apply andb_prop in Hall as [Hp Hps].
    unfold sem_arquivo in Hp. apply negb_true_iff in Hp.
    unfold passo_part. rewrite Hp.
    destruct (bool_decide (part_name p = Some "email")).
    + destruct (part_payload p) as [bs|]; [| done].
      destruct (decode_utf8 bs) as [e|e]; [| done].
      rewrite !bind_ret. intros H. by destruct (IH _ _ Hps H) as [-> ->].
    + rewrite bind_ret. by apply IH.
Qed.

(** Parts that carry no file and are not named [email] do not count: two
    multipart requests that agree on the other parts are parsed alike. *)
Theorem multipart_partes_ignoradas (ev1 ev2 : event) (ct1 ct2 : string)
        (ps1 ps2 : list part) :
  content_type_of ev1 = Some ct1 -> is_multipart (Some ct1) = true ->
  content_type_of ev2 = Some ct2 -> is_multipart (Some ct2) = true ->
  partes_multipart ev1 ct1 = Ret ps1 ->
  partes_multipart ev2 ct2 = Ret ps2 ->
  List.filter relevante ps1 = List.filter relevante ps2 ->
  extrair_dados_requisicao ev1 = extrair_dados_requisicao ev2.
Proof.
  intros Hc1 Hm1 Hc2 Hm2 Hp1 Hp2 Hrel.
  rewrite (extrair_multipart ev1 ct1 Hc1 Hm1), (extrair_multipart ev2 ct2 Hc2 Hm2).
  rewrite Hp1, Hp2, !bind_ret.
  by rewrite (laco_parts_relevantes ps1), (laco_parts_relevantes ps2), Hrel.
Qed.

(** Of several parts that carry a file, the last one is the file of the
    request. *)
Theorem multipart_ultimo_arquivo (ev : event) (ct : string)
        (ps1 ps2 : list part) (pf : part) (email nome_arquivo : json)
        (arquivo_bytes : list byte) :
  content_type_of ev = Some ct -> is_multipart (Some ct) = true ->
  partes_multipart ev ct = Ret (ps1 ++ pf :: ps2) ->
  file_part pf -> forallb sem_arquivo ps2 = true ->
  extrair_dados_requisicao ev = Ret (email, nome_arquivo, arquivo_bytes) ->
  nome_arquivo = JString (default "" (part_filename pf))
  /\ part_payload pf = Some arquivo_bytes.
Proof.
  intros Hc Hm Hp Hf Hps2.
  rewrite (extrair_multipart ev ct Hc Hm), Hp, bind_ret, laco_parts_app.
  destruct (laco_parts campos_vazios ps1) as [c1|e]; [| done].
  rewrite bind_ret. cbn [laco_parts]. rewrite (passo_file _ pf Hf), bind_ret.
  destruct (laco_parts _ ps2) as [c2|e] eqn:H2; [| done].
  destruct (laco_sem_arquivo _ _ _ Hps2 H2) as [Hn Hb].
  cbn [c_nome_arquivo c_arquivo_bytes] in Hn, Hb.
  rewrite bind_ret. unfold verificar_campos.
  destruct (negb (truthy (c_email c2)) || negb (truthy (c_nome_arquivo c2))
            || negb (truthy_bytes (c_arquivo_bytes c2))) eqn:Hchk; [done |].
  intros [= <- <- <-]. split; [done |].
  rewrite <- Hb. apply orb_false_elim in Hchk as [_ Hchk].
  apply negb_false_iff in Hchk.
  by destruct (c_arquivo_bytes c2) as [[|b bs]|].
Qed.

(** An email part whose payload is not well-formed UTF-8 stops the parser
    with the [UnicodeDecodeError] of its decoding, a [ValueError]. *)
Theorem multipart_email_nao_utf8 (ev : event) (ct : string)
        (ps1 ps2 : list part) (pe : part) (c : campos) (bs : list byte) :
  content_type_of ev = Some ct -> is_multipart (Some ct) = true ->
  partes_multipart ev ct = Ret (ps1 ++ pe :: ps2) ->
  laco_parts campos_vazios ps1 = Ret c ->
  email_part pe -> part_payload pe = Some bs -> Utf8.valid bs = false ->
  extrair_dados_requisicao ev = Raise (Exn UnicodeDecodeError (utf8_error bs))
  /\ is_ValueError (Exn UnicodeDecodeError (utf8_error bs)) = true.
Proof.
  intros Hc Hm Hp H1 He Hpay Hbad. split; [| done].
  rewrite (extrair_multipart ev ct Hc Hm), Hp, bind_ret, laco_parts_app, H1.
  rewrite bind_ret. cbn [laco_parts]. rewrite (passo_email _ pe He), Hpay.
  unfold decode_utf8. by rewrite Hbad.
Qed.

(** The body of a multipart request is decoded before the parser's own
    [try]: when it is flagged as base64 and the decoder refuses it, the
    parser ends with the decoder's error, a [ValueError] with the decoder's
    message. *)
Theorem multipart_corpo_base64_invalido (ev : event) (ct : string) (e : exn) :
  content_type_of ev = Some ct -> is_multipart (Some ct) = true ->
  ev_isBase64Encoded ev = true ->
  Base64.b64decode_str (or_str (ev_body ev) "") = Raise e ->
  extrair_dados_requisicao ev = Raise e /\ is_ValueError e = true.
Proof.
  intros Hc Hm Hb He. split; [| by apply (b64decode_str_raise _ _ He)].
  rewrite (extrair_multipart ev ct Hc Hm). unfold partes_multipart.
  by rewrite Hb, He.
Qed.

Lemma so_significativos_vazio (s : string) :
  Str.nonempty s = false -> so_significativos s = "".
Proof. by destruct s. Qed.

(** Characters outside the base64 alphabet do not count in the [arquivo]
    field: a JSON request and the same request with such characters taken
    out of the field are parsed alike. *)
Theorem extrair_arquivo_com_ruido (ev1 ev2 : event)
        (d1 d2 : list (string * json)) (s : string) :
  is_multipart (content_type_of ev1) = false ->
  is_multipart (content_type_of ev2) = false ->
  json_loads (or_str (ev_body ev1) "{}") = Ret (JObject d1) ->
  json_loads (or_str (ev_body ev2) "{}") = Ret (JObject d2) ->
  dict_get d1 "email" = dict_get d2 "email" ->
  dict_get d1 "filename" = dict_get d2 "filename" ->
  dict_get d1 "arquivo" = Some (JString s) ->
  dict_get d2 "arquivo" = Some (JString (so_significativos s)) ->
  Base64.is_ascii s = true ->
  extrair_dados_requisicao ev1 = extrair_dados_requisicao ev2.
Proof.
  intros Hc1 Hc2 Hb1 Hb2 He Hf Ha1 Ha2 Hs.
  unfold extrair_dados_requisicao, extrair_campos. rewrite Hc1, Hc2.
  rewrite (campos_json_object ev1 d1 Hb1), (campos_json_object ev2 d2 Hb2).
  rewrite He, Hf, Ha1, Ha2. cbn [from_option id truthy].
  pose proof (b64decode_so_significativos s Hs) as Hd.
  destruct (Str.nonempty s) eqn:Hn.
  - rewrite Hd. destruct (Str.nonempty (so_significativos s)) eqn:Hn'; [done |].
    destruct (so_significativos s); [| done].
    cbn [Base64.b64decode Base64.b64decode_str Base64.is_ascii
         Base64.a2b_base64 Base64.a2b_loop reraise_as].
    rewrite !bind_ret. unfold verificar_campos. cbn. by rewrite !orb_true_r.
  - by rewrite (so_significativos_vazio s Hn).
Qed.

(** What follows the padding of an encoding does not count either: an
    [arquivo] field that continues after a padded encoding of [b] is parsed
    as [b]. *)
Theorem extrair_arquivo_com_sobra (ev : event) (d : list (string * json))
        (email nome_arquivo : json) (b : list byte) (t : string) :
  is_multipart (content_type_of ev) = false ->
  json_loads (or_str (ev_body ev) "{}") = Ret (JObject d) ->
  dict_get d "email" = Some email ->
  dict_get d "filename" = Some nome_arquivo ->
  dict_get d "arquivo" = Some (JString (Base64.b64encode b +:+ t)) ->
  truthy email = true -> truthy nome_arquivo = true ->
  (List.length b mod 3 <> 0)%nat -> Base64.is_ascii t = true ->
  extrair_dados_requisicao ev = Ret (email, nome_arquivo, b).
Proof.
  intros Hct Hbody He Hf Ha Hte Htf Hlen Ht.
  unfold extrair_dados_requisicao, extrair_campos. rewrite Hct.
  rewrite (campos_json_object ev d Hbody), He, Hf, Ha.
  cbn [from_option id truthy].
  assert (Hb : b <> []) by (by intros ->).
  assert (Str.nonempty (Base64.b64encode b +:+ t) = true) as ->.
  { pose proof (Base64Facts.b64encode_nonempty b Hb) as Hn.
    by destruct (Base64.b64encode b). }
  rewrite (b64decode_encode_then b t Hlen Ht). cbn [reraise_as].
  rewrite !bind_ret. unfold verificar_campos. cbn.
  rewrite Hte, Htf. destruct b; [done | reflexivity].
Qed.

(** In the JSON branch a request without a body, or with an empty one, is
    read as the empty object and refused for its missing fields. *)
Theorem extrair_sem_corpo (ev : event) :
  is_multipart (content_type_of ev) = false ->
  ev_body ev = None \/ ev_body ev = Some "" ->
  json_loads "{}" = Ret (JObject []) ->
  extrair_dados_requisicao ev = Raise (Exn ValueError msg_ausentes).
Proof.
  intros Hct Hbody Hloads.
  unfold extrair_dados_requisicao, extrair_campos. rewrite Hct.
  rewrite (campos_json_object ev []); [done |].
  by destruct Hbody as [-> | ->].
Qed.

(** An [arquivo] field that decodes to no byte at all is refused as a
    missing field, not as invalid base64. *)
Theorem extrair_arquivo_sem_bytes (ev : event) (d : list (string * json))
        (v : json) :
  is_multipart (content_type_of ev) = false ->
  json_loads (or_str (ev_body ev) "{}") = Ret (JObject d) ->
  dict_get d "arquivo" = Some v ->
  Base64.b64decode v = Ret [] ->
  extrair_dados_requisicao ev = Raise (Exn ValueError msg_ausentes).
Proof.
  intros Hct Hbody Ha Hv.
  unfold extrair_dados_requisicao, extrair_campos. rewrite Hct.
  rewrite (campos_json_object ev d Hbody), Ha. cbn [from_option id].
  destruct (truthy v); rewrite ?Hv; cbn [reraise_as]; rewrite !bind_ret;
    unfold verificar_campos; cbn; by rewrite !orb_true_r.
Qed.

End ParserEdges.

(** ** The handler *)

Section HandlerFacts.

Context `{L : Libs}.
Variable E : env.

Lemma statusCode_responder (code : Z) (d : json) :
  statusCode (responder code d) = code.
Proof. reflexivity. Qed.

(** C8. When the bucket or the table is not configured the handler answers
    500 at once: whatever the request, nothing is parsed, no collaborator is
    called and the world is left as it was. *)
Theorem handler_sem_configuracao (cfg : config) (ev : event) (w : world) :
  truthy_str (S3_BUCKET cfg) = false \/ truthy_str (TABLE_NAME cfg) = false ->
  lambda_handler E cfg ev w
  = (Ret (responder 500
            (falha (if truthy_str (S3_BUCKET cfg)
                    then "Variável de ambiente TABLE não configurada"
                    else "Variável de ambiente BUCKET não configurada"))),
     w).
Proof.
  intros H. unfold lambda_handler.
  destruct (truthy_str (S3_BUCKET cfg)); cbn [negb].
  - destruct H as [H | ->]; [done | reflexivity].
  - reflexivity.
Qed.

(** What the run of a validated request computes from the answers of the
    collaborators. *)
Definition frames_dir_of : string := Posixpath.join (env_tmp_dir E) "frames".

Definition frames_of : list string :=
  sorted (List.map (Posixpath.join frames_dir_of)
                   (List.filter glob_png (env_listing E))).

Definition zip_nome_of : string := "frames_" +:+ env_timestamp E +:+ ".zip".

Definition s3_key_of : string := "outputs/" +:+ zip_nome_of.

Definition configurado (cfg : config) : Prop :=
  truthy_str (S3_BUCKET cfg) = true /\ truthy_str (TABLE_NAME cfg) = true.

(** The request passes the parser and the extension check. *)
Definition validado (ev : event) (email nome_arquivo : json)
           (arquivo_bytes : list byte) : Prop :=
  extrair_dados_requisicao ev = Ret (email, nome_arquivo, arquivo_bytes)
  /\ validar_extensao nome_arquivo = Ret true.

Lemma handler_validado (cfg : config) (ev : event) email nome_arquivo
      arquivo_bytes :
  configurado cfg -> validado ev email nome_arquivo arquivo_bytes ->
  lambda_handler E cfg ev = atender E cfg email nome_arquivo arquivo_bytes.
Proof.
  intros [Hb Ht] [Hp Hv]. unfold lambda_handler.
  by rewrite Hb, Ht, Hp, Hv.
Qed.

Ltac run_unfold :=
  unfold atender, processar, mkdtemp, criar_registro_inicial,
    salvar_video_local, extrair_frames, criar_arquivo_zip, upload_para_s3,
    atualizar_registro_concluido, limpar_diretorio_temporario, try_except,
    try_finally, emit, answer, lift, set_dirs, set_table, set_bucket,
    mbind, M_bind, mret, M_ret.

Ltac run_simpl :=
  cbn -[Posixpath.join Posixpath.basename sorted tbl_set tbl_get
        String.append dict_set responder falha sucesso
        union difference singleton Z.eqb].

(** Follows a run of [atender] along the answers of the collaborators of
    [E0]: one goal for each way the run can end. *)
Ltac run_paths E0 :=
  run_unfold; run_simpl;
  destruct (env_put_item E0) eqn:?; run_simpl;
  [ | destruct (env_write E0) eqn:?; run_simpl;
      [ | destruct (env_makedirs E0) eqn:?; run_simpl;
          [ | destruct (env_run E0) as [[? ?]|?] eqn:?; run_simpl;
              [ match goal with
                | |- context [(?rc =? 0)%Z] => destruct (rc =? 0)%Z eqn:?
                end; run_simpl;
                [ fold frames_dir_of; fold frames_of;
                  destruct frames_of eqn:?; run_simpl;
                  [ | destruct (env_zip E0) eqn:?; run_simpl;
                      [ | destruct (env_upload E0) eqn:?; run_simpl;
                          [ | destruct (env_update_item E0) eqn:?; run_simpl ] ] ]
                | ]
              | ] ] ] ];
  try (destruct (env_rmtree E0) eqn:?; run_simpl).

Lemma tbl_get_set (t : list (key * item)) (k : key) (v : item) :
  tbl_get (tbl_set t k v) k = Some v.
Proof.
  induction t as [|[k' v'] t IH]; cbn.
  - by rewrite bool_decide_eq_true_2.
  - destruct (bool_decide (k' = k)) eqn:Hk; cbn.
    + by rewrite bool_decide_eq_true_2.
    + by rewrite Hk.
Qed.

Lemma tbl_get_set_ne (t : list (key * item)) (k k' : key) (v : item) :
  k <> k' -> tbl_get (tbl_set t k v) k' = tbl_get t k'.
Proof.
  intros Hne. induction t as [|[k0 v0] t IH]; cbn.
  - by rewrite bool_decide_eq_false_2.
  - destruct (bool_decide (k0 = k)) eqn:Hk; cbn.
    + apply bool_decide_eq_true in Hk as ->.
      by rewrite !bool_decide_eq_false_2.
    + by rewrite IH.
Qed.

(** C1. When the record store refuses the initial write, the handler
    answers 500 and returns before the block that owns the cleanup: the
    scratch directory it has just created is still there, and no removal was
    attempted. *)
Theorem diretorio_permanece (cfg : config) (ev : event) (email nome_arquivo : json)
        (arquivo_bytes : list byte) (w : world) (e : exn) :
  configurado cfg -> validado ev email nome_arquivo arquivo_bytes ->
  env_put_item E = Some e ->
  exists w',
    lambda_handler E cfg ev w
    = (Ret (responder 500
              (falha ("Erro ao gravar registro inicial no banco: "
                      +:+ str_of_exn e))), w')
    /\ env_tmp_dir E ∈ w_dirs w'
    /\ w_trace w'
       = w_trace w ++
         [AMkdtemp (env_tmp_dir E);
          APutItem email (env_upload_id E) status_processando
                   (env_created_at E) false;
          ALog "Erro ao gravar DynamoDB inicial"].
Proof.
  intros Hc Hv Hput. rewrite (handler_validado cfg ev _ _ _ Hc Hv).
  run_unfold. run_simpl. rewrite Hput. run_simpl.
  eexists. split; [reflexivity |]. cbn. split.
  - set_solver.
  - by rewrite <- !app_assoc.
Qed.

Lemma dir_gone (D : gset string) (d : string) : d ∉ (D ∪ {[d]}) ∖ {[d]}.
Proof. set_solver. Qed.

Lemma dir_frame (D : gset string) (d : string) :
  (D ∪ {[d]}) ∖ {[d]} = D ∖ {[d]}.
Proof. set_solver. Qed.

Lemma dir_frame_gone (D : gset string) (d : string) :
  (D ∪ {[d]}) ∖ {[d]} ∖ {[d]} = D ∖ {[d]}.
Proof. set_solver. Qed.

(** Once the initial write is accepted, every way out of the handler goes
    through the cleanup: the removal of the scratch directory is the last
    call made, and when it succeeds the directory is gone. *)
Lemma diretorio_removido (cfg : config) (ev : event) (email nome_arquivo : json)
      (arquivo_bytes : list byte) (w : world) :
  configurado cfg -> validado ev email nome_arquivo arquivo_bytes ->
  env_put_item E = None ->
  exists resp w',
    lambda_handler E cfg ev w = (Ret resp, w')
    /\ List.last (w_trace w') (ALog "")
       = ARmtree (env_tmp_dir E) (succeeded (env_rmtree E))
    /\ (env_rmtree E = None -> env_tmp_dir E ∉ w_dirs w')
    /\ w_dirs w' ∖ {[env_tmp_dir E]} = w_dirs w ∖ {[env_tmp_dir E]}.
Proof.
  intros Hc Hv Hput. rewrite (handler_validado cfg ev _ _ _ Hc Hv).
  run_paths E; try discriminate;
    (eexists _, _; split; [reflexivity |]; cbn [w_trace w_dirs];
     split; [apply last_last |];
     split; [intros ?; try discriminate; apply dir_gone
            | first [apply dir_frame | apply dir_frame_gone]]).
Qed.

(** The requests made to the record store, among the calls of a run. *)
Definition is_store_request (a : action) : bool :=
  match a with
  | APutItem _ _ _ _ _ | AUpdateItem _ _ _ _ _ _ => true
  | _ => false
  end.

Definition store_requests (t : list action) : list action :=
  List.filter is_store_request t.

Definition registro_processando : item :=
  Item status_processando (Some (env_created_at E)) None None.

Definition registro_concluido : item :=
  Item status_concluido (Some (env_created_at E)) (Some s3_key_of)
       (Some (List.length frames_of)).

(** C2. A validated invocation asks the record store exactly once to create
    the record, with status processando.  The only other request it can make
    is one update to status Concluido, carrying the archive key and the frame
    count, made after the initial write was accepted and the archive was
    uploaded.  When the initial write was accepted, the record ends as
    Concluido with both fields set if the response is 200, and as it was
    created, still processando, on every other response. *)
Theorem registro_ciclo (cfg : config) (ev : event) (email nome_arquivo : json)
        (arquivo_bytes : list byte) (w : world) :
  configurado cfg -> validado ev email nome_arquivo arquivo_bytes ->
  exists resp w' t,
    lambda_handler E cfg ev w = (Ret resp, w')
    /\ w_trace w' = w_trace w ++ t
    /\ (let put := APutItem email (env_upload_id E) status_processando
                            (env_created_at E) (succeeded (env_put_item E)) in
        let upd := AUpdateItem email (env_upload_id E) s3_key_of
                               status_concluido (List.length frames_of)
                               (succeeded (env_update_item E)) in
        store_requests t = [put]
        \/ (store_requests t = [put; upd]
            /\ env_put_item E = None
            /\ In (AUpload (Posixpath.join (env_tmp_dir E) zip_nome_of)
                           (default "" (S3_BUCKET cfg)) s3_key_of true) t))
    /\ (env_put_item E = None ->
        tbl_get (w_table w') (email, env_upload_id E)
        = Some (if (statusCode resp =? 200)%Z
                then registro_concluido else registro_processando)).
Proof.
  intros Hc Hv. rewrite (handler_validado cfg ev _ _ _ Hc Hv).
  unfold registro_concluido, registro_processando.
  run_paths E;
    (eexists _, _, _; split; [reflexivity |]; cbn [w_trace w_table];
     split; [rewrite <- !app_assoc; cbn [app]; reflexivity |];
     split;
     [ first [ left; reflexivity
             | right; split; [reflexivity |];
               split; [reflexivity |];
               cbn [In]; repeat (first [left; reflexivity | right]) ]
     | intros Hp; try discriminate Hp;
       rewrite statusCode_responder, ?tbl_get_set; reflexivity ]).
Qed.

(** The field [k] of a response body, before [json.dumps]. *)
Definition campo (d : json) (k : string) : option json :=
  match d with
  | JObject l => dict_get l k
  | _ => None
  end.

(** C10. A response with status 200 comes from a validated request, and its
    body is the serialisation of a dict in which [images] lists the base
    names of the extracted frames in their sorted order, [frame_count] is the
    length of that list, [record_id] is the user identifier, an underscore
    and the upload id, and [s3_key] starts with [outputs/]. *)
Theorem resposta_sucesso (cfg : config) (ev : event) (w w' : world)
        (resp : response) :
  lambda_handler E cfg ev w = (Ret resp, w') ->
  statusCode resp = 200%Z ->
  exists email nome_arquivo arquivo_bytes body_dict,
    validado ev email nome_arquivo arquivo_bytes
    /\ body resp = json_dumps body_dict
    /\ campo body_dict "success" = Some (JBool true)
    /\ campo body_dict "images"
       = Some (JArray (List.map JString (List.map Posixpath.basename frames_of)))
    /\ campo body_dict "frame_count"
       = Some (JInt (Z.of_nat
                       (List.length (List.map Posixpath.basename frames_of))))
    /\ campo body_dict "record_id"
       = Some (JString (fstr email +:+ "_" +:+ env_upload_id E))
    /\ exists s3_key,
         campo body_dict "s3_key" = Some (JString s3_key)
         /\ Str.startswith "outputs/" s3_key = true.
Proof.
  unfold lambda_handler.
  destruct (truthy_str (S3_BUCKET cfg)); cbn [negb];
    [| intros [= <- _]; rewrite statusCode_responder; discriminate].
  destruct (truthy_str (TABLE_NAME cfg)); cbn [negb];
    [| intros [= <- _]; rewrite statusCode_responder; discriminate].
  destruct (extrair_dados_requisicao ev) as [[[email nome_arquivo] arquivo_bytes]|e]
    eqn:Hp.
  2:{ destruct (is_ValueError e).
      - intros [= <- _]; rewrite statusCode_responder; discriminate.
      - discriminate. }
  destruct (validar_extensao nome_arquivo) as [[|]|e] eqn:Hv;
    [ | intros [= <- _]; rewrite statusCode_responder; discriminate
      | discriminate ].
  change (mbind ?k (lift (Ret true)) w) with (k true w). cbn beta iota. cbn [negb].
  run_paths E;
    intros [= <- <-] Hs;
    try (rewrite statusCode_responder in Hs; discriminate Hs).
  all: exists email, nome_arquivo, arquivo_bytes; eexists; split; [by split |];
    split; [reflexivity |]; unfold sucesso, campo;
    rewrite !length_map; repeat split; eexists; split; reflexivity.
Qed.

(** The same answers, with another answer to the removal of the scratch
    directory. *)
Definition com_rmtree (r : option exn) : env :=
  Env (env_timestamp E) (env_tmp_dir E) (env_upload_id E) (env_created_at E)
      (env_put_item E) (env_write E) (env_makedirs E) (env_which E)
      (env_executable E) (env_run E) (env_listing E) (env_zip E)
      (env_upload E) (env_update_item E) r.

(** Whether the removal succeeds or fails, the response is the same. *)
Lemma limpeza_nao_muda_resposta (cfg : config) (ev : event) (w : world)
      (r1 r2 : option exn) :
  fst (lambda_handler (com_rmtree r1) cfg ev w)
  = fst (lambda_handler (com_rmtree r2) cfg ev w).
Proof.
  unfold lambda_handler.
  destruct (truthy_str (S3_BUCKET cfg)); cbn [negb]; [| reflexivity].
  destruct (truthy_str (TABLE_NAME cfg)); cbn [negb]; [| reflexivity].
  destruct (extrair_dados_requisicao ev) as [[[email nome_arquivo] arquivo_bytes]|e];
    [| by destruct (is_ValueError e)].
  destruct (validar_extensao nome_arquivo) as [[|]|e]; [| reflexivity | reflexivity].
  change (mbind ?k (lift (Ret true)) w) with (k true w). cbn beta iota. cbn [negb].
  unfold com_rmtree, frames_of, frames_dir_of.
  run_unfold. run_simpl.
  destruct (env_put_item E); run_simpl; [reflexivity |].
  destruct (env_write E); run_simpl; [by destruct r1, r2 |].
  destruct (env_makedirs E); run_simpl; [by destruct r1, r2 |].
  destruct (env_run E) as [[rc err]|e]; run_simpl; [| by destruct r1, r2].
  destruct (rc =? 0)%Z; run_simpl; [| by destruct r1, r2].
  destruct (sorted _); run_simpl; [by destruct r1, r2 |].
  destruct (env_zip E); run_simpl; [by destruct r1, r2 |].
  destruct (env_upload E); run_simpl; [by destruct r1, r2 |].
  destruct (env_update_item E); run_simpl; by destruct r1, r2.
Qed.


(** *** The ways out of the handler *)

Definition video_path_of (nome_arquivo : json) : string :=
  Posixpath.join (env_tmp_dir E)
                 (env_timestamp E +:+ "_" +:+ fstr nome_arquivo).

Definition zip_path_of : string := Posixpath.join (env_tmp_dir E) zip_nome_of.

(** The command line of the decoder. *)
Definition comando_of (nome_arquivo : json) : list string :=
  [obter_caminho_ffmpeg E; "-i"; video_path_of nome_arquivo; "-vf"; "fps=1";
   "-y"; Posixpath.join frames_dir_of "frame_%04d.png"].

(** Every collaborator answers, the decoder exits with 0 and leaves at
    least one frame. *)
Definition tudo_certo : Prop :=
  env_put_item E = None /\ env_write E = None /\ env_makedirs E = None
  /\ (exists err, env_run E = Ret (0%Z, err))
  /\ frames_of <> []
  /\ env_zip E = None /\ env_upload E = None /\ env_update_item E = None.

Lemma handler_recusa (cfg : config) (ev : event) (e : exn) (w : world) :
  configurado cfg -> extrair_dados_requisicao ev = Raise e ->
  lambda_handler E cfg ev w
  = if is_ValueError e then (Ret (responder 400 (falha (str_of_exn e))), w)
    else (Raise e, w).
Proof.
  intros [Hb Ht] He. unfold lambda_handler. rewrite Hb, Ht, He.
  cbn [negb]. by destruct (is_ValueError e).
Qed.

Lemma frames_of_nil : List.filter glob_png (env_listing E) = [] -> frames_of = [].
Proof. intros H. unfold frames_of. by rewrite H. Qed.

(** Follows a run of [atender] along the answers that the context gives. *)
Ltac run_known :=
  run_unfold; run_simpl;
  repeat (match goal with
          | H : env_put_item E = _ |- _ => rewrite H
          | H : env_write E = _ |- _ => rewrite H
          | H : env_makedirs E = _ |- _ => rewrite H
          | H : env_run E = _ |- _ => rewrite H
          | H : env_zip E = _ |- _ => rewrite H
          | H : env_upload E = _ |- _ => rewrite H
          | H : env_update_item E = _ |- _ => rewrite H
          | H : (_ =? 0)%Z = _ |- _ => rewrite H
          end; run_simpl).

(** The answer 400 has two causes and no other: a [ValueError] of the
    parser, answered with its text, and a filename whose extension is not
    accepted.  In both cases nothing is created, written or called. *)
Theorem handler_400 (cfg : config) (ev : event) (w : world) :
  configurado cfg ->
  (forall e, extrair_dados_requisicao ev = Raise e -> is_ValueError e = true ->
     lambda_handler E cfg ev w
     = (Ret (responder 400 (falha (str_of_exn e))), w))
  /\ (forall email nome_arquivo arquivo_bytes,
        extrair_dados_requisicao ev = Ret (email, nome_arquivo, arquivo_bytes) ->
        validar_extensao nome_arquivo = Ret false ->
        lambda_handler E cfg ev w
        = (Ret (responder 400 (falha "Formato não suportado")), w))
  /\ (forall resp w',
        lambda_handler E cfg ev w = (Ret resp, w') -> statusCode resp = 400%Z ->
        w' = w
        /\ ((exists e, extrair_dados_requisicao ev = Raise e
                       /\ is_ValueError e = true)
            \/ (exists email nome_arquivo arquivo_bytes,
                  extrair_dados_requisicao ev
                  = Ret (email, nome_arquivo, arquivo_bytes)
                  /\ validar_extensao nome_arquivo = Ret false))).
Proof.
  intros Hc. split; [| split].
  - intros e He Hv. by rewrite (handler_recusa cfg ev e w Hc He), Hv.
  - intros email nome_arquivo arquivo_bytes He Hv. destruct Hc as [Hb Ht].
    unfold lambda_handler. by rewrite Hb, Ht, He, Hv.
  - intros resp w'. unfold lambda_handler.
    destruct (truthy_str (S3_BUCKET cfg)); cbn [negb];
      [| intros [= <- _]; rewrite statusCode_responder; discriminate].
    destruct (truthy_str (TABLE_NAME cfg)); cbn [negb];
      [| intros [= <- _]; rewrite statusCode_responder; discriminate].
    destruct (extrair_dados_requisicao ev)
      as [[[email nome_arquivo] arquivo_bytes]|e] eqn:Hp.
    2:{ destruct (is_ValueError e) eqn:Hv; [| discriminate].
        intros [= <- <-] _. split; [done |]. left. by exists e. }
    destruct (validar_extensao nome_arquivo) as [[|]|e] eqn:Hv; [ | | discriminate ].
    + change (mbind ?k (lift (Ret true)) w) with (k true w). cbn beta iota.
      cbn [negb].
      run_paths E; intros [= <- <-] Hs;
        rewrite statusCode_responder in Hs; discriminate Hs.
    + intros [= <- <-] _. split; [done |]. right.
      by exists email, nome_arquivo, arquivo_bytes.
Qed.

(** The answer 500 has five causes and no other: a missing bucket or table
    name, an initial record that the store refuses, a decoder run that
    leaves no frame, and an exception of the processing block, logged and
    answered as an internal error with its text. *)
Theorem handler_500_causas (cfg : config) (ev : event) (w w' : world)
        (resp : response) :
  lambda_handler E cfg ev w = (Ret resp, w') -> statusCode resp = 500%Z ->
  exists msg,
    resp = responder 500 (falha msg)
    /\ (msg = "Variável de ambiente BUCKET não configurada"
        \/ msg = "Variável de ambiente TABLE não configurada"
        \/ (exists e, env_put_item E = Some e
                      /\ msg = "Erro ao gravar registro inicial no banco: "
                               +:+ str_of_exn e)
        \/ (msg = "Nenhum frame extraído do vídeo" /\ frames_of = [])
        \/ (exists detalhe,
              msg = "Erro interno: " +:+ detalhe
              /\ env_put_item E = None
              /\ In (ALog "Erro no processamento") (w_trace w'))).
Proof.
  unfold lambda_handler.
  destruct (truthy_str (S3_BUCKET cfg)); cbn [negb];
    [| intros [= <- _] _; eexists; split; [reflexivity | by left] ].
  destruct (truthy_str (TABLE_NAME cfg)); cbn [negb];
    [| intros [= <- _] _; eexists; split; [reflexivity | right; by left] ].
  destruct (extrair_dados_requisicao ev) as [[[email nome_arquivo] arquivo_bytes]|e].
  2:{ destruct (is_ValueError e); [| discriminate].
      intros [= <- _]. rewrite statusCode_responder. discriminate. }
  destruct (validar_extensao nome_arquivo) as [[|]|e];
    [ | intros [= <- _]; rewrite statusCode_responder; discriminate
      | discriminate ].
  change (mbind ?k (lift (Ret true)) w) with (k true w). cbn beta iota. cbn [negb].
  run_paths E; intros [= <- <-] Hs;
    try (rewrite statusCode_responder in Hs; discriminate Hs);
    (eexists; split; [reflexivity |]; cbn [w_trace];
     first [ right; right; left; eexists; split; reflexivity
           | right; right; right; left; split; reflexivity
           | right; right; right; right; eexists; split; [reflexivity |];
             split; [reflexivity |];
             repeat first [ apply in_or_app; right; left; reflexivity
                          | apply in_or_app; left ] ]).
Qed.

(** An exception of the parser that is no [ValueError] is not caught: the
    handler gives no response and raises it. *)
Theorem handler_excecao_escapa (cfg : config) (ev : event) (e : exn) (w : world) :
  configurado cfg -> extrair_dados_requisicao ev = Raise e ->
  is_ValueError e = false ->
  lambda_handler E cfg ev w = (Raise e, w).
Proof. intros Hc He Hv. by rewrite (handler_recusa cfg ev e w Hc He), Hv. Qed.

(** A body that [json.loads] refuses, whatever it raises, is answered 400
    with the message of a malformed body. *)
Theorem handler_json_malformado (cfg : config) (ev : event) (e : exn) (w : world) :
  configurado cfg -> is_multipart (content_type_of ev) = false ->
  json_loads (or_str (ev_body ev) "{}") = Raise e ->
  lambda_handler E cfg ev w = (Ret (responder 400 (falha msg_json)), w).
Proof.
  intros Hc Hct He.
  rewrite (handler_recusa cfg ev (Exn ValueError msg_json) w Hc); [done |].
  unfold extrair_dados_requisicao, extrair_campos, campos_json.
  by rewrite Hct, He.
Qed.

(** A filename that is not a string passes the parser when it is truthy,
    and [Path] then raises a [TypeError] that nothing catches. *)
Theorem handler_nome_nao_texto (cfg : config) (ev : event)
        (email nome_arquivo : json) (arquivo_bytes : list byte) (w : world) :
  configurado cfg ->
  extrair_dados_requisicao ev = Ret (email, nome_arquivo, arquivo_bytes) ->
  (forall s, nome_arquivo <> JString s) ->
  lambda_handler E cfg ev w
  = (Raise (Exn TypeError ("expected str, bytes or os.PathLike object, not "
                           +:+ type_name nome_arquivo)), w).
Proof.
  intros [Hb Ht] He Hn. unfold lambda_handler. rewrite Hb, Ht, He.
  cbn [negb]. destruct nome_arquivo; try reflexivity. by destruct (Hn s).
Qed.

(** Every response carries the JSON content type, one of the statuses 200,
    400 and 500, and a body with a message and a [success] flag that is true
    exactly on 200. *)
Theorem handler_resposta_bem_formada (cfg : config) (ev : event) (w w' : world)
        (resp : response) :
  lambda_handler E cfg ev w = (Ret resp, w') ->
  (statusCode resp = 200 \/ statusCode resp = 400 \/ statusCode resp = 500)%Z
  /\ headers resp = [("Content-Type", "application/json")]
  /\ exists d msg,
       body resp = json_dumps d
       /\ campo d "success" = Some (JBool (statusCode resp =? 200)%Z)
       /\ campo d "message" = Some (JString msg).
Proof.
  assert (Hfim : forall code d,
            (code = 200 \/ code = 400 \/ code = 500)%Z ->
            (exists msg, campo d "success" = Some (JBool (code =? 200)%Z)
                         /\ campo d "message" = Some (JString msg)) ->
            (statusCode (responder code d) = 200
             \/ statusCode (responder code d) = 400
             \/ statusCode (responder code d) = 500)%Z
            /\ headers (responder code d) = [("Content-Type", "application/json")]
            /\ exists d' msg,
                 body (responder code d) = json_dumps d'
                 /\ campo d' "success"
                    = Some (JBool (statusCode (responder code d) =? 200)%Z)
                 /\ campo d' "message" = Some (JString msg)).
  { intros code d Hcode (msg & Hs & Hm). rewrite statusCode_responder.
    split; [done |]. split; [reflexivity |]. by exists d, msg. }
  unfold lambda_handler.
  destruct (truthy_str (S3_BUCKET cfg)); cbn [negb];
    [| intros [= <- _]; apply Hfim; [auto | by eexists] ].
  destruct (truthy_str (TABLE_NAME cfg)); cbn [negb];
    [| intros [= <- _]; apply Hfim; [auto | by eexists] ].
  destruct (extrair_dados_requisicao ev) as [[[email nome_arquivo] arquivo_bytes]|e].
  2:{ destruct (is_ValueError e); [| discriminate].
      intros [= <- _]; apply Hfim; [auto | by eexists]. }
  destruct (validar_extensao nome_arquivo) as [[|]|e];
    [ | intros [= <- _]; apply Hfim; [auto | by eexists] | discriminate ].
  change (mbind ?k (lift (Ret true)) w) with (k true w). cbn beta iota. cbn [negb].
  run_paths E; intros [= <- <-]; (apply Hfim; [auto | by eexists]).
Qed.

(** A response to a validated request is 200 exactly when every
    collaborator answers, the decoder exits with 0 and at least one frame is
    found. *)
Theorem handler_200_sse (cfg : config) (ev : event) (email nome_arquivo : json)
        (arquivo_bytes : list byte) (w w' : world) (resp : response) :
  configurado cfg -> validado ev email nome_arquivo arquivo_bytes ->
  lambda_handler E cfg ev w = (Ret resp, w') ->
  statusCode resp = 200%Z <-> tudo_certo.
Proof.
  intros Hc Hv. rewrite (handler_validado cfg ev _ _ _ Hc Hv).
  run_paths E;
    (intros [= <- <-]; rewrite statusCode_responder;
     unfold tudo_certo; split;
     [ intros H200;
       first [ discriminate H200
             | repeat split; try assumption;
               [ match goal with
                 | Hr : env_run E = Ret (?z, ?s), Hz : (?z =? 0)%Z = true |- _ =>
                     apply Z.eqb_eq in Hz; subst z; by exists s
                 end
               | match goal with
                 | Hf : frames_of = _ :: _ |- _ => rewrite Hf; discriminate
                 end ] ]
     | intros (H1 & H2 & H3 & (err & H4) & H5 & H6 & H7 & H8);
       first [ reflexivity
             | congruence
             | match goal with
               | Hr : env_run E = Ret (?z, _), Hz : (?z =? 0)%Z = false |- _ =>
                   rewrite H4 in Hr; injection Hr as <- <-; discriminate Hz
               end ] ]).
Qed.

(** When everything succeeds the collaborators are called in this order,
    each once: scratch directory, initial record, video file, frames
    directory, decoder, listing, archive, upload, update of the record,
    removal of the scratch directory; and the bucket holds the archive. *)
Theorem handler_sucesso_chamadas (cfg : config) (ev : event)
        (email nome_arquivo : json) (arquivo_bytes : list byte) (w : world) :
  configurado cfg -> validado ev email nome_arquivo arquivo_bytes ->
  tudo_certo ->
  exists w',
    lambda_handler E cfg ev w
    = (Ret (responder 200
              (sucesso (fstr email +:+ "_" +:+ env_upload_id E) s3_key_of
                       frames_of)), w')
    /\ w_trace w'
       = w_trace w ++
         [AMkdtemp (env_tmp_dir E);
          APutItem email (env_upload_id E) status_processando
                   (env_created_at E) true;
          AWrite (video_path_of nome_arquivo) arquivo_bytes true;
          AMakedirs frames_dir_of true;
          ARun (comando_of nome_arquivo) true;
          AGlob (Posixpath.join frames_dir_of "*.png");
          AZip zip_path_of
               (List.map (fun fpath => (fpath, Posixpath.basename fpath)) frames_of)
               true;
          AUpload zip_path_of (default "" (S3_BUCKET cfg)) s3_key_of true;
          AUpdateItem email (env_upload_id E) s3_key_of status_concluido
                      (List.length frames_of) true;
          ARmtree (env_tmp_dir E) (succeeded (env_rmtree E))]
    /\ dict_get (w_bucket w') s3_key_of = Some zip_path_of.
Proof.
  intros Hc Hv (Hput & Hwr & Hmk & (err & Hrun) & Hfr & Hzip & Hup & Hupd).
  rewrite (handler_validado cfg ev _ _ _ Hc Hv).
  unfold comando_of, video_path_of, zip_path_of.
  run_known. fold frames_dir_of. fold frames_of.
  destruct frames_of as [|f fs] eqn:Hf; [done |]. run_known.
  destruct (env_rmtree E); run_simpl;
    (eexists; split; [reflexivity |]; cbn [w_trace w_bucket]; split;
     [ rewrite <- !app_assoc; reflexivity
     | by rewrite dict_get_set, String.eqb_refl ]).
Qed.

(** When the decoder leaves no visible [.png], the answer is 500: nothing
    is archived or uploaded, the record stays as it was created and the
    scratch directory is removed. *)
Theorem handler_sem_frames (cfg : config) (ev : event)
        (email nome_arquivo : json) (arquivo_bytes : list byte) (w : world)
        (err : string) :
  configurado cfg -> validado ev email nome_arquivo arquivo_bytes ->
  env_put_item E = None -> env_write E = None -> env_makedirs E = None ->
  env_run E = Ret (0%Z, err) ->
  List.filter glob_png (env_listing E) = [] ->
  exists w',
    lambda_handler E cfg ev w
    = (Ret (responder 500 (falha "Nenhum frame extraído do vídeo")), w')
    /\ w_trace w'
       = w_trace w ++
         [AMkdtemp (env_tmp_dir E);
          APutItem email (env_upload_id E) status_processando
                   (env_created_at E) true;
          AWrite (video_path_of nome_arquivo) arquivo_bytes true;
          AMakedirs frames_dir_of true;
          ARun (comando_of nome_arquivo) true;
          AGlob (Posixpath.join frames_dir_of "*.png");
          ARmtree (env_tmp_dir E) (succeeded (env_rmtree E))]
    /\ w_bucket w' = w_bucket w
    /\ tbl_get (w_table w') (email, env_upload_id E) = Some registro_processando.
Proof.
  intros Hc Hv Hput Hwr Hmk Hrun Hnone.
  rewrite (handler_validado cfg ev _ _ _ Hc Hv).
  unfold comando_of, video_path_of, registro_processando.
  run_known. fold frames_dir_of. fold frames_of.
  rewrite (frames_of_nil Hnone). run_simpl.
  destruct (env_rmtree E); run_simpl;
    (eexists; split; [reflexivity |]; cbn [w_trace w_bucket w_table]; split;
     [ rewrite <- !app_assoc; reflexivity
     | split; [reflexivity | by rewrite tbl_get_set] ]).
Qed.

(** When the decoder exits with another code than 0, the answer is 500 with
    what the decoder wrote to its error stream: the directory is not listed,
    nothing is archived or uploaded, and the scratch directory is removed. *)
Theorem handler_ffmpeg_falha (cfg : config) (ev : event)
        (email nome_arquivo : json) (arquivo_bytes : list byte) (w : world)
        (rc : Z) (err : string) :
  configurado cfg -> validado ev email nome_arquivo arquivo_bytes ->
  env_put_item E = None -> env_write E = None -> env_makedirs E = None ->
  env_run E = Ret (rc, err) -> rc <> 0%Z ->
  exists w',
    lambda_handler E cfg ev w
    = (Ret (responder 500
              (falha ("Erro interno: " +:+ "Erro no ffmpeg: " +:+ err))), w')
    /\ w_trace w'
       = w_trace w ++
         [AMkdtemp (env_tmp_dir E);
          APutItem email (env_upload_id E) status_processando
                   (env_created_at E) true;
          AWrite (video_path_of nome_arquivo) arquivo_bytes true;
          AMakedirs frames_dir_of true;
          ARun (comando_of nome_arquivo) true;
          ALog "Erro no processamento";
          ARmtree (env_tmp_dir E) (succeeded (env_rmtree E))]
    /\ w_bucket w' = w_bucket w.
Proof.
  intros Hc Hv Hput Hwr Hmk Hrun Hrc. apply Z.eqb_neq in Hrc.
  rewrite (handler_validado cfg ev _ _ _ Hc Hv).
  unfold comando_of, video_path_of.
  run_known.
  destruct (env_rmtree E); run_simpl;
    (eexists; split; [reflexivity |]; cbn [w_trace w_bucket]; split;
     [ rewrite <- !app_assoc; reflexivity | reflexivity ]).
Qed.

(** When the record store refuses the final update, the answer is 500
    although the archive is already in the bucket, and the record stays
    processando. *)
Theorem handler_falha_atualizacao (cfg : config) (ev : event)
        (email nome_arquivo : json) (arquivo_bytes : list byte) (w : world)
        (err : string) (e : exn) :
  configurado cfg -> validado ev email nome_arquivo arquivo_bytes ->
  env_put_item E = None -> env_write E = None -> env_makedirs E = None ->
  env_run E = Ret (0%Z, err) -> frames_of <> [] ->
  env_zip E = None -> env_upload E = None -> env_update_item E = Some e ->
  exists w',
    lambda_handler E cfg ev w
    = (Ret (responder 500 (falha ("Erro interno: " +:+ str_of_exn e))), w')
    /\ dict_get (w_bucket w') s3_key_of = Some zip_path_of
    /\ tbl_get (w_table w') (email, env_upload_id E) = Some registro_processando
    /\ List.last (w_trace w') (ALog "")
       = ARmtree (env_tmp_dir E) (succeeded (env_rmtree E)).
Proof.
  intros Hc Hv Hput Hwr Hmk Hrun Hfr Hzip Hup Hupd.
  rewrite (handler_validado cfg ev _ _ _ Hc Hv).
  unfold zip_path_of, registro_processando.
  run_known. fold frames_dir_of. fold frames_of.
  destruct frames_of as [|f fs] eqn:Hf; [done |]. run_known.
  destruct (env_rmtree E); run_simpl;
    (eexists; split; [reflexivity |]; cbn [w_trace w_bucket w_table]; split;
     [ by rewrite dict_get_set, String.eqb_refl
     | split; [by rewrite tbl_get_set | apply last_last] ]).
Qed.

(** Whatever happens, a validated run leaves the other records of the table
    and the other objects of the bucket as they were; the bucket changes
    only by an accepted upload of the archive under its key. *)
Theorem handler_so_toca_o_seu (cfg : config) (ev : event)
        (email nome_arquivo : json) (arquivo_bytes : list byte) (w : world) :
  configurado cfg -> validado ev email nome_arquivo arquivo_bytes ->
  exists resp w',
    lambda_handler E cfg ev w = (Ret resp, w')
    /\ (forall k, k <> (email, env_upload_id E) ->
                  tbl_get (w_table w') k = tbl_get (w_table w) k)
    /\ (forall k, k <> s3_key_of ->
                  dict_get (w_bucket w') k = dict_get (w_bucket w) k)
    /\ (w_bucket w' = w_bucket w
        \/ (env_upload E = None
            /\ w_bucket w' = dict_set (w_bucket w) s3_key_of zip_path_of)).
Proof.
  intros Hc Hv. rewrite (handler_validado cfg ev _ _ _ Hc Hv).
  unfold zip_path_of.
  run_paths E;
    (eexists _, _; split; [reflexivity |]; cbn [w_table w_bucket];
     split; [intros k Hk; by rewrite ?tbl_get_set_ne by done |];
     split; [ intros k Hk; rewrite ?dict_get_set;
              try match goal with
                  | |- context [String.eqb ?a k] =>
                      destruct (String.eqb_spec a k) as [Heq|Hne];
                      [exfalso; apply Hk; symmetry; exact Heq |]
                  end;
              reflexivity
            | first [left; reflexivity | right; by split] ]).
Qed.

(** The decoder that is run is [ffmpeg] as the search path resolves it, or
    one of the three fixed locations, and then one that is executable. *)
Theorem obter_caminho_ffmpeg_executavel :
  obter_caminho_ffmpeg E = "ffmpeg"
  \/ (env_which E = false
      /\ In (obter_caminho_ffmpeg E)
            ["/opt/bin/ffmpeg"; "/var/task/ffmpeg"; "./ffmpeg"]
      /\ env_executable E (obter_caminho_ffmpeg E) = true).
Proof.
  unfold obter_caminho_ffmpeg. destruct (env_which E); [by left |].
  destruct (List.find _ _) as [p|] eqn:Hp; [| by left].
  right. apply List.find_some in Hp as [Hin Hx]. done.
Qed.

End HandlerFacts.

(** ** The order of the extracted frames *)

(** The lexicographic order that [sorted] follows. *)
Definition str_le (a b : string) : Prop := String.leb a b = true.

Section Order.

Lemma ascii_compare_refl (c : ascii) : Ascii.compare c c = Eq.
Proof. unfold Ascii.compare. apply N.compare_refl. Qed.

Lemma ascii_compare_lt_trans (a b c : ascii) :
  Ascii.compare a b = Lt -> Ascii.compare b c = Lt -> Ascii.compare a c = Lt.
Proof.
  unfold Ascii.compare. rewrite !N.compare_lt_iff. apply N.lt_trans.
Qed.

Lemma string_compare_trans (a : string) : forall b c,
  String.compare a b <> Gt -> String.compare b c <> Gt ->
  String.compare a c <> Gt.
Proof.
  induction a as [|x a IH]; intros [|y b] [|z c]; cbn; try done.
  destruct (Ascii.compare x y) eqn:Hxy; [| | done].
  - apply Ascii.compare_eq_iff in Hxy as ->.
    destruct (Ascii.compare y z) eqn:Hyz; [| done | done].
    apply IH.
  - destruct (Ascii.compare y z) eqn:Hyz; [| | done].
    + apply Ascii.compare_eq_iff in Hyz as <-. by rewrite Hxy.
    + by rewrite (ascii_compare_lt_trans x y z).
Qed.

Lemma str_le_iff (a b : string) : str_le a b <-> String.compare a b <> Gt.
Proof. unfold str_le, String.leb. by destruct (String.compare a b). Qed.

#[global] Instance str_le_trans : Transitive str_le.
Proof.
  intros a b c. rewrite !str_le_iff. apply string_compare_trans.
Qed.

#[global] Instance str_le_antisym : AntiSymm (=) str_le.
Proof. intros a b. apply String.leb_antisym. Qed.

(** A common prefix does not change the order. *)
Lemma compare_prefix (p a b : string) :
  String.compare (p +:+ a) (p +:+ b) = String.compare a b.
Proof.
  induction p as [|x p IH]; cbn; [done |]. by rewrite ascii_compare_refl.
Qed.

Lemma str_le_prefix (p a b : string) :
  str_le (p +:+ a) (p +:+ b) <-> str_le a b.
Proof. by rewrite !str_le_iff, compare_prefix. Qed.

Fixpoint sortedb (l : list string) : bool :=
  match l with
  | a :: (b :: _) as t => String.leb a b && sortedb t
  | _ => true
  end.

Lemma sortedb_Sorted (l : list string) : sortedb l = true -> Sorted str_le l.
Proof.
  induction l as [|a [|b l] IH]; intros H.
  - constructor.
  - repeat constructor.
  - cbn [sortedb] in H. apply andb_prop in H as [Hab Ht].
    constructor; [by apply IH | by constructor].
Qed.

Lemma Sorted_adjacent (l1 l2 : list string) (a b : string) :
  Sorted str_le (l1 ++ a :: b :: l2) -> str_le a b.
Proof.
  induction l1 as [|x l1 IH]; cbn; intros H.
  - inversion H as [|? ? _ Hd]; subst. by inversion Hd.
  - inversion H; subst. by apply IH.
Qed.

Lemma Sorted_map_prefix (p : string) (l : list string) :
  Sorted str_le l -> Sorted str_le (List.map (String.append p) l).
Proof.
  induction 1 as [|a l Hl IH Hd]; cbn; constructor; [done |].
  destruct Hd; cbn; constructor. by apply str_le_prefix.
Qed.

Lemma Permutation_filter_list {A} (f : A -> bool) (l1 l2 : list A) :
  Permutation l1 l2 -> Permutation (List.filter f l1) (List.filter f l2).
Proof.
  induction 1 as [| x l1 l2 _ IH | x y l | l1 l2 l3 _ IH1 _ IH2]; cbn.
  - constructor.
  - destruct (f x); [by constructor | done].
  - destruct (f x), (f y); try reflexivity. constructor.
  - by etransitivity.
Qed.

Lemma filter_all {A} (f : A -> bool) (l : list A) :
  forallb f l = true -> List.filter f l = l.
Proof.
  induction l as [|a l IH]; cbn; [done |].
  intros H. apply andb_prop in H as [-> Hl]. by rewrite IH.
Qed.

Lemma sorted_Sorted (l : list string) : Sorted str_le (sorted l).
Proof. apply StrSort.Sorted_sort. Qed.

Lemma sorted_Permutation (l : list string) : Permutation (sorted l) l.
Proof. symmetry. apply StrSort.Permuted_sort. Qed.

(** [sorted] of a rearrangement of a sorted list is that list. *)
Lemma sorted_of_permutation (l l' : list string) :
  Sorted str_le l -> Permutation l' l -> sorted l' = l.
Proof.
  intros Hl Hp. apply (Sorted_unique str_le); [apply sorted_Sorted | done |].
  by rewrite sorted_Permutation.
Qed.

End Order.

(** The names of the first [n] frames, in the order of their numbers. *)
Definition frames_ate (n : nat) : list string := List.map frame_name (seq 1 n).

(** What [os.path.join d] puts in front of a relative name. *)
Definition join_prefix (d : string) : string :=
  if negb (Str.nonempty d) || Str.endswith "/" d then d else d +:+ "/".

Section Frames.

Lemma join_relative (d x : string) :
  Str.startswith "/" x = false -> Posixpath.join d x = join_prefix d +:+ x.
Proof.
  intros Hx. unfold Posixpath.join, join_prefix. rewrite Hx.
  destruct (negb (Str.nonempty d) || Str.endswith "/" d); [done |].
  by rewrite append_assoc.
Qed.

Lemma frame_name_relative (n : nat) : Str.startswith "/" (frame_name n) = false.
Proof. reflexivity. Qed.

Lemma map_join_frames (d : string) (l : list nat) :
  List.map (fun i => Posixpath.join d (frame_name i)) l
  = List.map (String.append (join_prefix d)) (List.map frame_name l).
Proof.
  rewrite List.map_map. apply List.map_ext. intros i.
  apply join_relative, frame_name_relative.
Qed.

Lemma map_join_relative (d : string) (l : list string) :
  forallb (fun x => negb (Str.startswith "/" x)) l = true ->
  List.map (Posixpath.join d) l = List.map (String.append (join_prefix d)) l.
Proof.
  induction l as [|x l IH]; cbn [forallb List.map]; [done |].
  intros H. apply andb_prop in H as [Hx Hl].
  rewrite IH by done. f_equal. apply join_relative. by apply negb_true_iff.
Qed.

(** The numbers [start], [start + 1], ... in binary, [len] of them. *)
Fixpoint N_seq (start : N) (len : nat) : list N :=
  match len with
  | O => []
  | S len' => start :: N_seq (N.succ start) len'
  end.

Lemma frame_names_N_seq (a n : nat) :
  List.map frame_name (seq a n) = List.map frame_name_N (N_seq (N.of_nat a) n).
Proof.
  revert a; induction n as [|n IH]; intros a; cbn [seq N_seq List.map]; [done |].
  rewrite IH. by rewrite Nat2N.inj_succ.
Qed.

(** Up to frame 9999 the names all have the same width. *)
Lemma frames_9999_sortedb : sortedb (frames_ate 9999) = true.
Proof.
  unfold frames_ate. rewrite frame_names_N_seq. vm_compute. reflexivity.
Qed.

Lemma frames_9999_glob : forallb glob_png (frames_ate 9999) = true.
Proof.
  unfold frames_ate. rewrite frame_names_N_seq. vm_compute. reflexivity.
Qed.

Lemma frames_ate_split (n m : nat) :
  frames_ate (n + m) = frames_ate n ++ List.map frame_name (seq (1 + n) m).
Proof. unfold frames_ate. by rewrite seq_app, List.map_app. Qed.

Lemma frames_ate_prefix (n : nat) :
  (n <= 9999)%nat ->
  exists rest, frames_ate 9999 = frames_ate n ++ rest.
Proof.
  intros Hn. exists (List.map frame_name (seq (1 + n) (9999 - n))).
  rewrite <- frames_ate_split. f_equal. lia.
Qed.

Lemma frames_ate_Sorted (n : nat) :
  (n <= 9999)%nat -> Sorted str_le (frames_ate n).
Proof.
  intros Hn. destruct (frames_ate_prefix n Hn) as [rest Hrest].
  pose proof (sortedb_Sorted _ frames_9999_sortedb) as Hs.
  rewrite Hrest in Hs. apply Sorted_StronglySorted in Hs; [| apply _].
  apply StronglySorted_app_1_l in Hs. by apply StronglySorted_Sorted.
Qed.

Lemma frames_ate_glob (n : nat) :
  (n <= 9999)%nat -> forallb glob_png (frames_ate n) = true.
Proof.
  intros Hn. destruct (frames_ate_prefix n Hn) as [rest Hrest].
  pose proof frames_9999_glob as Hg. rewrite Hrest, forallb_app in Hg.
  by apply andb_prop in Hg as [Hg _].
Qed.

End Frames.

Section FrameExtraction.

Variable E : env.

(** When the directory is created and the decoder exits with 0, the
    extraction returns the sorted paths of the visible [.png] names. *)
Lemma extrair_frames_ret (video_path tmp_dir : string) (w : world) (err : string) :
  env_makedirs E = None -> env_run E = Ret (0%Z, err) ->
  exists w',
    extrair_frames E video_path tmp_dir w
    = (Ret (sorted (List.map (Posixpath.join (Posixpath.join tmp_dir "frames"))
                             (List.filter glob_png (env_listing E)))), w').
Proof.
  intros Hm Hr. unfold extrair_frames, emit, answer, lift, mbind, M_bind, mret, M_ret.
  rewrite Hm, Hr.
  cbn -[Posixpath.join sorted]. by eexists.
Qed.

(** C9, as the code has it. Whenever the decoder exits successfully the
    extraction returns the produced frame paths, each once, sorted
    lexicographically, whatever their number; when the decoder produced the
    frames 1 to [n] with [n] at most 9999 (while the zero-padded number keeps
    its four digits), that order is the order of the frame numbers. *)
Theorem extrair_frames_ordenados (video_path tmp_dir : string) (w : world)
        (err : string) :
  env_makedirs E = None -> env_run E = Ret (0%Z, err) ->
  exists frames w',
    extrair_frames E video_path tmp_dir w = (Ret frames, w')
    /\ Sorted str_le frames
    /\ Permutation frames
         (List.map (Posixpath.join (Posixpath.join tmp_dir "frames"))
                   (List.filter glob_png (env_listing E)))
    /\ forall n,
         (n <= 9999)%nat -> Permutation (env_listing E) (frames_ate n) ->
         frames
         = List.map (fun i => Posixpath.join (Posixpath.join tmp_dir "frames")
                                             (frame_name i))
                    (seq 1 n).
Proof.
  intros Hm Hr.
  destruct (extrair_frames_ret video_path tmp_dir w err Hm Hr) as [w' Hw].
  eexists _, w'. split; [exact Hw |].
  split; [apply sorted_Sorted |]. split; [apply sorted_Permutation |].
  intros n Hn Hl.
  apply sorted_of_permutation.
  - rewrite map_join_frames. apply Sorted_map_prefix.
    by apply frames_ate_Sorted.
  - rewrite map_join_frames. fold (frames_ate n).
    rewrite <- (filter_all glob_png (frames_ate n)) at 1
      by (by apply frames_ate_glob).
    etransitivity.
    + apply Permutation_map, Permutation_filter_list, Hl.
    + rewrite (filter_all glob_png (frames_ate n)) by (by apply frames_ate_glob).
      rewrite map_join_relative; [done |].
      unfold frames_ate. rewrite forallb_forall. intros x Hx.
      apply in_map_iff in Hx as (i & <- & _). reflexivity.
Qed.

End FrameExtraction.

(** ** The names of the frames in the response *)

(** A name as a directory listing gives it: no slash in it. *)
Definition nome_de_entrada (n : string) : bool :=
  negb (Str.contains_char "/" n).

Section FrameNames.

Variable E : env.

Lemma drop_suffix (n : nat) : forall s, exists a, s = a +:+ Str.drop n s.
Proof.
  induction n as [|n IH]; intros s.
  - by exists "".
  - destruct s as [|c s]; [by exists "" |].
    destruct (IH s) as [a Ha]. exists (String c a). cbn. by rewrite <- Ha.
Qed.

Lemma endswith_inv (suf s : string) :
  Str.endswith suf s = true -> exists a, s = a +:+ suf.
Proof.
  unfold Str.endswith. intros H. apply andb_prop in H as [_ H].
  apply String.eqb_eq in H.
  destruct (drop_suffix (String.length s - String.length suf) s) as [a Ha].
  exists a. by rewrite <- H.
Qed.

Lemma drop_append_add (a b : string) (k : nat) :
  Str.drop (String.length a + k) (a +:+ b) = Str.drop k b.
Proof. induction a as [|x a IH]; cbn; [done | apply IH]. Qed.

Lemma endswith_append (suf a b : string) :
  (String.length suf <= String.length b)%nat ->
  Str.endswith suf (a +:+ b) = Str.endswith suf b.
Proof.
  intros Hlen. unfold Str.endswith. rewrite length_append.
  replace (String.length a + String.length b - String.length suf)%nat
    with (String.length a + (String.length b - String.length suf))%nat by lia.
  rewrite drop_append_add.
  replace (String.length suf <=? String.length a + String.length b)%nat
    with true by (symmetry; apply Nat.leb_le; lia).
  by replace (String.length suf <=? String.length b)%nat
    with true by (symmetry; apply Nat.leb_le; lia).
Qed.

Lemma join_prefix_dir (d : string) : dir_prefix (join_prefix d).
Proof.
  unfold join_prefix.
  destruct (negb (Str.nonempty d) || Str.endswith "/" d) eqn:H.
  - apply orb_prop in H as [H | H].
    + left. by destruct d.
    + right. by apply endswith_inv.
  - right. by exists d.
Qed.

Lemma startswith_slash (n : string) :
  Str.contains_char "/" n = false -> Str.startswith "/" n = false.
Proof.
  destruct n as [|c n]; [done |]. intros H.
  cbn [Str.contains_char] in H. apply orb_false_elim in H as [H _].
  unfold Str.startswith. cbn [String.prefix].
  destruct (Ascii.ascii_dec "/" c) as [<- | _]; [| done].
  by rewrite Ascii.eqb_refl in H.
Qed.

Lemma drop_past (d : string) (c : ascii) (n : string) :
  Str.drop (S (String.length d)) (d +:+ String c n) = n.
Proof. induction d as [|x d IH]; cbn; [by destruct n | apply IH]. Qed.

(** [os.path.basename] undoes [os.path.join] on a plain name. *)
Lemma basename_prefix (p n : string) :
  dir_prefix p -> Str.contains_char "/" n = false ->
  Posixpath.basename (p +:+ n) = n.
Proof.
  intros Hp Hn. unfold Posixpath.basename. destruct Hp as [-> | [d ->]].
  - change ("" +:+ n) with n. unfold Str.rfind. by rewrite rfind_from_absent.
  - rewrite append_assoc. change ("/" +:+ n) with (String "/" n).
    rewrite rfind_last by done. apply drop_past.
Qed.

Lemma join_prefix_frames (tmp_dir : string) :
  join_prefix (Posixpath.join tmp_dir "frames")
  = Posixpath.join tmp_dir "frames" +:+ "/".
Proof.
  unfold join_prefix, Posixpath.join.
  change (Str.startswith "/" "frames") with false. cbn iota.
  destruct (negb (Str.nonempty tmp_dir) || Str.endswith "/" tmp_dir).
  - rewrite (endswith_append "/" tmp_dir "frames") by (cbn; lia).
    by destruct tmp_dir.
  - rewrite (endswith_append "/" tmp_dir ("/" +:+ "frames")) by (cbn; lia).
    by destruct tmp_dir.
Qed.

(** [sorted] commutes with putting the same prefix in front of every
    string. *)
Lemma sorted_map_prefix (p : string) (l : list string) :
  sorted (List.map (String.append p) l) = List.map (String.append p) (sorted l).
Proof.
  apply sorted_of_permutation.
  - apply Sorted_map_prefix, sorted_Sorted.
  - apply Permutation_map. symmetry. apply sorted_Permutation.
Qed.

Lemma entradas_png (x : string) :
  forallb nome_de_entrada (env_listing E) = true ->
  In x (sorted (List.filter glob_png (env_listing E))) ->
  Str.contains_char "/" x = false /\ glob_png x = true.
Proof.
  intros Hall Hx.
  apply (Permutation_in _ (sorted_Permutation _)) in Hx.
  apply List.filter_In in Hx as [Hin Hg]. split; [| done].
  rewrite forallb_forall in Hall. specialize (Hall x Hin).
  by apply negb_true_iff in Hall.
Qed.

(** When the decoder exits with 0, the frames returned are the visible
    [.png] names of the frames directory in sorted order, each under that
    directory; their base names, which the response lists and the archive
    uses as member names, are those names again. *)
Theorem extrair_frames_nomes (video_path tmp_dir : string) (w : world)
        (err : string) :
  env_makedirs E = None -> env_run E = Ret (0%Z, err) ->
  forallb nome_de_entrada (env_listing E) = true ->
  exists frames w',
    extrair_frames E video_path tmp_dir w = (Ret frames, w')
    /\ frames
       = List.map (String.append (Posixpath.join tmp_dir "frames" +:+ "/"))
                  (sorted (List.filter glob_png (env_listing E)))
    /\ List.map Posixpath.basename frames
       = sorted (List.filter glob_png (env_listing E))
    /\ Sorted str_le frames
    /\ forallb glob_png (List.map Posixpath.basename frames) = true.
Proof.
  intros Hm Hr Hall.
  destruct (extrair_frames_ret E video_path tmp_dir w err Hm Hr) as [w' Hw].
  set (names := List.filter glob_png (env_listing E)) in *.
  set (d := Posixpath.join tmp_dir "frames") in *.
  assert (Hfr : sorted (List.map (Posixpath.join d) names)
                = List.map (String.append (d +:+ "/")) (sorted names)).
  { rewrite map_join_relative.
    - unfold d at 1. rewrite join_prefix_frames. apply sorted_map_prefix.
    - rewrite forallb_forall. intros x Hx. apply negb_true_iff.
      apply startswith_slash. unfold names in Hx.
      apply List.filter_In in Hx as [Hin _].
      rewrite forallb_forall in Hall. specialize (Hall x Hin).
      by apply negb_true_iff in Hall. }
  assert (Hbase : List.map Posixpath.basename
                    (List.map (String.append (d +:+ "/")) (sorted names))
                  = sorted names).
  { rewrite List.map_map. rewrite <- (List.map_id (sorted names)) at 2.
    apply List.map_ext_in. intros x Hx.
    destruct (entradas_png x Hall Hx) as [Hs _].
    apply basename_prefix; [| done]. right. by exists d. }
  eexists _, w'. split; [exact Hw |]. rewrite Hfr.
  split; [reflexivity |]. split; [exact Hbase |]. split.
  - rewrite <- Hfr. apply sorted_Sorted.
  - rewrite Hbase. rewrite forallb_forall. intros x Hx.
    by destruct (entradas_png x Hall Hx) as [_ Hg].
Qed.

End FrameNames.

(** The property as the specification states it: whatever the number of
    frames, the sorted paths come out in the order of the frame numbers. *)
Definition ordem_numerica_sempre : Prop :=
  forall (E : env) (video_path tmp_dir : string) (w : world) (err : string)
         (n : nat),
    env_makedirs E = None -> env_run E = Ret (0%Z, err) ->
    Permutation (env_listing E) (frames_ate n) ->
    fst (extrair_frames E video_path tmp_dir w)
    = Ret (List.map (fun i => Posixpath.join (Posixpath.join tmp_dir "frames")
                                             (frame_name i))
                    (seq 1 n)).

(** A decoder run that writes 10000 frames: a video of two hours and
    forty-seven minutes. *)
Definition env_10000 : env :=
  Env "20240101_120000" "/tmp/proc_a1b2c3d4" "0f8fad5bd9cb469fa16570867728950e"
      "2024-01-01T12:00:00+00:00" None None None true (fun _ => false)
      (Ret (0%Z, "")) (frames_ate (9998 + 2)) None None None None.

Definition world_0 : world := World ∅ [] [] [].

Lemma Ret_inj {A} (a b : A) : Ret a = Ret b -> a = b.
Proof. by intros [= ->]. Qed.

Lemma listing_10000 :
  Permutation (env_listing env_10000) (frames_ate (9998 + 2)).
Proof. exact (Permutation_refl _). Qed.

Lemma ordem_numerica_falha : ~ ordem_numerica_sempre.
Proof.
  intros H. unfold ordem_numerica_sempre in H.
  pose proof (H env_10000 "/tmp/proc_a1b2c3d4/20240101_120000_v.mp4"
                "/tmp/proc_a1b2c3d4" world_0 "" (9998 + 2)%nat
                eq_refl eq_refl) as H1.
  specialize (H1 listing_10000). clear H.
  destruct (extrair_frames_ret env_10000
              "/tmp/proc_a1b2c3d4/20240101_120000_v.mp4" "/tmp/proc_a1b2c3d4"
              world_0 "" eq_refl eq_refl) as [w' Hw].
  rewrite Hw in H1. cbn [fst] in H1. apply Ret_inj in H1.
  pose proof (sorted_Sorted
                (List.map (Posixpath.join (Posixpath.join "/tmp/proc_a1b2c3d4" "frames"))
                          (List.filter glob_png (env_listing env_10000)))) as Hs.
  rewrite H1 in Hs. rewrite seq_app, List.map_app in Hs.
  apply Sorted_adjacent in Hs. unfold str_le in Hs.
  vm_compute in Hs. discriminate.
Qed.

(** ** Concrete requests and runs *)

Section Exemplos.

#[local] Existing Instance Ref.libs.

(** A JSON body with the three fields, as a client sends it. *)
Definition corpo_json (email filename arquivo : string) : string :=
  "{" +:+ Ref.quoted "email" +:+ ": " +:+ Ref.quoted email +:+ ", "
      +:+ Ref.quoted "filename" +:+ ": " +:+ Ref.quoted filename +:+ ", "
      +:+ Ref.quoted "arquivo" +:+ ": " +:+ Ref.quoted arquivo +:+ "}".

Definition pedido_json (corpo : string) : event :=
  Event (Some [("Content-Type", "application/json")]) (Some corpo) false.

(** [aGVsbG8=] is the encoding of [hello]. *)
Definition ev_ok : event := pedido_json (corpo_json "a@b.c" "v.mp4" "aGVsbG8=").

(** The same payload with a character outside the alphabet in it. *)
Definition ev_ruido : event := pedido_json (corpo_json "a@b.c" "v.mp4" "aGVs!bG8=").

(** Three alphabet characters: no quad. *)
Definition ev_curto : event := pedido_json (corpo_json "a@b.c" "v.mp4" "abc").

(** A body that is valid JSON, and not an object. *)
Definition ev_lista : event := pedido_json "[]".

Definition campos_ok : list (string * json) :=
  [("email", JString "a@b.c"); ("filename", JString "v.mp4");
   ("arquivo", JString "aGVsbG8=")].

Lemma extrair_json_roundtrip_witness :
  extrair_dados_requisicao ev_ok
  = Ret (JString "a@b.c", JString "v.mp4", bytes_of "hello").
Proof.
  apply (extrair_json_roundtrip ev_ok campos_ok (JString "a@b.c")
           (JString "v.mp4") (bytes_of "hello")).
  - reflexivity.
  - reflexivity.
  - reflexivity.
  - reflexivity.
  - reflexivity.
  - reflexivity.
  - reflexivity.
  - discriminate.
Defined.

Lemma extrair_arquivo_recusado_witness :
  extrair_dados_requisicao ev_curto = Raise (Exn ValueError msg_base64).
Proof.
  apply (extrair_arquivo_recusado ev_curto
           [("email", JString "a@b.c"); ("filename", JString "v.mp4");
            ("arquivo", JString "abc")] (JString "abc")).
  - reflexivity.
  - reflexivity.
  - reflexivity.
  - right. eexists. reflexivity.
Defined.

(** The encoder never produces a character outside the alphabet, while the
    parser accepts one: [aGVs!bG8=] is no encoding, and is decoded to
    [hello]. *)
Lemma arquivo_invalido_aceito : ~ arquivo_invalido_rejeitado.
Proof.
  intros H.
  destruct (H ev_ruido
              [("email", JString "a@b.c"); ("filename", JString "v.mp4");
               ("arquivo", JString "aGVs!bG8=")] "aGVs!bG8="
              eq_refl eq_refl eq_refl) as (e & He & _).
  - intros [b Hb].
    pose proof (Base64Facts.b64decode_b64encode b) as Hd.
    rewrite <- Hb in Hd. vm_compute in Hd. injection Hd as <-.
    vm_compute in Hb. discriminate Hb.
  - vm_compute in He. discriminate He.
Qed.

Lemma extrair_corpo_nao_objeto_witness :
  extrair_dados_requisicao ev_lista
  = Raise (Exn AttributeError "'list' object has no attribute 'get'")
  /\ forall e, extrair_dados_requisicao ev_lista = Raise e ->
               is_ValueError e = false.
Proof.
  apply (extrair_corpo_nao_objeto ev_lista (JArray [])).
  - reflexivity.
  - reflexivity.
  - reflexivity.
Defined.

(** A multipart body with the email part first, and the same body with the
    file part first. *)
Definition parte_email : string :=
  "Content-Disposition: form-data; name=" +:+ Ref.quoted "email"
  +:+ crlf +:+ crlf +:+ "a@b.c" +:+ crlf.

Definition parte_arquivo : string :=
  "Content-Disposition: form-data; name=" +:+ Ref.quoted "file"
  +:+ "; filename=" +:+ Ref.quoted "v.mp4" +:+ crlf
  +:+ "Content-Type: video/mp4" +:+ crlf +:+ crlf +:+ "DATA" +:+ crlf.

Definition pedido_multipart (partes : list string) : event :=
  Event (Some [("Content-Type", "multipart/form-data; boundary=XYZ")])
        (Some (String.concat "" (List.map (fun p => "--XYZ" +:+ crlf +:+ p) partes)
               +:+ "--XYZ--" +:+ crlf))
        false.

Definition ev_arquivo_email : event := pedido_multipart [parte_arquivo; parte_email].
Definition ev_email_arquivo : event := pedido_multipart [parte_email; parte_arquivo].

Lemma multipart_ordem_das_partes_witness :
  extrair_dados_requisicao ev_arquivo_email
  = extrair_dados_requisicao ev_email_arquivo
  /\ extrair_dados_requisicao ev_arquivo_email
     = Ret (JString "a@b.c", JString "v.mp4", bytes_of "DATA").
Proof.
  destruct (multipart_ordem_das_partes ev_arquivo_email ev_email_arquivo
              "multipart/form-data; boundary=XYZ"
              "multipart/form-data; boundary=XYZ"
              (Part (Some "file") (Some "v.mp4") (Some (bytes_of "DATA")))
              (Part (Some "email") None (Some (bytes_of "a@b.c"))))
    as [Hsame Hval].
  - reflexivity.
  - reflexivity.
  - reflexivity.
  - reflexivity.
  - reflexivity.
  - reflexivity.
  - reflexivity.
  - split; reflexivity.
  - split; [exact Hsame |].
    apply (Hval (bytes_of "a@b.c") (bytes_of "DATA"));
      first [reflexivity | discriminate].
Defined.

(** A run in which every collaborator answers, and the decoder leaves
    three frames. *)
Definition env_ok : env :=
  Env "20240101_120000" "/tmp/proc_a1b2c3d4" "0f8fad5bd9cb469fa16570867728950e"
      "2024-01-01T12:00:00+00:00" None None None true (fun _ => false)
      (Ret (0%Z, ""))
      ["frame_0002.png"; "frame_0001.png"; "frame_0003.png"]
      None None None None.

Definition erro_banco : exn :=
  Exn ClientError "An error occurred (ResourceNotFoundException) when calling the PutItem operation".

(** The same run, with a record store that refuses the initial write. *)
Definition env_sem_banco : env :=
  Env "20240101_120000" "/tmp/proc_a1b2c3d4" "0f8fad5bd9cb469fa16570867728950e"
      "2024-01-01T12:00:00+00:00" (Some erro_banco) None None true
      (fun _ => false) (Ret (0%Z, ""))
      ["frame_0002.png"; "frame_0001.png"; "frame_0003.png"]
      None None None None.

Definition cfg_ok : config := Config (Some "videos") (Some "uploads").
Definition cfg_sem_bucket : config := Config None (Some "uploads").

Lemma ev_ok_validado :
  validado ev_ok (JString "a@b.c") (JString "v.mp4") (bytes_of "hello").
Proof. split; reflexivity. Defined.

Lemma cfg_ok_configurado : configurado cfg_ok.
Proof. split; reflexivity. Defined.

Lemma handler_sem_configuracao_witness :
  lambda_handler env_ok cfg_sem_bucket ev_lista world_0
  = (Ret (responder 500 (falha "Variável de ambiente BUCKET não configurada")),
     world_0).
Proof.
  apply (handler_sem_configuracao env_ok cfg_sem_bucket ev_lista world_0).
  left. reflexivity.
Defined.

Lemma diretorio_permanece_witness :
  exists w',
    lambda_handler env_sem_banco cfg_ok ev_ok world_0
    = (Ret (responder 500
              (falha ("Erro ao gravar registro inicial no banco: "
                      +:+ str_of_exn erro_banco))), w')
    /\ "/tmp/proc_a1b2c3d4" ∈ w_dirs w'
    /\ w_trace w'
       = [AMkdtemp "/tmp/proc_a1b2c3d4";
          APutItem (JString "a@b.c") "0f8fad5bd9cb469fa16570867728950e"
                   status_processando "2024-01-01T12:00:00+00:00" false;
          ALog "Erro ao gravar DynamoDB inicial"].
Proof.
  apply (diretorio_permanece env_sem_banco cfg_ok ev_ok (JString "a@b.c")
           (JString "v.mp4") (bytes_of "hello") world_0 erro_banco).
  - exact cfg_ok_configurado.
  - exact ev_ok_validado.
  - reflexivity.
Defined.

Lemma registro_ciclo_witness :
  exists resp w' t,
    lambda_handler env_ok cfg_ok ev_ok world_0 = (Ret resp, w')
    /\ w_trace w' = w_trace world_0 ++ t
    /\ (let put := APutItem (JString "a@b.c") (env_upload_id env_ok)
                            status_processando (env_created_at env_ok)
                            (succeeded (env_put_item env_ok)) in
        let upd := AUpdateItem (JString "a@b.c") (env_upload_id env_ok)
                               (s3_key_of env_ok) status_concluido
                               (List.length (frames_of env_ok))
                               (succeeded (env_update_item env_ok)) in
        store_requests t = [put]
        \/ (store_requests t = [put; upd]
            /\ env_put_item env_ok = None
            /\ In (AUpload (Posixpath.join (env_tmp_dir env_ok) (zip_nome_of env_ok))
                           (default "" (S3_BUCKET cfg_ok)) (s3_key_of env_ok) true) t))
    /\ (env_put_item env_ok = None ->
        tbl_get (w_table w') (JString "a@b.c", env_upload_id env_ok)
        = Some (if (statusCode resp =? 200)%Z
                then registro_concluido env_ok else registro_processando env_ok)).
Proof.
  apply (registro_ciclo env_ok cfg_ok ev_ok (JString "a@b.c") (JString "v.mp4")
           (bytes_of "hello") world_0).
  - exact cfg_ok_configurado.
  - exact ev_ok_validado.
Defined.

Definition frames_ok : list string :=
  ["/tmp/proc_a1b2c3d4/frames/frame_0001.png";
   "/tmp/proc_a1b2c3d4/frames/frame_0002.png";
   "/tmp/proc_a1b2c3d4/frames/frame_0003.png"].

Definition resp_ok : response :=
  responder 200
    (sucesso "a@b.c_0f8fad5bd9cb469fa16570867728950e"
             "outputs/frames_20240101_120000.zip" frames_ok).

Lemma resposta_sucesso_witness :
  lambda_handler env_ok cfg_ok ev_ok world_0
  = (Ret resp_ok, snd (lambda_handler env_ok cfg_ok ev_ok world_0))
  /\ statusCode resp_ok = 200%Z
  /\ exists email nome_arquivo arquivo_bytes body_dict,
       validado ev_ok email nome_arquivo arquivo_bytes
       /\ body resp_ok = json_dumps body_dict
       /\ campo body_dict "success" = Some (JBool true)
       /\ campo body_dict "images"
          = Some (JArray (List.map JString
                            (List.map Posixpath.basename (frames_of env_ok))))
       /\ campo body_dict "frame_count"
          = Some (JInt (Z.of_nat
                          (List.length
                             (List.map Posixpath.basename (frames_of env_ok)))))
       /\ campo body_dict "record_id"
          = Some (JString (fstr email +:+ "_" +:+ env_upload_id env_ok))
       /\ exists s3_key,
            campo body_dict "s3_key" = Some (JString s3_key)
            /\ Str.startswith "outputs/" s3_key = true.
Proof.
  assert (lambda_handler env_ok cfg_ok ev_ok world_0
          = (Ret resp_ok, snd (lambda_handler env_ok cfg_ok ev_ok world_0)))
    as Hrun by (vm_compute; reflexivity).
  split; [exact Hrun |]. split; [reflexivity |].
  exact (resposta_sucesso env_ok cfg_ok ev_ok world_0 _ resp_ok Hrun eq_refl).
Defined.

Lemma extrair_frames_ordenados_witness :
  exists frames w',
    extrair_frames env_ok "/tmp/proc_a1b2c3d4/20240101_120000_v.mp4"
                   "/tmp/proc_a1b2c3d4" world_0
    = (Ret frames, w')
    /\ Sorted str_le frames
    /\ Permutation frames
         (List.map (Posixpath.join (Posixpath.join "/tmp/proc_a1b2c3d4" "frames"))
                   (List.filter glob_png (env_listing env_ok)))
    /\ frames
       = List.map (fun i => Posixpath.join
                              (Posixpath.join "/tmp/proc_a1b2c3d4" "frames")
                              (frame_name i))
                  (seq 1 3).
Proof.
  destruct (extrair_frames_ordenados env_ok
              "/tmp/proc_a1b2c3d4/20240101_120000_v.mp4" "/tmp/proc_a1b2c3d4"
              world_0 "" eq_refl eq_refl)
    as (frames & w' & Hrun & Hsorted & Hperm & Hnum).
  exists frames, w'. split; [exact Hrun |]. split; [exact Hsorted |].
  split; [exact Hperm |]. apply (Hnum 3%nat).
  - apply Nat.leb_le. reflexivity.
  - apply perm_swap.
Defined.

Lemma diretorio_removido_witness :
  exists resp w',
    lambda_handler env_ok cfg_ok ev_ok world_0 = (Ret resp, w')
    /\ List.last (w_trace w') (ALog "") = ARmtree "/tmp/proc_a1b2c3d4" true
    /\ (env_rmtree env_ok = None -> "/tmp/proc_a1b2c3d4" ∉ w_dirs w')
    /\ w_dirs w' ∖ {["/tmp/proc_a1b2c3d4"]}
       = w_dirs world_0 ∖ {["/tmp/proc_a1b2c3d4"]}.
Proof.
  apply (diretorio_removido env_ok cfg_ok ev_ok (JString "a@b.c")
           (JString "v.mp4") (bytes_of "hello") world_0).
  - exact cfg_ok_configurado.
  - exact ev_ok_validado.
  - reflexivity.
Defined.

Lemma extrair_ret_nonempty_witness :
  truthy (JString "a@b.c") = true /\ truthy (JString "v.mp4") = true
  /\ bytes_of "hello" <> [].
Proof.
  apply (extrair_ret_nonempty ev_ok). reflexivity.
Defined.

(** The same request with an empty email. *)
Definition ev_sem_email : event := pedido_json (corpo_json "" "v.mp4" "aGVsbG8=").

Lemma extrair_campo_ausente_witness :
  extrair_dados_requisicao ev_sem_email = Raise (Exn ValueError msg_ausentes).
Proof.
  apply (extrair_campo_ausente ev_sem_email
           (Campos (JString "") (JString "v.mp4") (Some (bytes_of "hello")))).
  - reflexivity.
  - left. reflexivity.
Defined.

Lemma b64decode_recusa_comprimento_witness :
  exists e, Base64.b64decode (JString "abc") = Raise e.
Proof.
  apply (b64decode_recusa_comprimento "abc").
  - reflexivity.
  - discriminate.
Defined.


(** *** The decoder and the parser on concrete requests *)

Lemma extrair_arquivo_com_ruido_witness :
  extrair_dados_requisicao ev_ruido = extrair_dados_requisicao ev_ok.
Proof.
  apply (extrair_arquivo_com_ruido ev_ruido ev_ok
           [("email", JString "a@b.c"); ("filename", JString "v.mp4");
            ("arquivo", JString "aGVs!bG8=")]
           campos_ok "aGVs!bG8=");
    reflexivity.
Defined.

(** The encoding of [hello] followed by the encoding of [ABC]. *)
Definition ev_sobra : event :=
  pedido_json (corpo_json "a@b.c" "v.mp4" "aGVsbG8=QUJD").

Lemma extrair_arquivo_com_sobra_witness :
  extrair_dados_requisicao ev_sobra
  = Ret (JString "a@b.c", JString "v.mp4", bytes_of "hello").
Proof.
  apply (extrair_arquivo_com_sobra ev_sobra
           [("email", JString "a@b.c"); ("filename", JString "v.mp4");
            ("arquivo", JString "aGVsbG8=QUJD")]
           (JString "a@b.c") (JString "v.mp4") (bytes_of "hello") "QUJD");
    first [reflexivity | discriminate].
Defined.

Lemma content_type_sem_caixa_witness :
  content_type_of
    (Event (Some ([("content-type", "text/plain")]
                  ++ ("Content-Type", "application/json") :: [("Accept", "*/*")]))
           None false)
  = Some "application/json".
Proof.
  apply (content_type_sem_caixa [("content-type", "text/plain")]
           [("Accept", "*/*")] "Content-Type" "application/json" None false).
  - reflexivity.
  - intros k' v' [[= <- <-] | []]. discriminate.
Defined.

(** A form field that is neither the file nor the email. *)
Definition parte_nota : string :=
  "Content-Disposition: form-data; name=" +:+ Ref.quoted "nota"
  +:+ crlf +:+ crlf +:+ "urgente" +:+ crlf.

(** A second file. *)
Definition parte_arquivo_2 : string :=
  "Content-Disposition: form-data; name=" +:+ Ref.quoted "file"
  +:+ "; filename=" +:+ Ref.quoted "w.avi" +:+ crlf
  +:+ "Content-Type: video/x-msvideo" +:+ crlf +:+ crlf +:+ "MORE" +:+ crlf.

(** An email part whose payload is the single byte FF. *)
Definition parte_email_ruim : string :=
  "Content-Disposition: form-data; name=" +:+ Ref.quoted "email"
  +:+ crlf +:+ crlf +:+ String "255" "" +:+ crlf.

Definition ct_xyz : string := "multipart/form-data; boundary=XYZ".

Definition p_arquivo : part :=
  Part (Some "file") (Some "v.mp4") (Some (bytes_of "DATA")).
Definition p_arquivo_2 : part :=
  Part (Some "file") (Some "w.avi") (Some (bytes_of "MORE")).
Definition p_email : part := Part (Some "email") None (Some (bytes_of "a@b.c")).
Definition p_nota : part := Part (Some "nota") None (Some (bytes_of "urgente")).
Definition p_email_ruim : part := Part (Some "email") None (Some [xff]).

Lemma multipart_partes_ignoradas_witness :
  extrair_dados_requisicao (pedido_multipart [parte_arquivo; parte_nota; parte_email])
  = extrair_dados_requisicao ev_arquivo_email.
Proof.
  apply (multipart_partes_ignoradas
           (pedido_multipart [parte_arquivo; parte_nota; parte_email])
           ev_arquivo_email ct_xyz ct_xyz
           [p_arquivo; p_nota; p_email] [p_arquivo; p_email]);
    reflexivity.
Defined.

Lemma multipart_ultimo_arquivo_witness :
  JString "w.avi" = JString (default "" (part_filename p_arquivo_2))
  /\ part_payload p_arquivo_2 = Some (bytes_of "MORE").
Proof.
  apply (multipart_ultimo_arquivo
           (pedido_multipart [parte_arquivo; parte_arquivo_2; parte_email])
           ct_xyz [p_arquivo] [p_email] p_arquivo_2 (JString "a@b.c"));
    reflexivity.
Defined.

Lemma multipart_email_nao_utf8_witness :
  extrair_dados_requisicao (pedido_multipart [parte_arquivo; parte_email_ruim])
  = Raise (Exn UnicodeDecodeError (utf8_error [xff]))
  /\ is_ValueError (Exn UnicodeDecodeError (utf8_error [xff])) = true.
Proof.
  apply (multipart_email_nao_utf8
           (pedido_multipart [parte_arquivo; parte_email_ruim]) ct_xyz
           [p_arquivo] [] p_email_ruim
           (Campos JNull (JString "v.mp4") (Some (bytes_of "DATA"))) [xff]);
    first [reflexivity | split; reflexivity].
Defined.

(** A multipart request flagged as base64 whose body is no base64. *)
Definition ev_multipart_b64 : event :=
  Event (Some [("content-type", ct_xyz)]) (Some "abc") true.

Lemma multipart_corpo_base64_invalido_witness :
  extrair_dados_requisicao ev_multipart_b64
  = Raise (Exn BinasciiError "Incorrect padding")
  /\ is_ValueError (Exn BinasciiError "Incorrect padding") = true.
Proof.
  apply (multipart_corpo_base64_invalido ev_multipart_b64 ct_xyz
           (Exn BinasciiError "Incorrect padding"));
    reflexivity.
Defined.

Lemma extrair_sem_corpo_witness :
  extrair_dados_requisicao (Event None None false)
  = Raise (Exn ValueError msg_ausentes).
Proof.
  apply (extrair_sem_corpo (Event None None false)).
  - reflexivity.
  - left. reflexivity.
  - reflexivity.
Defined.

Lemma extrair_arquivo_sem_bytes_witness :
  extrair_dados_requisicao (pedido_json (corpo_json "a@b.c" "v.mp4" "===="))
  = Raise (Exn ValueError msg_ausentes).
Proof.
  apply (extrair_arquivo_sem_bytes
           (pedido_json (corpo_json "a@b.c" "v.mp4" "===="))
           [("email", JString "a@b.c"); ("filename", JString "v.mp4");
            ("arquivo", JString "====")] (JString "===="));
    reflexivity.
Defined.

(** *** Runs of the handler *)

(** A body that is no JSON. *)
Definition ev_quebrado : event := pedido_json "{oops".

(** A request for a text file. *)
Definition ev_texto : event := pedido_json (corpo_json "a@b.c" "notas.txt" "aGVsbG8=").

(** A request whose filename is a number. *)
Definition ev_nome_numero : event :=
  pedido_json ("{" +:+ Ref.quoted "email" +:+ ": " +:+ Ref.quoted "a@b.c" +:+ ", "
               +:+ Ref.quoted "filename" +:+ ": 123, "
               +:+ Ref.quoted "arquivo" +:+ ": " +:+ Ref.quoted "aGVsbG8=" +:+ "}").

Lemma handler_400_witness :
  (forall e, extrair_dados_requisicao ev_texto = Raise e -> is_ValueError e = true ->
     lambda_handler env_ok cfg_ok ev_texto world_0
     = (Ret (responder 400 (falha (str_of_exn e))), world_0))
  /\ (forall email nome_arquivo arquivo_bytes,
        extrair_dados_requisicao ev_texto = Ret (email, nome_arquivo, arquivo_bytes) ->
        validar_extensao nome_arquivo = Ret false ->
        lambda_handler env_ok cfg_ok ev_texto world_0
        = (Ret (responder 400 (falha "Formato não suportado")), world_0))
  /\ (forall resp w',
        lambda_handler env_ok cfg_ok ev_texto world_0 = (Ret resp, w') ->
        statusCode resp = 400%Z ->
        w' = world_0
        /\ ((exists e, extrair_dados_requisicao ev_texto = Raise e
                       /\ is_ValueError e = true)
            \/ (exists email nome_arquivo arquivo_bytes,
                  extrair_dados_requisicao ev_texto
                  = Ret (email, nome_arquivo, arquivo_bytes)
                  /\ validar_extensao nome_arquivo = Ret false))).
Proof.
  apply (handler_400 env_ok cfg_ok ev_texto world_0).
  exact cfg_ok_configurado.
Defined.

Lemma handler_excecao_escapa_witness :
  lambda_handler env_ok cfg_ok ev_lista world_0
  = (Raise (Exn AttributeError "'list' object has no attribute 'get'"), world_0).
Proof.
  apply (handler_excecao_escapa env_ok cfg_ok ev_lista
           (Exn AttributeError "'list' object has no attribute 'get'") world_0).
  - exact cfg_ok_configurado.
  - reflexivity.
  - reflexivity.
Defined.

Lemma handler_json_malformado_witness :
  lambda_handler env_ok cfg_ok ev_quebrado world_0
  = (Ret (responder 400 (falha msg_json)), world_0).
Proof.
  apply (handler_json_malformado env_ok cfg_ok ev_quebrado Ref.decode_error world_0).
  - exact cfg_ok_configurado.
  - reflexivity.
  - reflexivity.
Defined.

Lemma handler_nome_nao_texto_witness :
  lambda_handler env_ok cfg_ok ev_nome_numero world_0
  = (Raise (Exn TypeError ("expected str, bytes or os.PathLike object, not "
                           +:+ type_name (JInt 123))), world_0).
Proof.
  apply (handler_nome_nao_texto env_ok cfg_ok ev_nome_numero (JString "a@b.c")
           (JInt 123) (bytes_of "hello") world_0).
  - exact cfg_ok_configurado.
  - reflexivity.
  - discriminate.
Defined.

Lemma handler_resposta_bem_formada_witness :
  lambda_handler env_ok cfg_ok ev_ok world_0
  = (Ret resp_ok, snd (lambda_handler env_ok cfg_ok ev_ok world_0))
  /\ (statusCode resp_ok = 200 \/ statusCode resp_ok = 400
      \/ statusCode resp_ok = 500)%Z
  /\ headers resp_ok = [("Content-Type", "application/json")]
  /\ exists d msg,
       body resp_ok = json_dumps d
       /\ campo d "success" = Some (JBool (statusCode resp_ok =? 200)%Z)
       /\ campo d "message" = Some (JString msg).
Proof.
  assert (lambda_handler env_ok cfg_ok ev_ok world_0
          = (Ret resp_ok, snd (lambda_handler env_ok cfg_ok ev_ok world_0)))
    as Hrun by (vm_compute; reflexivity).
  split; [exact Hrun |].
  exact (handler_resposta_bem_formada env_ok cfg_ok ev_ok world_0 _ resp_ok Hrun).
Defined.

Lemma handler_200_sse_witness :
  lambda_handler env_ok cfg_ok ev_ok world_0
  = (Ret resp_ok, snd (lambda_handler env_ok cfg_ok ev_ok world_0))
  /\ (statusCode resp_ok = 200%Z <-> tudo_certo env_ok).
Proof.
  assert (lambda_handler env_ok cfg_ok ev_ok world_0
          = (Ret resp_ok, snd (lambda_handler env_ok cfg_ok ev_ok world_0)))
    as Hrun by (vm_compute; reflexivity).
  split; [exact Hrun |].
  exact (handler_200_sse env_ok cfg_ok ev_ok (JString "a@b.c") (JString "v.mp4")
           (bytes_of "hello") world_0 _ resp_ok cfg_ok_configurado
           ev_ok_validado Hrun).
Defined.

Lemma env_ok_tudo_certo : tudo_certo env_ok.
Proof.
  repeat split; try reflexivity.
  - by exists "".
  - discriminate.
Defined.

Lemma handler_sucesso_chamadas_witness :
  exists w',
    lambda_handler env_ok cfg_ok ev_ok world_0 = (Ret resp_ok, w')
    /\ w_trace w'
       = [AMkdtemp "/tmp/proc_a1b2c3d4";
          APutItem (JString "a@b.c") "0f8fad5bd9cb469fa16570867728950e"
                   status_processando "2024-01-01T12:00:00+00:00" true;
          AWrite "/tmp/proc_a1b2c3d4/20240101_120000_v.mp4" (bytes_of "hello") true;
          AMakedirs "/tmp/proc_a1b2c3d4/frames" true;
          ARun ["ffmpeg"; "-i"; "/tmp/proc_a1b2c3d4/20240101_120000_v.mp4";
                "-vf"; "fps=1"; "-y"; "/tmp/proc_a1b2c3d4/frames/frame_%04d.png"]
               true;
          AGlob "/tmp/proc_a1b2c3d4/frames/*.png";
          AZip "/tmp/proc_a1b2c3d4/frames_20240101_120000.zip"
               [("/tmp/proc_a1b2c3d4/frames/frame_0001.png", "frame_0001.png");
                ("/tmp/proc_a1b2c3d4/frames/frame_0002.png", "frame_0002.png");
                ("/tmp/proc_a1b2c3d4/frames/frame_0003.png", "frame_0003.png")]
               true;
          AUpload "/tmp/proc_a1b2c3d4/frames_20240101_120000.zip" "videos"
                  "outputs/frames_20240101_120000.zip" true;
          AUpdateItem (JString "a@b.c") "0f8fad5bd9cb469fa16570867728950e"
                      "outputs/frames_20240101_120000.zip" status_concluido 3 true;
          ARmtree "/tmp/proc_a1b2c3d4" true]
    /\ dict_get (w_bucket w') "outputs/frames_20240101_120000.zip"
       = Some "/tmp/proc_a1b2c3d4/frames_20240101_120000.zip".
Proof.
  apply (handler_sucesso_chamadas env_ok cfg_ok ev_ok (JString "a@b.c")
           (JString "v.mp4") (bytes_of "hello") world_0).
  - exact cfg_ok_configurado.
  - exact ev_ok_validado.
  - exact env_ok_tudo_certo.
Defined.

(** The decoder exits with 0 and leaves nothing but a log file. *)
Definition env_sem_frames : env :=
  Env "20240101_120000" "/tmp/proc_a1b2c3d4" "0f8fad5bd9cb469fa16570867728950e"
      "2024-01-01T12:00:00+00:00" None None None true (fun _ => false)
      (Ret (0%Z, "")) ["ffmpeg.log"] None None None None.

(** The decoder refuses the file. *)
Definition env_ffmpeg_erro : env :=
  Env "20240101_120000" "/tmp/proc_a1b2c3d4" "0f8fad5bd9cb469fa16570867728950e"
      "2024-01-01T12:00:00+00:00" None None None true (fun _ => false)
      (Ret (1%Z, "Invalid data found when processing input")) []
      None None None None.

(** The record store refuses the final update. *)
Definition env_sem_atualizacao : env :=
  Env "20240101_120000" "/tmp/proc_a1b2c3d4" "0f8fad5bd9cb469fa16570867728950e"
      "2024-01-01T12:00:00+00:00" None None None true (fun _ => false)
      (Ret (0%Z, ""))
      ["frame_0002.png"; "frame_0001.png"; "frame_0003.png"]
      None None (Some erro_banco) None.

Lemma handler_sem_frames_witness :
  exists w',
    lambda_handler env_sem_frames cfg_ok ev_ok world_0
    = (Ret (responder 500 (falha "Nenhum frame extraído do vídeo")), w')
    /\ w_trace w'
       = [AMkdtemp "/tmp/proc_a1b2c3d4";
          APutItem (JString "a@b.c") "0f8fad5bd9cb469fa16570867728950e"
                   status_processando "2024-01-01T12:00:00+00:00" true;
          AWrite "/tmp/proc_a1b2c3d4/20240101_120000_v.mp4" (bytes_of "hello") true;
          AMakedirs "/tmp/proc_a1b2c3d4/frames" true;
          ARun ["ffmpeg"; "-i"; "/tmp/proc_a1b2c3d4/20240101_120000_v.mp4";
                "-vf"; "fps=1"; "-y"; "/tmp/proc_a1b2c3d4/frames/frame_%04d.png"]
               true;
          AGlob "/tmp/proc_a1b2c3d4/frames/*.png";
          ARmtree "/tmp/proc_a1b2c3d4" true]
    /\ w_bucket w' = []
    /\ tbl_get (w_table w') (JString "a@b.c", "0f8fad5bd9cb469fa16570867728950e")
       = Some (registro_processando env_sem_frames).
Proof.
  apply (handler_sem_frames env_sem_frames cfg_ok ev_ok (JString "a@b.c")
           (JString "v.mp4") (bytes_of "hello") world_0 "").
  - exact cfg_ok_configurado.
  - exact ev_ok_validado.
  - reflexivity.
  - reflexivity.
  - reflexivity.
  - reflexivity.
  - reflexivity.
Defined.

Lemma handler_ffmpeg_falha_witness :
  exists w',
    lambda_handler env_ffmpeg_erro cfg_ok ev_ok world_0
    = (Ret (responder 500
              (falha "Erro interno: Erro no ffmpeg: Invalid data found when processing input")),
       w')
    /\ w_trace w'
       = [AMkdtemp "/tmp/proc_a1b2c3d4";
          APutItem (JString "a@b.c") "0f8fad5bd9cb469fa16570867728950e"
                   status_processando "2024-01-01T12:00:00+00:00" true;
          AWrite "/tmp/proc_a1b2c3d4/20240101_120000_v.mp4" (bytes_of "hello") true;
          AMakedirs "/tmp/proc_a1b2c3d4/frames" true;
          ARun ["ffmpeg"; "-i"; "/tmp/proc_a1b2c3d4/20240101_120000_v.mp4";
                "-vf"; "fps=1"; "-y"; "/tmp/proc_a1b2c3d4/frames/frame_%04d.png"]
               true;
          ALog "Erro no processamento";
          ARmtree "/tmp/proc_a1b2c3d4" true]
    /\ w_bucket w' = [].
Proof.
  apply (handler_ffmpeg_falha env_ffmpeg_erro cfg_ok ev_ok (JString "a@b.c")
           (JString "v.mp4") (bytes_of "hello") world_0 1%Z
           "Invalid data found when processing input").
  - exact cfg_ok_configurado.
  - exact ev_ok_validado.
  - reflexivity.
  - reflexivity.
  - reflexivity.
  - reflexivity.
  - discriminate.
Defined.

Lemma handler_falha_atualizacao_witness :
  exists w',
    lambda_handler env_sem_atualizacao cfg_ok ev_ok world_0
    = (Ret (responder 500 (falha ("Erro interno: " +:+ str_of_exn erro_banco))), w')
    /\ dict_get (w_bucket w') "outputs/frames_20240101_120000.zip"
       = Some "/tmp/proc_a1b2c3d4/frames_20240101_120000.zip"
    /\ tbl_get (w_table w') (JString "a@b.c", "0f8fad5bd9cb469fa16570867728950e")
       = Some (registro_processando env_sem_atualizacao)
    /\ List.last (w_trace w') (ALog "") = ARmtree "/tmp/proc_a1b2c3d4" true.
Proof.
  apply (handler_falha_atualizacao env_sem_atualizacao cfg_ok ev_ok
           (JString "a@b.c") (JString "v.mp4") (bytes_of "hello") world_0 ""
           erro_banco).
  - exact cfg_ok_configurado.
  - exact ev_ok_validado.
  - reflexivity.
  - reflexivity.
  - reflexivity.
  - reflexivity.
  - discriminate.
  - reflexivity.
  - reflexivity.
  - reflexivity.
Defined.

Lemma handler_500_causas_witness :
  exists msg,
    responder 500 (falha "Nenhum frame extraído do vídeo")
    = responder 500 (falha msg)
    /\ (msg = "Variável de ambiente BUCKET não configurada"
        \/ msg = "Variável de ambiente TABLE não configurada"
        \/ (exists e, env_put_item env_sem_frames = Some e
                      /\ msg = "Erro ao gravar registro inicial no banco: "
                               +:+ str_of_exn e)
        \/ (msg = "Nenhum frame extraído do vídeo" /\ frames_of env_sem_frames = [])
        \/ (exists detalhe,
              msg = "Erro interno: " +:+ detalhe
              /\ env_put_item env_sem_frames = None
              /\ In (ALog "Erro no processamento")
                    (w_trace (snd (lambda_handler env_sem_frames cfg_ok ev_ok world_0))))).
Proof.
  apply (handler_500_causas env_sem_frames cfg_ok ev_ok world_0
           (snd (lambda_handler env_sem_frames cfg_ok ev_ok world_0))
           (responder 500 (falha "Nenhum frame extraído do vídeo"))).
  - vm_compute. reflexivity.
  - reflexivity.
Defined.

Lemma handler_so_toca_o_seu_witness :
  exists resp w',
    lambda_handler env_ok cfg_ok ev_ok world_0 = (Ret resp, w')
    /\ (forall k, k <> (JString "a@b.c", "0f8fad5bd9cb469fa16570867728950e") ->
                  tbl_get (w_table w') k = tbl_get (w_table world_0) k)
    /\ (forall k, k <> "outputs/frames_20240101_120000.zip" ->
                  dict_get (w_bucket w') k = dict_get (w_bucket world_0) k)
    /\ (w_bucket w' = w_bucket world_0
        \/ (env_upload env_ok = None
            /\ w_bucket w'
               = dict_set (w_bucket world_0) "outputs/frames_20240101_120000.zip"
                          "/tmp/proc_a1b2c3d4/frames_20240101_120000.zip")).
Proof.
  apply (handler_so_toca_o_seu env_ok cfg_ok ev_ok (JString "a@b.c")
           (JString "v.mp4") (bytes_of "hello") world_0).
  - exact cfg_ok_configurado.
  - exact ev_ok_validado.
Defined.

Lemma extrair_frames_nomes_witness :
  exists frames w',
    extrair_frames env_ok "/tmp/proc_a1b2c3d4/20240101_120000_v.mp4"
                   "/tmp/proc_a1b2c3d4" world_0
    = (Ret frames, w')
    /\ frames
       = List.map (String.append "/tmp/proc_a1b2c3d4/frames/")
                  ["frame_0001.png"; "frame_0002.png"; "frame_0003.png"]
    /\ List.map Posixpath.basename frames
       = ["frame_0001.png"; "frame_0002.png"; "frame_0003.png"]
    /\ Sorted str_le frames
    /\ forallb glob_png (List.map Posixpath.basename frames) = true.
Proof.
  apply (extrair_frames_nomes env_ok "/tmp/proc_a1b2c3d4/20240101_120000_v.mp4"
           "/tmp/proc_a1b2c3d4" world_0 "");
    reflexivity.
Defined.

End Exemplos.
